(** * whisperGUI: the application state controller

    A shallow embedding of [src/whisperGUI.py]: the [PromptManager] class
    (named prompt profiles kept in a Python dict that is shared with
    PySimpleGUI's user settings and mirrored in a dropdown), and the
    dispatch loop [start_GUI] that drives it together with the modal
    window manager and the transcriber.

    Python objects that are mutated through several references (the dict
    of saved profiles) live in an explicit heap of references; exceptions
    are the left summand of the result of a computation. *)

From Stdlib Require Import ZArith NArith QArith String Ascii List Lia.
From stdpp Require Import gmap list fin_maps sorting strings.

Local Open Scope N_scope.

(** ** Python strings *)

Module Py.

(** A [str] is a sequence of Unicode code points. *)
Abbreviation str := (list N).

Definition of_string (s : string) : str :=
  map N_of_ascii (list_ascii_of_string s).

(** [str.isspace] for one code point: the whitespace table of CPython
    ([_PyUnicode_IsWhitespace]). *)
Definition isspace (c : N) : bool :=
  ((9 <=? c) && (c <=? 13)) || ((28 <=? c) && (c <=? 32))
  || (c =? 133) || (c =? 160) || (c =? 5760)
  || ((8192 <=? c) && (c <=? 8202))
  || (c =? 8232) || (c =? 8233) || (c =? 8239) || (c =? 8287)
  || (c =? 12288).

Fixpoint lstrip (s : str) : str :=
  match s with
  | c :: s' => if isspace c then lstrip s' else s
  | [] => []
  end.

Definition rstrip (s : str) : str := rev (lstrip (rev s)).

(** [s.strip()] *)
Definition strip (s : str) : str := rstrip (lstrip s).

(** Made of whitespace only; the empty string is. *)
Definition blank (s : str) : Prop := Forall (fun c => isspace c = true) s.

(** Truth value of a string: non-empty. *)
Definition truthy (s : str) : bool :=
  match s with [] => false | _ :: _ => true end.

(** [a <= b] on strings: lexicographic on code points. *)
Fixpoint leb (a b : str) : bool :=
  match a, b with
  | [], _ => true
  | _ :: _, [] => false
  | x :: a', y :: b' =>
      if x <? y then true else if x =? y then leb a' b' else false
  end.

Definition le (a b : str) : Prop := leb a b = true.

#[export] Instance le_dec a b : Decision (le a b).
Proof. unfold le. apply _. Defined.

(** [sorted(xs)]: a stable merge sort, ascending. *)
Definition sorted (xs : list str) : list str := merge_sort le xs.

(** [max(xs, key=len)]: the first element of greatest length; [None]
    stands for the [ValueError] on an empty list. *)
Definition max_len (xs : list str) : option str :=
  match xs with
  | [] => None
  | x :: xs' =>
      Some (fold_left (fun best y =>
                         if (length best <? length y)%nat then y else best)
                      xs' x)
  end.

End Py.

(** ** The prompt profile manager *)

Module PromptManager.

Import Py.

(** References to dict objects, and window handles. *)
Abbreviation ref := positive.
Abbreviation window := positive.

(** [Dict[str, str]]: the listing of a dict is only ever consumed through
    [sorted], so the insertion order is not kept. *)
Abbreviation dict := (gmap str str).

(** The part of an [sg.Combo] element the manager reads and writes:
    [get()] returns [value]; [update(value, values, size)] sets all three. *)
Record Combo := mkCombo {
  value : str;
  values : list str;
  size : nat;
}.

(** The manager's attributes together with what it reaches: the heap of
    dict objects, the entry of PySimpleGUI's user settings under
    [_saved_prompts_settings_key] (a reference into the heap) with the
    successive contents saved to the settings file under that key (newest
    first), the elements of the windows, and the events written to
    windows with [write_event_value] (newest first). *)
Record State := mkState {
  heap : gmap ref dict;
  user_settings : option ref;
  settings_file : list dict;
  _saved_prompt_profiles : ref;
  _dropdown_window : option window;
  _dropdown_key : option str;
  elements : gmap (window * str) Combo;
  event_queue : list (window * str * str);
}.

Definition set_heap (h : gmap ref dict) (s : State) : State :=
  mkState h (user_settings s) (settings_file s) (_saved_prompt_profiles s)
    (_dropdown_window s) (_dropdown_key s) (elements s) (event_queue s).

Definition set_user_settings (u : option ref) (f : list dict) (s : State)
  : State :=
  mkState (heap s) u f (_saved_prompt_profiles s)
    (_dropdown_window s) (_dropdown_key s) (elements s) (event_queue s).

Definition set__saved_prompt_profiles (r : ref) (s : State) : State :=
  mkState (heap s) (user_settings s) (settings_file s) r
    (_dropdown_window s) (_dropdown_key s) (elements s) (event_queue s).

Definition set_dropdown (w : option window) (k : option str) (s : State)
  : State :=
  mkState (heap s) (user_settings s) (settings_file s)
    (_saved_prompt_profiles s) w k (elements s) (event_queue s).

Definition set_elements (e : gmap (window * str) Combo) (s : State) : State :=
  mkState (heap s) (user_settings s) (settings_file s)
    (_saved_prompt_profiles s) (_dropdown_window s) (_dropdown_key s)
    e (event_queue s).

Definition set_event_queue (q : list (window * str * str)) (s : State)
  : State :=
  mkState (heap s) (user_settings s) (settings_file s)
    (_saved_prompt_profiles s) (_dropdown_window s) (_dropdown_key s)
    (elements s) q.

(** *** Computations that read and write the state and may raise *)

Inductive exn :=
| KeyError (k : str)
| IndexError
| ValueError
| InvalidOperation
| TypeError
| NonExistentPromptProfileName (k : str).

Definition M (A : Type) : Type := State -> (exn + A) * State.

Definition ret {A} (x : A) : M A := fun s => (inr x, s).

Definition bind {A B} (m : M A) (f : A -> M B) : M B :=
  fun s => match m s with
           | (inr x, s') => f x s'
           | (inl e, s') => (inl e, s')
           end.

Definition raise {A} (e : exn) : M A := fun s => (inl e, s).

Definition gets {A} (f : State -> A) : M A := fun s => (inr (f s), s).

Definition modify (f : State -> State) : M unit := fun s => (inr tt, f s).

(** [with suppress(KeyError): m] *)
Definition suppress_KeyError (m : M unit) : M unit :=
  fun s => match m s with
           | (inl (KeyError _), s') => (inr tt, s')
           | r => r
           end.

#[export] Instance M_ret : MRet M := @ret.
#[export] Instance M_bind : MBind M := fun A B f m => bind m f.

(** *** Dict objects in the heap *)

(** The dict a reference points to. *)
Definition deref (r : ref) (s : State) : dict := heap s !!! r.

(** [del d[k]]: raises [KeyError] when [k] is not a key. *)
Definition dict_delitem (r : ref) (k : str) : M unit :=
  fun s => match deref r s !! k with
           | Some _ => (inr tt, set_heap (<[r := delete k (deref r s)]> (heap s)) s)
           | None => (inl (KeyError k), s)
           end.

(** [d[k] = v] *)
Definition dict_setitem (r : ref) (k v : str) : M unit :=
  modify (fun s => set_heap (<[r := <[k := v]> (deref r s)]> (heap s)) s).

(** [d.keys()], in some order. *)
Definition dict_keys (r : ref) : M (list str) :=
  gets (fun s => (map_to_list (deref r s)).*1).

(** *** PySimpleGUI's user settings *)

(** [sg.user_settings_get_entry(key, default)] at the saved-prompts key:
    the object stored under the key, or [default] itself. *)
Definition user_settings_get_entry (default : ref) : M ref :=
  gets (fun s => match user_settings s with
                 | Some r => r
                 | None => default
                 end).

(** [sg.user_settings_set_entry(key, value)] at the saved-prompts key:
    stores the reference and saves the settings file, which then holds
    the present content of the dict. *)
Definition user_settings_set_entry (r : ref) : M unit :=
  modify (fun s => set_user_settings (Some r) (deref r s :: settings_file s) s).

(** *** The class *)

(** [_unsaved_prompt_profile_name = "(None)"] *)
Definition _unsaved_prompt_profile_name : str := of_string "(None)".

(** [__init__]: the manager built in a world with the given heap, user
    settings and elements. The default [{}] is a newly allocated dict. *)
Definition __init__ (h : gmap ref dict) (u : option ref) (f : list dict)
    (e : gmap (window * str) Combo) (q : list (window * str * str)) : State :=
  let r := fresh (dom h) in
  let h' := <[r := ∅]> h in
  mkState h' u f (match u with Some r' => r' | None => r end) None None e q.

Definition unsaved_prompt_profile_name : str := _unsaved_prompt_profile_name.

(** The [saved_prompt_profiles] getter: re-reads the settings entry, with
    the dict held so far as the default, and keeps what it read. *)
Definition saved_prompt_profiles : M ref :=
  own ← gets _saved_prompt_profiles;
  r ← user_settings_get_entry own;
  modify (set__saved_prompt_profiles r);;
  ret r.

Definition prompt_profile_names : M (list str) :=
  r ← saved_prompt_profiles;
  ks ← dict_keys r;
  ret (unsaved_prompt_profile_name :: sorted ks).

(** [sorted(d.items(), key=itemgetter(0))] *)
Definition saved_prompt_profiles_list : M (list (str * str)) :=
  r ← saved_prompt_profiles;
  items ← gets (fun s => map_to_list (deref r s));
  ret (merge_sort (fun x y => le x.1 y.1) items).

Definition saved_prompt_profile_names : M (list str) :=
  r ← saved_prompt_profiles;
  ks ← dict_keys r;
  ret (sorted ks).

Definition _save_profiles_to_settings : M unit :=
  r ← saved_prompt_profiles;
  user_settings_set_entry r.

(** The [_dropdown] property. *)
Definition _dropdown : M (option Combo) :=
  gets (fun s => match _dropdown_window s, _dropdown_key s with
                 | Some w, Some k => elements s !! (w, k)
                 | _, _ => None
                 end).

Definition set_prompt_profile_dropdown (w : window) (k : str) : M unit :=
  modify (set_dropdown (Some w) (Some k)).

(** [self._dropdown.get()]; the callers have checked [self._dropdown]. *)
Definition Combo_get : M str :=
  dd ← _dropdown;
  ret (match dd with Some c => value c | None => [] end).

(** [self._dropdown.update(value=..., values=..., size=(width, None))] *)
Definition Combo_update (v : str) (vs : list str) (width : nat) : M unit :=
  modify (fun s => match _dropdown_window s, _dropdown_key s with
                   | Some w, Some k =>
                       set_elements
                         (<[(w, k) := mkCombo v vs width]> (elements s)) s
                   | _, _ => s
                   end).

(** [self._dropdown_window.write_event_value(self._dropdown_key, v)] *)
Definition write_event_value (w : window) (k v : str) : M unit :=
  modify (fun s => set_event_queue ((w, k, v) :: event_queue s) s).

(** [new_selected_profile] is [None] for the default [...]. *)
Definition _update_prompt_profile_dropdown
    (new_selected_profile : option str) : M unit :=
  dd ← _dropdown;
  match dd with
  | Some _ =>
      selected_profile ←
        match new_selected_profile with
        | Some n => ret n
        | None => Combo_get
        end;
      names ← prompt_profile_names;
      longest ← match max_len names with
                | Some m => ret m
                | None => raise ValueError
                end;
      let new_dropdown_width := length longest in
      names' ← prompt_profile_names;
      Combo_update selected_profile names' new_dropdown_width;;
      w ← gets _dropdown_window;
      k ← gets _dropdown_key;
      match w, k, new_selected_profile with
      | Some w, Some k, Some n => write_event_value w k n
      | _, _, _ => ret tt
      end
  | None => ret tt
  end.

Definition _save_profile (profile_name profile_prompt : str)
    (original_profile_name : option str) : M unit :=
  match original_profile_name with
  | Some o =>
      suppress_KeyError (r ← saved_prompt_profiles; dict_delitem r o)
  | None => ret tt
  end;;
  r ← saved_prompt_profiles;
  dict_setitem r profile_name profile_prompt;;
  _save_profiles_to_settings;;
  dd ← _dropdown;
  match dd with
  | Some _ =>
      selected_dropdown_profile_name ← Combo_get;
      if bool_decide (original_profile_name = Some selected_dropdown_profile_name)
      then _update_prompt_profile_dropdown (Some profile_name)
      else _update_prompt_profile_dropdown None
  | None => ret tt
  end.

Definition msg_blank : str :=
  of_string "Invalid prompt name: name can't be empty or whitespace only."
  ++ [10; 10] ++ of_string "Please enter a new prompt name.".

Definition msg_in_use : str :=
  of_string "Invalid prompt name: name already in use."
  ++ [10; 10] ++ of_string "Please enter a new prompt name.".

Definition add_prompt_profile (profile_name profile_prompt : str)
  : M (bool * str) :=
  let error_msg : str := [] in
  if negb (truthy (strip profile_name)) then ret (false, msg_blank)
  else
    names ← prompt_profile_names;
    if bool_decide (profile_name ∈ names) then ret (false, msg_in_use)
    else
      _save_profile profile_name profile_prompt None;;
      ret (true, error_msg).

Definition edit_prompt_profile
    (profile_name profile_prompt original_profile_name : str)
  : M (bool * str) :=
  let is_successful := false in
  let profile_name_changed :=
    negb (bool_decide (profile_name = original_profile_name)) in
  if negb (truthy (strip profile_name)) then ret (is_successful, msg_blank)
  else
    names ← prompt_profile_names;
    if bool_decide (profile_name ∈ names) && profile_name_changed
    then ret (is_successful, msg_in_use)
    else
      let is_successful := true in
      _save_profile profile_name profile_prompt (Some original_profile_name);;
      ret (is_successful, []).

Definition delete_prompt_profile (profile_name : str) : M unit :=
  r ← saved_prompt_profiles;
  dict_delitem r profile_name;;
  _save_profiles_to_settings;;
  dd ← _dropdown;
  match dd with
  | Some _ =>
      selected_prompt_profile_name ← Combo_get;
      if bool_decide (profile_name = selected_prompt_profile_name)
      then _update_prompt_profile_dropdown (Some unsaved_prompt_profile_name)
      else _update_prompt_profile_dropdown None
  | None => ret tt
  end.

(** *** What a caller observes *)

(** The dict object [self.saved_prompt_profiles] evaluates to, and its
    content: the profile mapping. *)
Definition current (s : State) : ref :=
  match user_settings s with
  | Some r => r
  | None => _saved_prompt_profiles s
  end.

Definition profiles (s : State) : dict := deref (current s) s.

(** The bound dropdown element, if any. *)
Definition dropdown (s : State) : option Combo :=
  match _dropdown_window s, _dropdown_key s with
  | Some w, Some k => elements s !! (w, k)
  | _, _ => None
  end.

(** The state once the getter has run: the manager holds the dict it read. *)
Definition rebind (s : State) : State :=
  set__saved_prompt_profiles (current s) s.

(** The listing [prompt_profile_names] returns. *)
Definition names (s : State) : list str :=
  unsaved_prompt_profile_name :: sorted ((map_to_list (profiles s)).*1).

(** The width given to the dropdown for a list of options. *)
Definition width (ns : list str) : nat :=
  match max_len ns with
  | Some m => length m
  | None => 0%nat
  end.

(** The state once the dict a reference points to has been replaced. *)
Definition with_dict (r : ref) (d : dict) (s : State) : State :=
  set_heap (<[r := d]> (heap s)) s.

(** The mapping [_save_profile] leaves: the original name removed, if one
    is given, and the new name set. *)
Definition stored (profile_name profile_prompt : str)
    (original_profile_name : option str) (d : dict) : dict :=
  <[profile_name := profile_prompt]>
    (match original_profile_name with
     | Some o => delete o d
     | None => d
     end).

(** The state once the profile mapping has become [d] and has been written
    to the settings: the content of the dict changed in place, the settings
    entry pointing to that dict, the file saved with it. *)
Definition written (d : dict) (s : State) : State :=
  set_user_settings (Some (current s)) (d :: settings_file s)
    (with_dict (current s) d (rebind s)).

(** The state once the bound dropdown [(w, k)] has been updated to show
    [selected] among the present names, and told of a new selection if
    one was given. *)
Definition synced (new_selected_profile : option str) (w : window) (k : str)
    (selected : str) (s : State) : State :=
  let s1 :=
    set_elements
      (<[(w, k) := mkCombo selected (names s) (width (names s))]> (elements s))
      (rebind s) in
  match new_selected_profile with
  | Some n => set_event_queue ((w, k, n) :: event_queue s1) s1
  | None => s1
  end.

(** The state once the bound dropdown, if there is one, has followed a
    change of the profiles: [reselect] says what to select, from the
    option the dropdown shows. *)
Definition followed (reselect : str -> option str) (s : State) : State :=
  match _dropdown_window s, _dropdown_key s with
  | Some w, Some k =>
      match elements s !! (w, k) with
      | Some c =>
          synced (reselect (value c)) w k
            (default (value c) (reselect (value c))) s
      | None => s
      end
  | _, _ => s
  end.

(** What [_save_profile] selects when the dropdown shows [selected]. *)
Definition reselect_saved (profile_name : str)
    (original_profile_name : option str) (selected : str) : option str :=
  if bool_decide (original_profile_name = Some selected)
  then Some profile_name else None.

(** What [delete_prompt_profile] selects when the dropdown shows
    [selected]. *)
Definition reselect_deleted (profile_name : str) (selected : str)
  : option str :=
  if bool_decide (profile_name = selected)
  then Some unsaved_prompt_profile_name else None.

(** *** Sequences of calls *)

Inductive Op :=
| Add (profile_name profile_prompt : str)
| Edit (profile_name profile_prompt original_profile_name : str)
| Delete (profile_name : str).

(** The state a call leaves, whether it returns or raises. *)
Definition apply (s : State) (o : Op) : State :=
  match o with
  | Add n p => (add_prompt_profile n p s).2
  | Edit n p o => (edit_prompt_profile n p o s).2
  | Delete n => (delete_prompt_profile n s).2
  end.

Definition run (ops : list Op) (s : State) : State := fold_left apply ops s.

(** An edit of the unsaved profile name into itself. *)
Definition edits_unsaved_name (o : Op) : Prop :=
  match o with
  | Edit n _ o =>
      n = unsaved_prompt_profile_name /\ o = unsaved_prompt_profile_name
  | _ => False
  end.

(** *** States to try the methods on *)

(** A manager in a world without settings entry, elements or events. *)
Definition empty_store : State := __init__ ∅ None [] ∅ [].

(** A manager with the profile "A" saved and the dropdown of window 1
    bound to it, showing "A". *)
Definition bound_store : State :=
  let A := of_string "A" in
  let key := of_string "-PROMPT-PROFILE-" in
  let s := (add_prompt_profile A (of_string "p1") empty_store).2 in
  set_dropdown (Some 1%positive) (Some key)
    (set_elements
       {[ (1%positive, key) := mkCombo A [unsaved_prompt_profile_name; A] 6 ]}
       s).

End PromptManager.

(** ** The transcriber *)

Module Transcriber.

Import Py.

(** Modelled from the spec: the states of a job of the [Transcriber] class
    of [transcriber.py], which is not among the sources: Idle at first,
    Running after a start, then Done, through Stopping if a stop was
    requested. *)
Inductive JobState := Idle | Running | Stopping | Done.

(** Modelled from the spec: the attributes of the [Transcriber] class. The
    names are the ones [start_GUI] uses; the spec calls [num_tasks] the
    total count, [num_tasks_done] the completed count and
    [transcribe_thread] the worker handle, here whether it is held. Times
    are clock readings. *)
Record t := mk {
  state : JobState;
  transcribe_thread : bool;
  files : list str;
  num_tasks : nat;
  num_tasks_done : nat;
  current_file : option str;
  started_at : Z;
}.

(** Modelled from the spec: a new [Transcriber] is Idle and holds no
    worker. *)
Definition init : t := mk Idle false [] 0 0 None 0.

(** Modelled from the spec: [start] spawns the worker and sets the total
    count to [len(files)], the completed count to 0, the state to Running. *)
Definition start (audio_video_file_paths : list str) (now : Z) (tr : t) : t :=
  mk Running true audio_video_file_paths (length audio_video_file_paths) 0
     None now.

(** Modelled from the spec: [is_running], a pure query, which [start_GUI]
    reads as the attribute [is_transcribing]; it holds of a job that is
    Stopping too, since the loop asks [is_stopping()] under it. *)
Definition is_transcribing (tr : t) : bool :=
  match state tr with
  | Running | Stopping => true
  | Idle | Done => false
  end.

(** Modelled from the spec: [is_stopping], a pure query. *)
Definition is_stopping (tr : t) : bool :=
  match state tr with
  | Stopping => true
  | _ => false
  end.

(** Modelled from the spec: [stop], if Running, signals the worker to stop
    after its current file and moves to Stopping; otherwise it is a no-op. *)
Definition stop (tr : t) : t :=
  match state tr with
  | Running =>
      mk Stopping (transcribe_thread tr) (files tr) (num_tasks tr)
         (num_tasks_done tr) (current_file tr) (started_at tr)
  | _ => tr
  end.

(** Modelled from the spec: [done] (finish) releases the worker handle,
    moves to Done and returns the time elapsed since [start]; called again
    before the next [start] it changes nothing and returns the sentinel
    [None]. *)
Definition done (success : bool) (now : Z) (tr : t) : option Z * t :=
  match state tr with
  | Running | Stopping =>
      (Some (now - started_at tr)%Z,
       mk Done false (files tr) (num_tasks tr) (num_tasks_done tr)
          (current_file tr) (started_at tr))
  | Idle | Done => (None, tr)
  end.

(** [transcriber.num_tasks_done += 1], as [start_GUI] does on a progress
    event. *)
Definition incr_num_tasks_done (tr : t) : t :=
  mk (state tr) (transcribe_thread tr) (files tr) (num_tasks tr)
     (num_tasks_done tr + 1) (current_file tr) (started_at tr).

End Transcriber.

(** ** Windows and the modal window manager *)

Module Gui.

Import PromptManager.

(** The windows of PySimpleGUI, as far as the loop and the manager deal
    with them: the next handle to hand out, the windows that are open, and
    the windows that hold the input-blocking focus. *)
Record t := mk {
  next_window : window;
  open_windows : gset window;
  modal : gset window;
}.

Definition init : t := mk 1%positive ∅ ∅.

(** A window is created open. *)
Definition new_window (g : t) : window * t :=
  (next_window g,
   mk (Pos.succ (next_window g)) ({[next_window g]} ∪ open_windows g) (modal g)).

(** [window.close()] *)
Definition close (w : window) (g : t) : t :=
  mk (next_window g) (open_windows g ∖ {[w]}) (modal g).

Definition is_open (g : t) (w : window) : bool :=
  bool_decide (w ∈ open_windows g).

End Gui.

Module ModalWindowManager.

Import PromptManager.

(** Modelled from the spec: the [ModalWindowManager] class of
    [ext_PySimpleGUI.py], which is not among the sources. It keeps the
    tracked windows, oldest first. *)
Definition t := list window.

(** Modelled from the spec: a new manager tracks no window. *)
Definition init : t := [].

(** Modelled from the spec: [track_modal_window] registers a window as a
    candidate for the modal focus. *)
Definition track_modal_window (w : window) (m : t) : t := m ++ [w].

(** Modelled from the spec: [update] (reconcile) scans the tracked windows,
    drops the closed ones, sets the input-blocking focus on the most
    recently tracked one that is still open and clears it from all the
    others it tracked. *)
Definition update (m : t) (g : Gui.t) : t * Gui.t :=
  let live := filter (fun w => w ∈ Gui.open_windows g) m in
  let cleared := Gui.modal g ∖ list_to_set m in
  (live,
   Gui.mk (Gui.next_window g) (Gui.open_windows g)
     (match last live with
      | Some w => {[w]} ∪ cleared
      | None => cleared
      end)).

(** The active modal windows: the tracked windows that are open and hold
    the focus. *)
Definition active (m : t) (g : Gui.t) : list window :=
  filter (fun w => w ∈ Gui.open_windows g ∧ w ∈ Gui.modal g) (remove_dups m).

(** The calls that reach the manager and the windows it tracks: a window
    is created, tracked or closed, or the manager is asked to update. *)
Inductive Op :=
| Open
| Track (w : window)
| Close (w : window)
| Reconcile.

Definition step (st : t * Gui.t) (o : Op) : t * Gui.t :=
  match o with
  | Open => (st.1, (Gui.new_window st.2).2)
  | Track w => (track_modal_window w st.1, st.2)
  | Close w => (st.1, Gui.close w st.2)
  | Reconcile => update st.1 st.2
  end.

Definition run (ops : list Op) (st : t * Gui.t) : t * Gui.t :=
  fold_left step ops st.

(** The focus is held by tracked windows only, and by one at most. *)
Definition consistent (st : t * Gui.t) : Prop :=
  (forall w, w ∈ Gui.modal st.2 -> w ∈ st.1)
  /\ (forall w1 w2, w1 ∈ Gui.modal st.2 -> w2 ∈ Gui.modal st.2 -> w1 = w2).

End ModalWindowManager.

(** ** The dispatch loop *)

Module App.

Import Py PromptManager.

Module Keys.

Definition PROMPT_PROFILE_DROPDOWN : str := of_string "-PROMPT-PROFILE-".

Definition NEW_PROFILE_NAME : str := of_string "-NEW-PROMPT-NAME-".

End Keys.

(** The calls the loop makes that the properties below speak of, newest
    first. *)
Inductive Call :=
| CallTrackModal (w : window)
| CallUpdate
| CallStop
| CallClose (w : window).

#[export] Instance Call_eq_dec : EqDecision Call.
Proof. solve_decision. Defined.

(** The local variables of [start_GUI] and the objects they refer to;
    [selected_profile_setting] is the user settings entry under
    [Keys.PROMPT_PROFILE_DROPDOWN]; [window_tracker] lists the windows the
    tracker holds (modelled from the spec: the [WindowTracker] class of
    [ext_PySimpleGUI.py] is not among the sources); [metadata] is the
    [metadata] of the name input of the add and edit windows. *)
Record t := mk {
  prompt_manager : State;
  modal_window_manager : ModalWindowManager.t;
  transcriber : Transcriber.t;
  window_tracker : list window;
  gui : Gui.t;
  main_window : window;
  prompt_manager_window : option window;
  add_new_prompt_window : option window;
  selected_profile_setting : option str;
  log : list Call;
  metadata : gmap window str;
}.

Definition set_prompt_manager (p : State) (a : t) : t :=
  mk p (modal_window_manager a) (transcriber a) (window_tracker a) (gui a)
     (main_window a) (prompt_manager_window a) (add_new_prompt_window a)
     (selected_profile_setting a) (log a) (metadata a).

Definition set_modal_window_manager (m : ModalWindowManager.t) (l : list Call)
    (a : t) : t :=
  mk (prompt_manager a) m (transcriber a) (window_tracker a) (gui a)
     (main_window a) (prompt_manager_window a) (add_new_prompt_window a)
     (selected_profile_setting a) l (metadata a).

Definition set_transcriber (tr : Transcriber.t) (a : t) : t :=
  mk (prompt_manager a) (modal_window_manager a) tr (window_tracker a) (gui a)
     (main_window a) (prompt_manager_window a) (add_new_prompt_window a)
     (selected_profile_setting a) (log a) (metadata a).

Definition set_window_tracker (ws : list window) (a : t) : t :=
  mk (prompt_manager a) (modal_window_manager a) (transcriber a) ws (gui a)
     (main_window a) (prompt_manager_window a) (add_new_prompt_window a)
     (selected_profile_setting a) (log a) (metadata a).

Definition set_gui (g : Gui.t) (a : t) : t :=
  mk (prompt_manager a) (modal_window_manager a) (transcriber a)
     (window_tracker a) g
     (main_window a) (prompt_manager_window a) (add_new_prompt_window a)
     (selected_profile_setting a) (log a) (metadata a).

Definition set_main_window (w : window) (a : t) : t :=
  mk (prompt_manager a) (modal_window_manager a) (transcriber a)
     (window_tracker a) (gui a)
     w (prompt_manager_window a) (add_new_prompt_window a)
     (selected_profile_setting a) (log a) (metadata a).

Definition set_prompt_manager_window (w : option window) (a : t) : t :=
  mk (prompt_manager a) (modal_window_manager a) (transcriber a)
     (window_tracker a) (gui a)
     (main_window a) w (add_new_prompt_window a)
     (selected_profile_setting a) (log a) (metadata a).

Definition set_add_new_prompt_window (w : option window) (a : t) : t :=
  mk (prompt_manager a) (modal_window_manager a) (transcriber a)
     (window_tracker a) (gui a)
     (main_window a) (prompt_manager_window a) w
     (selected_profile_setting a) (log a) (metadata a).

Definition set_selected_profile_setting (v : option str) (a : t) : t :=
  mk (prompt_manager a) (modal_window_manager a) (transcriber a)
     (window_tracker a) (gui a)
     (main_window a) (prompt_manager_window a) (add_new_prompt_window a)
     v (log a) (metadata a).

Definition set_log (l : list Call) (a : t) : t :=
  mk (prompt_manager a) (modal_window_manager a) (transcriber a)
     (window_tracker a) (gui a)
     (main_window a) (prompt_manager_window a) (add_new_prompt_window a)
     (selected_profile_setting a) l (metadata a).

Definition set_metadata (md : gmap window str) (a : t) : t :=
  mk (prompt_manager a) (modal_window_manager a) (transcriber a)
     (window_tracker a) (gui a)
     (main_window a) (prompt_manager_window a) (add_new_prompt_window a)
     (selected_profile_setting a) (log a) md.

(** The windows of the loop, as the modal window manager sees them. *)
Definition windows (a : t) : ModalWindowManager.t * Gui.t :=
  (modal_window_manager a, gui a).

(** How many times the modal window manager was asked to update. *)
Definition updates (a : t) : nat :=
  length (filter (fun c => c = CallUpdate) (log a)).

(** *** The calls on the collaborators *)

(** [Window(...)]: a new window of the toolkit. *)
Definition new_window (a : t) : window * t :=
  let '(w, g) := Gui.new_window (gui a) in (w, set_gui g a).

(** [w.close()] *)
Definition close (w : window) (a : t) : t :=
  set_log (CallClose w :: log a) (set_gui (Gui.close w (gui a)) a).

(** Modelled from the spec: [window_tracker.track_window(w)], of the
    [WindowTracker] class of [ext_PySimpleGUI.py], registers the window;
    it returns [w]. *)
Definition track_window (w : window) (a : t) : t :=
  set_window_tracker (window_tracker a ++ [w]) a.

(** [modal_window_manager.track_modal_window(w)] *)
Definition track_modal_window (w : window) (a : t) : t :=
  set_modal_window_manager
    (ModalWindowManager.track_modal_window w (modal_window_manager a))
    (CallTrackModal w :: log a) a.

(** [modal_window_manager.update()] *)
Definition update (a : t) : t :=
  let '(m, g) := ModalWindowManager.update (modal_window_manager a) (gui a) in
  set_gui g (set_modal_window_manager m (CallUpdate :: log a) a).

(** [transcriber.stop()] *)
Definition stop (a : t) : t :=
  set_log (CallStop :: log a)
    (set_transcriber (Transcriber.stop (transcriber a)) a).

(** A call of a method of [prompt_manager]. *)
Definition call {A} (m : M A) (a : t) : (exn + A) * t :=
  let '(r, p) := m (prompt_manager a) in (r, set_prompt_manager p a).

(** Modelled from the spec: [popup_tracked(..., window_tracker=...,
    non_blocking=True)] of [ext_PySimpleGUI.py], which is not among the
    sources: it opens a popup window, has the window tracker (the spec's
    window registry) track it, and returns it. *)
Definition popup_tracked (a : t) : window * t :=
  let '(w, a) := new_window a in (w, track_window w a).

(** [popup_tracked(...)] followed by
    [modal_window_manager.track_modal_window(popup_window)]. *)
Definition popup_tracked_modal (a : t) : t :=
  let '(w, a) := popup_tracked a in track_modal_window w a.

(** [popup_prompt_manager(prompt_manager)]: the table is filled from
    [prompt_manager.saved_prompt_profiles_list]. *)
Definition popup_prompt_manager (a : t) : window * t :=
  let '(_, a) := call saved_prompt_profiles_list a in
  new_window a.

(** [make_main_window(prompt_manager)]: the dropdown of the new window
    lists [prompt_manager.prompt_profile_names] and shows the profile
    selected in the settings, the unsaved profile by default; the prompt
    input is filled from [prompt_manager.saved_prompt_profiles]. *)
Definition make_main_window (a : t) : window * t :=
  let startup_prompt_profile :=
    default unsaved_prompt_profile_name (selected_profile_setting a) in
  let '(names, a) := call prompt_profile_names a in
  let '(_, a) := call saved_prompt_profiles a in
  let '(w, a) := new_window a in
  let combo :=
    mkCombo startup_prompt_profile
      (match names with inr ns => ns | inl _ => [] end) 0 in
  let p := prompt_manager a in
  (w, set_prompt_manager
        (set_elements
           (<[(w, Keys.PROMPT_PROFILE_DROPDOWN) := combo]> (elements p)) p) a).

Definition make_tracked_main_window_with_synced_profiles (a : t)
  : window * t :=
  let '(w, a) := make_main_window a in
  let a := track_window w a in
  let '(_, a) :=
    call (set_prompt_profile_dropdown w Keys.PROMPT_PROFILE_DROPDOWN) a in
  (w, a).

(** [popup_add_edit_prompt_profile(title, submit_event, profile_name,
    profile_prompt)]: the name input of the new window is given
    [profile_name] as its [metadata]. *)
Definition popup_add_edit_prompt_profile (profile_name : str) (a : t)
  : window * t :=
  let '(win, a) := new_window a in
  (win, set_metadata (<[win := profile_name]> (metadata a)) a).

(** [popup_add_prompt_profile(title, submit_event)] *)
Definition popup_add_prompt_profile (a : t) : window * t :=
  popup_add_edit_prompt_profile [] a.

(** [popup_edit_prompt_profile(title, submit_event, profile_name,
    profile_prompt)] *)
Definition popup_edit_prompt_profile (profile_name : str) (a : t)
  : window * t :=
  popup_add_edit_prompt_profile profile_name a.

(** [sg.PopupError(...)]: a blocking popup; its window is open until the
    user closes it, and the call returns then. *)
Definition PopupError (a : t) : t :=
  let '(w, a) := new_window a in set_gui (Gui.close w (gui a)) a.

(** [reload_prompt_manager_window]: [location] is what
    [current_location(more_accurate=True)] returns for the window. *)
Definition reload_prompt_manager_window (location : option (Z * Z)) (a : t)
  : option window * t :=
  match prompt_manager_window a with
  | Some old =>
      match location with
      | None => (None, PopupError a)
      | Some _ =>
          let '(new_prompt_manager_window, a) := popup_prompt_manager a in
          let a := close old a in
          let a := track_window new_prompt_manager_window a in
          let a := update a in
          let a := track_modal_window old a in
          (Some new_prompt_manager_window, a)
      end
  | None => (None, a)
  end.

(** *** Events *)

(** A [Decimal] built from the text of the scaling input. *)
Inductive Decimal :=
| Finite (q : Q)
| Infinity (negative : bool)
| NaN.

(** What [sg.read_all_windows] returns, by the branch of the loop that
    handles it, with the parts of [window] and [values] the branch reads. *)
Inductive Event :=
| Closing (w : window)
    (* sg.WIN_CLOSED, "Exit", "Close", "Cancel" or "OK", from window [w] *)
| PRINT_ME
| OUTPUT_DIR_FIELD
| LANGUAGE
| MODEL
| CustomCheckbox
| START_PROMPT_MANAGER
| OPEN_ADD_PROMPT_WINDOW
| OPEN_EDIT_PROMPT_WINDOW (selected_table_row_indices : list nat)
| ADD_PROMPT_PROFILE (w : window) (new_profile_name new_profile_prompt : str)
| EDIT_PROMPT_PROFILE (w : window) (new_profile_name new_profile_prompt : str)
    (* what the inputs of window [w] hold, if it has them *)
| DELETE_PROMPT (selected_table_row_indices : list nat)
| INITIAL_PROMPT_INPUT (w : window)
| PROMPT_PROFILE_DROPDOWN (chosen_prompt_profile : str)
| LANGUAGE_SPECIFIER_SETTING
| APPLY_GLOBAL_SCALING (scaling_input : option Decimal)
    (* [None]: the text is no decimal, [decimal.InvalidOperation] *)
| MODEL_INFO_TOGGLE
| START (in_file out_dir : str) (audio_video_file_paths : list str)
    (* the last is [str_to_file_paths] of the stripped [in_file] *)
| TRANSCRIBE_PROGRESS
| TRANSCRIBE_SUCCESS
| TRANSCRIBE_ERROR
| TRANSCRIBE_STOPPED
| Timeout.

(** What the surroundings answer during one iteration: the clock, the
    result of [sg.one_line_progress_meter], the meter's window when the
    meter is among the active ones, and the location of the prompt
    manager window. *)
Record Env := mkEnv {
  now : Z;
  meter_updated : bool;
  meter_window : option window;
  location : option (Z * Z);
}.

(** How an iteration of the loop body ends: it runs to its end, takes
    [continue], takes [break], or raises. *)
Inductive Outcome :=
| Next
| Continue
| Break
| Raise (e : exn).

(** [GUI_Settings.MIN_SCALING <= scaling_input <= GUI_Settings.MAX_SCALING];
    [None] when the comparison raises [InvalidOperation]. *)
Definition scaling_in_range (d : Decimal) : option bool :=
  match d with
  | Finite q => Some (Qle_bool (1 # 2) q && Qle_bool q (3 # 1))
  | Infinity _ => Some false
  | NaN => None
  end.

(** Modelled from the spec: [GenEvents.TRANSCRIBE_DONE_NO_SUCCESS_EVENTS],
    a constant of [transcriber.py]: the job finished unsuccessfully or was
    stopped. *)
Definition TRANSCRIBE_DONE_NO_SUCCESS_EVENTS (ev : Event) : bool :=
  match ev with
  | TRANSCRIBE_ERROR | TRANSCRIBE_STOPPED => true
  | _ => false
  end.

(** *** The loop body *)

(** The handling of an add or edit once the manager has answered. *)
Definition after_add_edit (w : window) (env : Env) (r : (exn + bool * str) * t)
  : Outcome * t :=
  match r with
  | (inl e, a) => (Raise e, a)
  | (inr (true, _), a) =>
      let a := close w a in
      let a := set_add_new_prompt_window None a in
      let '(pmw, a) := reload_prompt_manager_window (location env) a in
      (Next, set_prompt_manager_window pmw a)
  | (inr (false, error_msg), a) => (Next, popup_tracked_modal a)
  end.

(** The [if]/[elif] chain on the event. *)
Definition dispatch (ev : Event) (env : Env) (a : t) : Outcome * t :=
  match ev with
  | Closing w =>
      if bool_decide (w = main_window a) then
        if Transcriber.transcribe_thread (transcriber a)
        then (Break, stop a)
        else (Break, a)
      else
        let a :=
          if bool_decide (Some w = add_new_prompt_window a)
          then set_add_new_prompt_window None a
          else if bool_decide (Some w = prompt_manager_window a)
               then set_prompt_manager_window None a
               else a in
        (Next, close w a)
  | PRINT_ME | OUTPUT_DIR_FIELD | LANGUAGE | MODEL | CustomCheckbox =>
      (Next, a)
  | START_PROMPT_MANAGER =>
      let '(w, a) := popup_prompt_manager a in
      let a := track_window w a in
      let a := set_prompt_manager_window (Some w) a in
      (Next, track_modal_window w a)
  | OPEN_ADD_PROMPT_WINDOW =>
      let '(w, a) := popup_add_prompt_profile a in
      let a := set_add_new_prompt_window (Some w) a in
      (Next, track_modal_window w a)
  | OPEN_EDIT_PROMPT_WINDOW rows =>
      match rows with
      | i :: _ =>
          let '(l, a) := call saved_prompt_profiles_list a in
          match l with
          | inl e => (Raise e, a)
          | inr l =>
              match l !! i with
              | Some (selected_profile_name, selected_profile_prompt) =>
                  let '(edit_prompt_window, a) :=
                    popup_edit_prompt_profile selected_profile_name a in
                  (Next, track_modal_window edit_prompt_window a)
              | None => (Raise IndexError, a)
              end
          end
      | [] => (Next, popup_tracked_modal a)
      end
  | ADD_PROMPT_PROFILE w new_profile_name new_profile_prompt =>
      (* [values[Keys.NEW_PROFILE_NAME]] and
         [window[Keys.NEW_PROFILE_NAME].metadata]: only the add and edit
         windows have the input *)
      match metadata a !! w with
      | Some original_profile_name =>
          after_add_edit w env
            (call (add_prompt_profile new_profile_name new_profile_prompt) a)
      | None => (Raise (KeyError Keys.NEW_PROFILE_NAME), a)
      end
  | EDIT_PROMPT_PROFILE w new_profile_name new_profile_prompt =>
      match metadata a !! w with
      | Some original_profile_name =>
          after_add_edit w env
            (call (edit_prompt_profile new_profile_name new_profile_prompt
                     original_profile_name) a)
      | None => (Raise (KeyError Keys.NEW_PROFILE_NAME), a)
      end
  | DELETE_PROMPT rows =>
      match rows with
      | i :: _ =>
          let '(l, a) := call saved_prompt_profile_names a in
          match l with
          | inl e => (Raise e, a)
          | inr prompt_profile_names =>
              match prompt_profile_names !! i with
              | Some prompt_profile_name_to_delete =>
                  match call (delete_prompt_profile
                                prompt_profile_name_to_delete) a with
                  | (inl e, a) => (Raise e, a)
                  | (inr _, a) =>
                      let '(pmw, a) :=
                        reload_prompt_manager_window (location env) a in
                      (Next, set_prompt_manager_window pmw a)
                  end
              | None => (Raise IndexError, a)
              end
          end
      | [] => (Next, popup_tracked_modal a)
      end
  | INITIAL_PROMPT_INPUT w =>
      let p := prompt_manager a in
      let k := (w, Keys.PROMPT_PROFILE_DROPDOWN) in
      (Next,
       set_prompt_manager
         (set_elements
            (alter (fun c => mkCombo unsaved_prompt_profile_name (values c)
                               (size c)) k (elements p)) p) a)
  | PROMPT_PROFILE_DROPDOWN chosen_prompt_profile =>
      let '(l, a) := call saved_prompt_profile_names a in
      match l with
      | inl e => (Raise e, a)
      | inr saved =>
          if bool_decide (chosen_prompt_profile ∈ saved) then
            let '(_, a) := call saved_prompt_profiles a in
            (Next, set_selected_profile_setting (Some chosen_prompt_profile) a)
          else if bool_decide
                    (chosen_prompt_profile = unsaved_prompt_profile_name) then
            (Next, set_selected_profile_setting (Some chosen_prompt_profile) a)
          else (Raise (NonExistentPromptProfileName chosen_prompt_profile), a)
      end
  | LANGUAGE_SPECIFIER_SETTING => (Next, a)
  | APPLY_GLOBAL_SCALING scaling_input =>
      match scaling_input with
      | None => (Continue, popup_tracked_modal a)
      | Some d =>
          match scaling_in_range d with
          | None => (Raise InvalidOperation, a)
          | Some false => (Continue, popup_tracked_modal a)
          | Some true =>
              let a := fold_left (fun a win => close win a)
                                 (window_tracker a) a in
              let a := set_window_tracker [] a in
              let '(w, a) := make_tracked_main_window_with_synced_profiles a in
              (Next, set_main_window w a)
          end
      end
  | MODEL_INFO_TOGGLE => (Next, a)
  | START in_file out_dir audio_video_file_paths =>
      if truthy (strip in_file) && truthy (strip out_dir) then
        (Next,
         set_transcriber
           (Transcriber.start audio_video_file_paths (now env) (transcriber a))
           a)
      else (Next, popup_tracked_modal a)
  | TRANSCRIBE_PROGRESS =>
      (Next,
       set_transcriber (Transcriber.incr_num_tasks_done (transcriber a)) a)
  | TRANSCRIBE_SUCCESS =>
      let '(transcription_time_float, tr) :=
        Transcriber.done true (now env) (transcriber a) in
      match transcription_time_float with
      | Some _ => (Next, popup_tracked_modal (set_transcriber tr a))
      | None =>
          (* [f"{transcription_time_float:.4f}"] of [None]: a [TypeError],
             which [popup_on_error(TimerError, ...)] lets through *)
          (Raise TypeError, set_transcriber tr a)
      end
  | TRANSCRIBE_ERROR => (Next, popup_tracked_modal a)
  | TRANSCRIBE_STOPPED => (Next, a)
  | Timeout => (Next, a)
  end.

(** What every iteration does after the chain, unless it left the body. *)
Definition housekeeping (ev : Event) (env : Env) (a : t) : t :=
  let a :=
    if TRANSCRIBE_DONE_NO_SUCCESS_EVENTS ev
    then set_transcriber
           (Transcriber.done false (now env) (transcriber a)).2 a
    else a in
  let a :=
    if Transcriber.is_transcribing (transcriber a) then
      if negb (Transcriber.is_stopping (transcriber a)) then
        if meter_updated env then
          match meter_window env with
          | Some w => track_modal_window w a
          | None => a
          end
        else stop a
      else a
    else a in
  update a.

Definition loop_body (ev : Event) (env : Env) (a : t) : Outcome * t :=
  match dispatch ev env a with
  | (Next, a) => (Next, housekeeping ev env a)
  | r => r
  end.

(** The iterations that reload the prompt manager window: that window is
    there and its location is known, and the event is an add or an edit,
    from a window with the name input, with a name the manager accepts
    (not blank, and not listed unless an edit keeps the original name), or
    a delete with a row of the table selected. *)
Definition reloads (ev : Event) (env : Env) (a : t) : Prop :=
  let s := prompt_manager a in
  is_Some (prompt_manager_window a) /\ is_Some (location env)
  /\ match ev with
     | ADD_PROMPT_PROFILE w name _ =>
         is_Some (metadata a !! w) /\ ~ blank name /\ name ∉ names s
     | EDIT_PROMPT_PROFILE w name _ =>
         exists original,
           metadata a !! w = Some original
           /\ ~ blank name /\ (name = original \/ name ∉ names s)
     | DELETE_PROMPT (i :: _) => is_Some (tail (names s) !! i)
     | _ => False
     end.

(** *** [start_GUI] *)

(** The objects [start_GUI] creates before the loop, in a world with the
    given settings. *)
Definition setup (h : gmap ref dict) (u : option ref) (f : list dict)
    (selected : option str) : t :=
  let a :=
    mk (__init__ h u f ∅ []) ModalWindowManager.init Transcriber.init []
       Gui.init 1%positive None None selected [] ∅ in
  let '(w, a) := make_tracked_main_window_with_synced_profiles a in
  set_main_window w a.

(** How a run of the loop over the events delivered so far stands. *)
Inductive Status :=
| Looping
| Returned
| Raised (e : exn).

(** The loop over the events that [sg.read_all_windows] delivers, and
    after it the final [main_window.close()]. *)
Fixpoint loop (evs : list (Event * Env)) (a : t) : Status * t :=
  match evs with
  | [] => (Looping, a)
  | (ev, env) :: evs' =>
      match loop_body ev env a with
      | (Break, a) => (Returned, close (main_window a) a)
      | (Raise e, a) => (Raised e, a)
      | (Next, a) | (Continue, a) => loop evs' a
      end
  end.

Definition start_GUI (h : gmap ref dict) (u : option ref) (f : list dict)
    (selected : option str) (evs : list (Event * Env)) : Status * t :=
  loop evs (setup h u f selected).

(** The unsaved profile name is kept apart: no profile is saved under it,
    and no add or edit window was made for it. *)
Definition unsaved_name_free (a : t) : Prop :=
  profiles (prompt_manager a) !! unsaved_prompt_profile_name = None
  /\ forall w v, metadata a !! w = Some v -> v <> unsaved_prompt_profile_name.

End App.

(** ** The dropdown of the main window *)

Module MainWindow.

Import Py PromptManager.

(** The branch of the loop for [Keys.PROMPT_PROFILE_DROPDOWN], as far as
    [new_initial_prompt_input], the text it gives the initial prompt
    input: [saved_prompt_profiles[chosen_prompt_profile]] for a saved
    profile, the empty text for the unsaved profile name. *)
Definition new_initial_prompt_input (chosen_prompt_profile : str) : M str :=
  saved ← saved_prompt_profile_names;
  if bool_decide (chosen_prompt_profile ∈ saved) then
    r ← saved_prompt_profiles;
    d ← gets (deref r);
    match d !! chosen_prompt_profile with
    | Some prompt => ret prompt
    | None => raise (KeyError chosen_prompt_profile)
    end
  else if bool_decide (chosen_prompt_profile = unsaved_prompt_profile_name)
  then ret []
  else raise (NonExistentPromptProfileName chosen_prompt_profile).

(** The prompt manager updates the dropdown of the main window there is:
    it is bound to the element under [Keys.PROMPT_PROFILE_DROPDOWN] of
    [main_window], and the element exists. *)
Definition dropdown_bound_to_main_window (a : App.t) : Prop :=
  _dropdown_window (App.prompt_manager a) = Some (App.main_window a)
  /\ _dropdown_key (App.prompt_manager a)
     = Some App.Keys.PROMPT_PROFILE_DROPDOWN
  /\ is_Some (elements (App.prompt_manager a)
                !! (App.main_window a, App.Keys.PROMPT_PROFILE_DROPDOWN)).

End MainWindow.

(** * Properties *)

(** ** Strings *)

Module PyFacts.

Import Py.

Lemma lstrip_blank s : lstrip s = [] <-> blank s.
Proof.
  unfold blank. induction s as [|c s IH]; simpl.
  - split; [constructor | reflexivity].
  - destruct (isspace c) eqn:Hc.
    + rewrite IH. split.
      * intros H. constructor; assumption.
      * intros H. inversion H; assumption.
    + split; [discriminate |].
      intros H. inversion H; congruence.
Qed.

Lemma lstrip_suffix s : exists p, s = p ++ lstrip s /\ blank p.
Proof.
  induction s as [|c s [p [Hp Hb]]]; simpl.
  - exists []. split; [reflexivity | constructor].
  - destruct (isspace c) eqn:Hc.
    + exists (c :: p). split; [simpl; congruence | constructor; assumption].
    + exists []. split; [reflexivity | constructor].
Qed.

Lemma blank_app p s : blank (p ++ s) <-> blank p /\ blank s.
Proof. apply Forall_app. Qed.

Lemma blank_rev s : blank (rev s) <-> blank s.
Proof.
  unfold blank. induction s as [|c s IH]; simpl; [reflexivity |].
  rewrite Forall_app, IH. split.
  - intros [H1 H2]. inversion H2; subst. constructor; assumption.
  - intros H. inversion H; subst. split; [assumption |].
    constructor; [assumption | constructor].
Qed.

(** [not s.strip()] holds exactly of the strings made of whitespace only,
    the empty one among them. *)
Lemma strip_blank s : truthy (strip s) = false <-> blank s.
Proof.
  assert (Hnil : forall l : str, truthy l = false <-> l = []).
  { intros [|x l]; simpl; split; congruence. }
  rewrite Hnil. unfold strip, rstrip.
  destruct (lstrip_suffix s) as [p [Hs Hp]].
  split.
  - intros H.
    assert (Hr : lstrip (rev (lstrip s)) = []).
    { destruct (lstrip (rev (lstrip s))) as [|x l]; [reflexivity |].
      simpl in H. destruct (rev l); discriminate. }
    apply (proj1 (lstrip_blank _)) in Hr.
    apply (proj1 (blank_rev _)) in Hr.
    rewrite Hs. apply blank_app. split; assumption.
  - intros H. apply lstrip_blank in H. rewrite H. reflexivity.
Qed.

Lemma leb_refl a : leb a a = true.
Proof.
  induction a as [|x a IH]; simpl; [reflexivity |].
  rewrite N.ltb_irrefl, N.eqb_refl. exact IH.
Qed.

Lemma leb_total a b : leb a b = true \/ leb b a = true.
Proof.
  revert b. induction a as [|x a IH]; intros [|y b]; simpl; auto.
  destruct (N.ltb_spec x y), (N.ltb_spec y x); auto; try lia.
  assert (x = y) by lia. subst. rewrite N.eqb_refl. apply IH.
Qed.

Lemma leb_cons x a y b :
  leb (x :: a) (y :: b) = true <-> x < y \/ (x = y /\ leb a b = true).
Proof.
  simpl. destruct (N.ltb_spec x y) as [Hlt | Hge].
  - split; auto.
  - destruct (N.eqb_spec x y) as [Heq | Hne].
    + split; [auto | intros [? | [_ ?]]; [lia | assumption]].
    + split; [discriminate | intros [? | [? _]]; [lia | contradiction]].
Qed.

Lemma leb_trans a b c : leb a b = true -> leb b c = true -> leb a c = true.
Proof.
  revert b c. induction a as [|x a IH]; intros [|y b] [|z c];
    try (simpl; congruence).
  rewrite !leb_cons. intros [H1 | [H1 H1']] [H2 | [H2 H2']].
  - left. lia.
  - left. lia.
  - left. lia.
  - right. split; [lia | eapply IH; eassumption].
Qed.

Lemma leb_antisym a b : leb a b = true -> leb b a = true -> a = b.
Proof.
  revert b. induction a as [|x a IH]; intros [|y b];
    try (simpl; congruence).
  rewrite !leb_cons. intros [H1 | [H1 H1']] [H2 | [H2 H2']]; try lia.
  subst. f_equal. apply IH; assumption.
Qed.

#[export] Instance le_total : Total le.
Proof. intros a b. apply leb_total. Qed.

#[export] Instance le_trans : Transitive le.
Proof. intros a b c. apply leb_trans. Qed.

#[export] Instance le_antisym : AntiSymm (=) le.
Proof. intros a b. apply leb_antisym. Qed.

Lemma sorted_Permutation xs : sorted xs ≡ₚ xs.
Proof. apply merge_sort_Permutation. Qed.

Lemma sorted_StronglySorted xs : StronglySorted le (sorted xs).
Proof. apply StronglySorted_merge_sort; apply _. Qed.

Lemma elem_of_sorted x xs : x ∈ sorted xs <-> x ∈ xs.
Proof. rewrite sorted_Permutation. reflexivity. Qed.

Lemma NoDup_sorted xs : NoDup xs -> NoDup (sorted xs).
Proof. rewrite sorted_Permutation. trivial. Qed.

(** [sorted] gives the one ascending arrangement of the elements. *)
Lemma sorted_unique xs ys :
  StronglySorted le ys -> ys ≡ₚ xs -> sorted xs = ys.
Proof.
  intros Hs Hp. apply (StronglySorted_unique le).
  - apply sorted_StronglySorted.
  - exact Hs.
  - rewrite sorted_Permutation. symmetry. exact Hp.
Qed.

End PyFacts.

(** ** The prompt profile manager *)

Module PromptManagerFacts.

Import Py PyFacts PromptManager.

(** *** Running computations *)

Lemma bind_run {A B} (m : M A) (f : A -> M B) s :
  (m ≫= f) s = match m s with
               | (inr x, s') => f x s'
               | (inl e, s') => (inl e, s')
               end.
Proof. reflexivity. Qed.

Lemma saved_prompt_profiles_run s :
  saved_prompt_profiles s = (inr (current s), rebind s).
Proof. reflexivity. Qed.

Lemma prompt_profile_names_run s :
  prompt_profile_names s = (inr (names s), rebind s).
Proof. reflexivity. Qed.

Lemma saved_prompt_profile_names_run s :
  saved_prompt_profile_names s = (inr (tail (names s)), rebind s).
Proof. reflexivity. Qed.

Lemma _dropdown_run s : _dropdown s = (inr (dropdown s), s).
Proof. reflexivity. Qed.

Lemma Combo_get_run s :
  Combo_get s = (inr (from_option value [] (dropdown s)), s).
Proof.
  unfold Combo_get. rewrite bind_run, _dropdown_run.
  destruct (dropdown s); reflexivity.
Qed.

(** *** The getter leaves what is observed as it is *)

Lemma current_rebind s : current (rebind s) = current s.
Proof. destruct s as [h [r|] f own w k e q]; reflexivity. Qed.

Lemma profiles_rebind s : profiles (rebind s) = profiles s.
Proof. unfold profiles. rewrite current_rebind. reflexivity. Qed.

Lemma names_rebind s : names (rebind s) = names s.
Proof. unfold names. rewrite profiles_rebind. reflexivity. Qed.

Lemma rebind_rebind s : rebind (rebind s) = rebind s.
Proof. destruct s as [h [r|] f own w k e q]; reflexivity. Qed.

Lemma State_ext s1 s2 :
  heap s1 = heap s2 -> user_settings s1 = user_settings s2 ->
  settings_file s1 = settings_file s2 ->
  _saved_prompt_profiles s1 = _saved_prompt_profiles s2 ->
  _dropdown_window s1 = _dropdown_window s2 ->
  _dropdown_key s1 = _dropdown_key s2 ->
  elements s1 = elements s2 -> event_queue s1 = event_queue s2 ->
  s1 = s2.
Proof. destruct s1, s2. simpl. intros. subst. reflexivity. Qed.

Lemma current_with_dict r d s : current (with_dict r d s) = current s.
Proof. reflexivity. Qed.

Lemma profiles_with_dict d s : profiles (with_dict (current s) d s) = d.
Proof. unfold profiles, deref. simpl. apply lookup_total_insert_eq. Qed.

(** The removal of the original name under [suppress(KeyError)]. *)
Lemma suppress_del_run o s :
  suppress_KeyError (r ← saved_prompt_profiles; dict_delitem r o) s
  = (inr tt,
     match profiles s !! o with
     | Some _ => with_dict (current s) (delete o (profiles s)) (rebind s)
     | None => rebind s
     end).
Proof.
  unfold suppress_KeyError. rewrite bind_run, saved_prompt_profiles_run.
  unfold dict_delitem.
  change (deref (current s) (rebind s)) with (profiles s).
  destruct (profiles s !! o); reflexivity.
Qed.

Lemma dict_setitem_run r k v s :
  dict_setitem r k v s = (inr tt, with_dict r (<[k := v]> (deref r s)) s).
Proof. reflexivity. Qed.

Lemma _save_profiles_to_settings_run s :
  _save_profiles_to_settings s
  = (inr tt, set_user_settings (Some (current s))
               (profiles s :: settings_file s) (rebind s)).
Proof. reflexivity. Qed.

Lemma save_prefix {B} n p o (k : M B) s :
  (match o with
   | Some o => suppress_KeyError (r ← saved_prompt_profiles; dict_delitem r o)
   | None => ret tt
   end ≫= λ _, saved_prompt_profiles ≫= λ r, dict_setitem r n p ≫= λ _,
     _save_profiles_to_settings ≫= λ _, k) s
  = k (written (stored n p o (profiles s)) s).
Proof.
  set (s1 := match o with
             | Some o => match profiles s !! o with
                         | Some _ => with_dict (current s) (delete o (profiles s)) (rebind s)
                         | None => rebind s
                         end
             | None => s
             end).
  assert (H1 : match o with
   | Some o => suppress_KeyError (r ← saved_prompt_profiles; dict_delitem r o)
   | None => ret tt
   end s = (inr tt, s1)).
  { destruct o; [apply suppress_del_run | reflexivity]. }
  assert (Hc : current s1 = current s).
  { subst s1. destruct o as [o|]; [|reflexivity].
    destruct (profiles s !! o); rewrite ?current_with_dict; apply current_rebind. }
  assert (Hp : profiles s1 = match o with Some o => delete o (profiles s) | None => profiles s end).
  { subst s1. destruct o as [o|]; [|reflexivity].
    destruct (profiles s !! o) eqn:E.
    - rewrite <- (current_rebind s). rewrite profiles_with_dict. reflexivity.
    - rewrite profiles_rebind. symmetry. apply delete_id. exact E. }
  rewrite bind_run, H1, bind_run, saved_prompt_profiles_run, bind_run,
    dict_setitem_run, bind_run, _save_profiles_to_settings_run.
  assert (Hh : forall d, <[current s := d]> (heap s1) = <[current s := d]> (heap s)).
  { intros d. subst s1. destruct o as [o|]; [|reflexivity].
    destruct (profiles s !! o); [|reflexivity].
    simpl. apply insert_insert_eq. }
  assert (Hf : settings_file s1 = settings_file s
               /\ _dropdown_window s1 = _dropdown_window s
               /\ _dropdown_key s1 = _dropdown_key s
               /\ elements s1 = elements s
               /\ event_queue s1 = event_queue s).
  { subst s1. destruct o as [o|]; [|tauto].
    destruct (profiles s !! o); simpl; tauto. }
  destruct Hf as (Hf1 & Hf2 & Hf3 & Hf4 & Hf5).
  change (deref (current s1) (rebind s1)) with (profiles s1).
  f_equal. apply State_ext; simpl;
    rewrite ?current_with_dict, ?current_rebind, ?Hc, ?Hp; try assumption;
    try reflexivity.
  - apply Hh.
  - rewrite Hf1. f_equal.
    rewrite <- Hc, <- (current_rebind s1). apply profiles_with_dict.
Qed.



(** *** The state after a write *)

Lemma heap_written d s : heap (written d s) = <[current s := d]> (heap s).
Proof. reflexivity. Qed.

Lemma user_settings_written d s : user_settings (written d s) = Some (current s).
Proof. reflexivity. Qed.

Lemma settings_file_written d s :
  settings_file (written d s) = d :: settings_file s.
Proof. reflexivity. Qed.

Lemma current_written d s : current (written d s) = current s.
Proof. reflexivity. Qed.

Lemma profiles_written d s : profiles (written d s) = d.
Proof. unfold profiles, deref. simpl. apply lookup_total_insert_eq. Qed.

(** *** Updating the dropdown *)

Lemma _update_prompt_profile_dropdown_unbound new s :
  dropdown s = None ->
  _update_prompt_profile_dropdown new s = (inr tt, s).
Proof.
  intros H. unfold _update_prompt_profile_dropdown.
  rewrite bind_run, _dropdown_run, H. reflexivity.
Qed.

Lemma _update_prompt_profile_dropdown_bound new w k c s :
  _dropdown_window s = Some w -> _dropdown_key s = Some k ->
  elements s !! (w, k) = Some c ->
  _update_prompt_profile_dropdown new s
  = (inr tt, synced new w k (default (value c) new) s).
Proof.
  intros Hw Hk He.
  assert (Hd : dropdown s = Some c).
  { unfold dropdown. rewrite Hw, Hk. exact He. }
  unfold _update_prompt_profile_dropdown.
  rewrite bind_run, _dropdown_run, Hd, bind_run.
  assert (Hsel : match new with
                 | Some n => ret n
                 | None => Combo_get
                 end s = (inr (default (value c) new), s)).
  { destruct new; [reflexivity |]. rewrite Combo_get_run, Hd. reflexivity. }
  rewrite Hsel, bind_run, prompt_profile_names_run, bind_run.
  assert (Hmax : match max_len (names s) with
                 | Some m => ret m
                 | None => raise ValueError
                 end (rebind s)
                 = (inr (default [] (max_len (names s))), rebind s)).
  { reflexivity. }
  rewrite Hmax, bind_run, prompt_profile_names_run, rebind_rebind, names_rebind.
  rewrite bind_run.
  unfold Combo_update, modify.
  change (_dropdown_window (rebind s)) with (_dropdown_window s).
  change (_dropdown_key (rebind s)) with (_dropdown_key s).
  rewrite Hw, Hk.
  rewrite bind_run. unfold gets at 1. simpl. rewrite Hw.
  rewrite bind_run. unfold gets at 1. simpl. rewrite Hk.
  destruct new; reflexivity.
Qed.

(** *** The methods, run *)

Lemma dropdown_tail_run (g : str -> M unit) (reselect : str -> option str) s :
  (forall sel s', g sel s' = _update_prompt_profile_dropdown (reselect sel) s') ->
  (_dropdown ≫= λ dd,
     match dd with
     | Some _ => Combo_get ≫= g
     | None => ret tt
     end) s
  = (inr tt, followed reselect s).
Proof.
  intros Hg. rewrite bind_run, _dropdown_run. unfold followed, dropdown.
  destruct (_dropdown_window s) as [w|] eqn:Hw; [|reflexivity].
  destruct (_dropdown_key s) as [k|] eqn:Hk; [|reflexivity].
  destruct (elements s !! (w, k)) as [c|] eqn:He; [|reflexivity].
  rewrite bind_run, Combo_get_run.
  unfold dropdown. rewrite Hw, Hk, He. simpl. rewrite Hg.
  apply _update_prompt_profile_dropdown_bound; assumption.
Qed.

Lemma _save_profile_run n p o s :
  _save_profile n p o s
  = (inr tt,
     followed (reselect_saved n o) (written (stored n p o (profiles s)) s)).
Proof.
  unfold _save_profile. rewrite save_prefix.
  apply dropdown_tail_run.
  intros sel s'. unfold reselect_saved. destruct (bool_decide _); reflexivity.
Qed.

Lemma written_intro d s :
  let s' := with_dict (current s) d (rebind s) in
  set_user_settings (Some (current s')) (profiles s' :: settings_file s')
    (rebind s')
  = written d s.
Proof.
  intros s'.
  assert (Hc : current s' = current s).
  { subst s'. rewrite current_with_dict. apply current_rebind. }
  assert (Hp : profiles s' = d).
  { subst s'. rewrite <- (current_rebind s). apply profiles_with_dict. }
  rewrite Hc, Hp.
  apply State_ext; simpl; try reflexivity; exact Hc.
Qed.

(** [del self.saved_prompt_profiles[name]] for a name that is no key. *)
Lemma delete_prompt_profile_absent name s :
  profiles s !! name = None ->
  delete_prompt_profile name s = (inl (KeyError name), rebind s).
Proof.
  intros H. unfold delete_prompt_profile.
  rewrite bind_run, saved_prompt_profiles_run, bind_run.
  unfold dict_delitem.
  change (deref (current s) (rebind s)) with (profiles s).
  rewrite H. reflexivity.
Qed.

Lemma delete_prompt_profile_present name s :
  is_Some (profiles s !! name) ->
  delete_prompt_profile name s
  = (inr tt,
     followed (reselect_deleted name) (written (delete name (profiles s)) s)).
Proof.
  intros [v H]. unfold delete_prompt_profile.
  rewrite bind_run, saved_prompt_profiles_run, bind_run.
  unfold dict_delitem.
  change (deref (current s) (rebind s)) with (profiles s).
  rewrite H, bind_run, _save_profiles_to_settings_run.
  change (set_heap (<[current s:=delete name (profiles s)]> (heap (rebind s)))
            (rebind s))
    with (with_dict (current s) (delete name (profiles s)) (rebind s)).
  rewrite (written_intro (delete name (profiles s)) s).
  apply dropdown_tail_run.
  intros sel s'. unfold reselect_deleted. destruct (bool_decide _); reflexivity.
Qed.

Lemma written_rebind d s : written d (rebind s) = written d s.
Proof.
  unfold written. rewrite rebind_rebind, current_rebind.
  apply State_ext; reflexivity.
Qed.

Lemma blank_dec name : negb (truthy (strip name)) = true <-> blank name.
Proof. rewrite negb_true_iff. apply strip_blank. Qed.

Lemma add_prompt_profile_blank name prompt s :
  blank name ->
  add_prompt_profile name prompt s = (inr (false, msg_blank), s).
Proof.
  intros H. unfold add_prompt_profile.
  rewrite (proj2 (blank_dec name) H). reflexivity.
Qed.

Lemma add_prompt_profile_in_use name prompt s :
  ~ blank name -> name ∈ names s ->
  add_prompt_profile name prompt s = (inr (false, msg_in_use), rebind s).
Proof.
  intros Hb Hin. unfold add_prompt_profile.
  destruct (negb (truthy (strip name))) eqn:E.
  { exfalso. apply Hb, blank_dec, E. }
  rewrite bind_run, prompt_profile_names_run.
  rewrite bool_decide_eq_true_2 by exact Hin. reflexivity.
Qed.

Lemma add_prompt_profile_fresh name prompt s :
  ~ blank name -> name ∉ names s ->
  add_prompt_profile name prompt s
  = (inr (true, []),
     followed (reselect_saved name None)
       (written (<[name := prompt]> (profiles s)) s)).
Proof.
  intros Hb Hin. unfold add_prompt_profile.
  destruct (negb (truthy (strip name))) eqn:E.
  { exfalso. apply Hb, blank_dec, E. }
  rewrite bind_run, prompt_profile_names_run.
  rewrite bool_decide_eq_false_2 by exact Hin.
  rewrite bind_run, _save_profile_run, profiles_rebind, written_rebind.
  reflexivity.
Qed.

Lemma edit_prompt_profile_blank name prompt original s :
  blank name ->
  edit_prompt_profile name prompt original s = (inr (false, msg_blank), s).
Proof.
  intros H. unfold edit_prompt_profile.
  rewrite (proj2 (blank_dec name) H). reflexivity.
Qed.

Lemma edit_prompt_profile_in_use name prompt original s :
  ~ blank name -> name <> original -> name ∈ names s ->
  edit_prompt_profile name prompt original s
  = (inr (false, msg_in_use), rebind s).
Proof.
  intros Hb Hne Hin. unfold edit_prompt_profile.
  destruct (negb (truthy (strip name))) eqn:E.
  { exfalso. apply Hb, blank_dec, E. }
  rewrite bind_run, prompt_profile_names_run.
  rewrite bool_decide_eq_true_2 by exact Hin.
  rewrite bool_decide_eq_false_2 by exact Hne. reflexivity.
Qed.

Lemma edit_prompt_profile_ok name prompt original s :
  ~ blank name -> name = original \/ name ∉ names s ->
  edit_prompt_profile name prompt original s
  = (inr (true, []),
     followed (reselect_saved name (Some original))
       (written (<[name := prompt]> (delete original (profiles s))) s)).
Proof.
  intros Hb Hok. unfold edit_prompt_profile.
  destruct (negb (truthy (strip name))) eqn:E.
  { exfalso. apply Hb, blank_dec, E. }
  rewrite bind_run, prompt_profile_names_run.
  assert (Hc : bool_decide (name ∈ names s)
               && negb (bool_decide (name = original)) = false).
  { destruct Hok as [-> | Hn].
    - rewrite (bool_decide_eq_true_2 (original = original)) by reflexivity.
      apply andb_false_r.
    - rewrite bool_decide_eq_false_2 by exact Hn. reflexivity. }
  rewrite Hc.
  rewrite bind_run, _save_profile_run, profiles_rebind, written_rebind.
  reflexivity.
Qed.

(** *** What following the dropdown leaves alone *)

Lemma heap_followed r s : heap (followed r s) = heap s.
Proof.
  unfold followed.
  destruct (_dropdown_window s), (_dropdown_key s); try reflexivity.
  destruct (elements s !! _); [|reflexivity].
  unfold synced. destruct (r _); reflexivity.
Qed.

Lemma user_settings_followed r s :
  user_settings (followed r s) = user_settings s.
Proof.
  unfold followed.
  destruct (_dropdown_window s), (_dropdown_key s); try reflexivity.
  destruct (elements s !! _); [|reflexivity].
  unfold synced. destruct (r _); reflexivity.
Qed.

Lemma settings_file_followed r s :
  settings_file (followed r s) = settings_file s.
Proof.
  unfold followed.
  destruct (_dropdown_window s), (_dropdown_key s); try reflexivity.
  destruct (elements s !! _); [|reflexivity].
  unfold synced. destruct (r _); reflexivity.
Qed.

Lemma current_followed r s : current (followed r s) = current s.
Proof.
  unfold followed.
  destruct (_dropdown_window s), (_dropdown_key s); try reflexivity.
  destruct (elements s !! _); [|reflexivity].
  unfold synced. destruct (r _); apply current_rebind.
Qed.

Lemma profiles_followed r s : profiles (followed r s) = profiles s.
Proof.
  unfold profiles, deref. rewrite current_followed, heap_followed. reflexivity.
Qed.

Lemma names_followed r s : names (followed r s) = names s.
Proof. unfold names. rewrite profiles_followed. reflexivity. Qed.

Lemma names_written d s :
  names (written d s) = unsaved_prompt_profile_name :: sorted (map_to_list d).*1.
Proof. unfold names. rewrite profiles_written. reflexivity. Qed.

Lemma followed_unbound r s : dropdown s = None -> followed r s = s.
Proof.
  unfold dropdown, followed.
  destruct (_dropdown_window s), (_dropdown_key s); try reflexivity.
  intros ->. reflexivity.
Qed.

Lemma followed_bound r w k c s :
  _dropdown_window s = Some w -> _dropdown_key s = Some k ->
  elements s !! (w, k) = Some c ->
  _dropdown_window (followed r s) = Some w
  /\ _dropdown_key (followed r s) = Some k
  /\ elements (followed r s)
     = <[(w, k) := mkCombo (default (value c) (r (value c))) (names s)
                     (width (names s))]> (elements s)
  /\ event_queue (followed r s)
     = match r (value c) with
       | Some n => (w, k, n) :: event_queue s
       | None => event_queue s
       end.
Proof.
  intros Hw Hk He. unfold followed. rewrite Hw, Hk, He.
  unfold synced. destruct (r (value c)); simpl; auto.
Qed.

(** Membership in the listing. *)
Lemma elem_of_names name s :
  name ∈ names s
  <-> name = unsaved_prompt_profile_name \/ is_Some (profiles s !! name).
Proof.
  unfold names. rewrite elem_of_cons, elem_of_sorted.
  rewrite list_elem_of_fmap.
  split; (intros [H | H]; [left; exact H | right]).
  - destruct H as [[k v] [-> H]]. apply elem_of_map_to_list in H. eauto.
  - destruct H as [v H]. exists (name, v). split; [reflexivity |].
    apply elem_of_map_to_list. exact H.
Qed.

End PromptManagerFacts.

(** ** The prompt profile store: what the methods guarantee *)

Module PromptProfileStore.

Import Py PyFacts PromptManager PromptManagerFacts.

Lemma msg_blank_nonempty : msg_blank <> [].
Proof. discriminate. Qed.

Lemma msg_in_use_nonempty : msg_in_use <> [].
Proof. discriminate. Qed.

#[local] Instance blank_dec' name : Decision (blank name).
Proof. unfold blank. apply _. Defined.

(** C1: [add_prompt_profile(name, prompt)] returns normally; it answers
    [False] exactly when [name] is made of whitespace only (the empty name
    included) or is in the list [prompt_profile_names] returns, which
    begins with the unsaved profile name. When it answers [False] the
    message is not empty and neither the profile mapping nor the settings
    nor the dropdown change; when it answers [True] the message is empty,
    the mapping has gained [name -> prompt] and has been written to the
    settings. *)
Theorem add_prompt_profile_fails_iff (s : State) (name prompt : str) :
  exists ok msg s' l,
    add_prompt_profile name prompt s = (inr (ok, msg), s')
    /\ (prompt_profile_names s).1 = inr (unsaved_prompt_profile_name :: l)
    /\ (ok = false
        <-> blank name \/ name ∈ unsaved_prompt_profile_name :: l)
    /\ (ok = false ->
        msg <> [] /\ profiles s' = profiles s /\ heap s' = heap s
        /\ user_settings s' = user_settings s
        /\ settings_file s' = settings_file s
        /\ elements s' = elements s /\ event_queue s' = event_queue s)
    /\ (ok = true ->
        msg = [] /\ profiles s' = <[name := prompt]> (profiles s)
        /\ user_settings s' = Some (current s')
        /\ settings_file s' = profiles s' :: settings_file s).
Proof.
  destruct (decide (blank name)) as [Hb | Hb].
  - exists false, msg_blank, s, (tail (names s)).
    rewrite add_prompt_profile_blank by exact Hb.
    split; [reflexivity |]. split; [reflexivity |].
    split; [tauto |]. split; [| discriminate].
    intros _. repeat split; auto using msg_blank_nonempty.
  - destruct (decide (name ∈ names s)) as [Hin | Hin].
    + exists false, msg_in_use, (rebind s), (tail (names s)).
      rewrite add_prompt_profile_in_use by assumption.
      split; [reflexivity |]. split; [reflexivity |].
      split; [tauto |]. split; [| discriminate].
      intros _. rewrite profiles_rebind.
      repeat split; auto using msg_in_use_nonempty.
    + eexists true, [], _, (tail (names s)).
      rewrite add_prompt_profile_fresh by assumption.
      split; [reflexivity |]. split; [reflexivity |].
      split; [split; [discriminate | tauto] |].
      split; [discriminate |]. intros _.
      rewrite profiles_followed, user_settings_followed,
        settings_file_followed, current_followed, profiles_written.
      repeat split; reflexivity.
Qed.

(** C2, as the code has it: [delete_prompt_profile(name)] removes the
    profile with that name, leaving the others, and writes the mapping to
    the settings; if no profile has that name the call raises
    [KeyError(name)] and changes neither the mapping, nor the settings,
    nor the dropdown. *)
Theorem delete_prompt_profile_removes_or_raises (s : State) (name : str) :
  (is_Some (profiles s !! name) ->
   exists s',
     delete_prompt_profile name s = (inr tt, s')
     /\ profiles s' = delete name (profiles s)
     /\ profiles s' !! name = None
     /\ (forall other, other <> name ->
         profiles s' !! other = profiles s !! other)
     /\ settings_file s' = profiles s' :: settings_file s)
  /\ (profiles s !! name = None ->
      exists s',
        delete_prompt_profile name s = (inl (KeyError name), s')
        /\ profiles s' = profiles s /\ heap s' = heap s
        /\ user_settings s' = user_settings s
        /\ settings_file s' = settings_file s
        /\ elements s' = elements s /\ event_queue s' = event_queue s).
Proof.
  split.
  - intros H. eexists. rewrite delete_prompt_profile_present by exact H.
    split; [reflexivity |].
    rewrite profiles_followed, settings_file_followed, profiles_written.
    repeat split.
    + apply lookup_delete_eq.
    + intros other Hne. apply lookup_delete_ne. congruence.
  - intros H. exists (rebind s).
    rewrite delete_prompt_profile_absent by exact H.
    rewrite profiles_rebind. repeat split; reflexivity.
Qed.

(** C2, at a store without profiles: deleting the name "A" raises
    [KeyError]; the call is not silent. *)
Lemma delete_prompt_profile_absent_raises :
  (delete_prompt_profile (of_string "A") empty_store).1
  = inl (KeyError (of_string "A"))
  /\ ~ (exists s', delete_prompt_profile (of_string "A") empty_store
                  = (inr tt, s')).
Proof.
  assert (H : profiles empty_store !! of_string "A" = None).
  { vm_compute. reflexivity. }
  rewrite (delete_prompt_profile_absent _ _ H).
  split; [reflexivity |]. intros [s' Hs']. discriminate.
Qed.

(** Deleting "A" where it is saved removes it; deleting it where nothing
    is saved raises and leaves the mapping as it is. *)
Lemma delete_prompt_profile_removes_or_raises_witness :
  let A := of_string "A" in
  (exists s', delete_prompt_profile A bound_store = (inr tt, s')
              /\ profiles s' !! A = None)
  /\ (exists s', delete_prompt_profile A empty_store = (inl (KeyError A), s')
                 /\ profiles s' = profiles empty_store).
Proof.
  intros A. split.
  - destruct (delete_prompt_profile_removes_or_raises bound_store A)
      as [H _].
    destruct H as (s' & H1 & _ & H2 & _).
    + exists (of_string "p1"). vm_compute. reflexivity.
    + exists s'. split; assumption.
  - destruct (delete_prompt_profile_removes_or_raises empty_store A)
      as [_ H].
    destruct H as (s' & H1 & H2 & _).
    + vm_compute. reflexivity.
    + exists s'. split; assumption.
Defined.

(** C3: [edit_prompt_profile(name, prompt, original_name)] returns
    normally. It answers [False], with a message, and changes nothing when
    [name] is made of whitespace only, or when [name] differs from
    [original_name] and is in the list of profile names. Otherwise it
    answers [True]: the mapping is the old one with [original_name]
    removed and [name -> prompt] set, and it reaches the settings in one
    write; so [name] maps to [prompt], and [original_name], when it is
    another name, is no longer a key. *)
Theorem edit_prompt_profile_renames (s : State) (name prompt original : str) :
  exists ok msg s' l,
    edit_prompt_profile name prompt original s = (inr (ok, msg), s')
    /\ (prompt_profile_names s).1 = inr l
    /\ (blank name \/ (name <> original /\ name ∈ l) ->
        ok = false /\ msg <> [] /\ profiles s' = profiles s
        /\ heap s' = heap s /\ user_settings s' = user_settings s
        /\ settings_file s' = settings_file s
        /\ elements s' = elements s /\ event_queue s' = event_queue s)
    /\ (~ (blank name \/ (name <> original /\ name ∈ l)) ->
        ok = true /\ msg = []
        /\ profiles s' = <[name := prompt]> (delete original (profiles s))
        /\ user_settings s' = Some (current s')
        /\ settings_file s' = profiles s' :: settings_file s
        /\ profiles s' !! name = Some prompt
        /\ (name <> original -> profiles s' !! original = None)).
Proof.
  destruct (decide (blank name)) as [Hb | Hb].
  - exists false, msg_blank, s, (names s).
    rewrite edit_prompt_profile_blank by exact Hb.
    split; [reflexivity |]. split; [reflexivity |]. split; [| tauto].
    intros _. repeat split; auto using msg_blank_nonempty.
  - destruct (decide (name <> original /\ name ∈ names s)) as [[Hne Hin] | Hok].
    + exists false, msg_in_use, (rebind s), (names s).
      rewrite edit_prompt_profile_in_use by assumption.
      split; [reflexivity |]. split; [reflexivity |]. split; [| tauto].
      intros _. rewrite profiles_rebind.
      repeat split; auto using msg_in_use_nonempty.
    + eexists true, [], _, (names s).
      rewrite edit_prompt_profile_ok; [| exact Hb |].
      2:{ destruct (decide (name = original)); [tauto |].
          destruct (decide (name ∈ names s)); tauto. }
      split; [reflexivity |]. split; [reflexivity |]. split; [tauto |].
      intros _.
      rewrite profiles_followed, user_settings_followed,
        settings_file_followed, current_followed, profiles_written.
      repeat split.
      * apply lookup_insert_eq.
      * intros Hne. rewrite lookup_insert_ne by exact Hne.
        apply lookup_delete_eq.
Qed.

(** Where "A" is saved and "B" is not, editing "A" into "B" with prompt
    "p2" leaves "B" mapped to "p2" and no "A". *)
Lemma edit_prompt_profile_renames_witness :
  let A := of_string "A" in
  let B := of_string "B" in
  let s := (add_prompt_profile A (of_string "p1") empty_store).2 in
  exists s',
    edit_prompt_profile B (of_string "p2") A s = (inr (true, []), s')
    /\ profiles s' !! B = Some (of_string "p2")
    /\ profiles s' !! A = None.
Proof.
  intros A B s.
  destruct (edit_prompt_profile_renames s B (of_string "p2") A)
    as (ok & msg & s' & l & Hrun & Hl & _ & Hok).
  rewrite prompt_profile_names_run in Hl. injection Hl as <-.
  destruct Hok as (-> & -> & _ & _ & _ & HB & HA).
  - intros [Hb | [_ Hin]].
    + apply (bool_decide_eq_false_1 (blank B)); [| exact Hb].
      vm_compute. reflexivity.
    + apply (bool_decide_eq_false_1 (B ∈ names s)); [| exact Hin].
      vm_compute. reflexivity.
  - exists s'. split; [exact Hrun |]. split; [exact HB |].
    apply HA. discriminate.
Defined.

Lemma strip_nonempty name : strip name <> [] <-> ~ blank name.
Proof.
  rewrite <- strip_blank. destruct (strip name); simpl; split; congruence.
Qed.

(** C10: a name is stored as it is given. Whenever [name.strip()] is not
    empty and [name] itself is not in the list of profile names,
    [add_prompt_profile] answers [True] and the mapping has the very
    string [name] as a key for [prompt], every other key being as before;
    no stripped or otherwise changed form of [name] becomes a key. *)
Theorem add_prompt_profile_verbatim (s : State) (name prompt : str)
    (l : list str) :
  strip name <> [] ->
  (prompt_profile_names s).1 = inr l -> name ∉ l ->
  exists s',
    add_prompt_profile name prompt s = (inr (true, []), s')
    /\ profiles s' !! name = Some prompt
    /\ (forall other, other <> name ->
        profiles s' !! other = profiles s !! other).
Proof.
  intros Hb Hl Hin. apply strip_nonempty in Hb.
  rewrite prompt_profile_names_run in Hl. injection Hl as <-.
  eexists. rewrite add_prompt_profile_fresh by assumption.
  split; [reflexivity |].
  rewrite profiles_followed, profiles_written. split.
  - apply lookup_insert_eq.
  - intros other Hne. apply lookup_insert_ne. congruence.
Qed.

(** Two names that differ in surrounding whitespace only, "A" and " A ",
    are two profiles of one store. *)
Lemma add_prompt_profile_verbatim_witness :
  let A := of_string "A" in
  let A' := of_string " A " in
  let s := (add_prompt_profile A (of_string "p1") empty_store).2 in
  exists s',
    add_prompt_profile A' (of_string "p2") s = (inr (true, []), s')
    /\ profiles s' !! A' = Some (of_string "p2")
    /\ profiles s' !! A = Some (of_string "p1")
    /\ profiles s' !! strip A' = Some (of_string "p1").
Proof.
  intros A A' s.
  destruct (add_prompt_profile_verbatim s A' (of_string "p2") (names s))
    as (s' & Hrun & HA' & Hother).
  - vm_compute. discriminate.
  - reflexivity.
  - apply (bool_decide_eq_false_1 (A' ∈ names s)). vm_compute. reflexivity.
  - exists s'. split; [exact Hrun |]. split; [exact HA' |].
    assert (HA : profiles s' !! A = Some (of_string "p1")).
    { rewrite Hother by discriminate. vm_compute. reflexivity. }
    split; exact HA.
Defined.

(** C5: with a dropdown bound to the store, showing [c]. An add with a
    name that is not blank and not listed succeeds, gives the dropdown the
    new list of names, keeps its selection and writes no event. An edit
    with a name that is not blank and is the original name or not listed
    succeeds and gives the dropdown the new list; if the edited profile is
    the selected one, the new name is selected and an event with the new
    name is written to the window of the dropdown, otherwise the selection
    stays and no event is written. A delete of a saved profile returns and
    gives the dropdown the new list; if the deleted profile is the selected
    one, the unsaved profile name is selected and an event with it is
    written, otherwise the selection stays and no event is written. No
    other add or edit succeeds, and no other delete returns. *)
Theorem dropdown_follows_profiles (s : State) (w : window) (k : str)
    (c : Combo) :
  _dropdown_window s = Some w -> _dropdown_key s = Some k ->
  elements s !! (w, k) = Some c ->
  (forall name prompt,
      ~ blank name -> name ∉ names s ->
      exists s',
        add_prompt_profile name prompt s = (inr (true, []), s')
        /\ profiles s' = <[name := prompt]> (profiles s)
        /\ (prompt_profile_names s').1 = inr (names s')
        /\ elements s' !! (w, k)
           = Some (mkCombo (value c) (names s') (width (names s')))
        /\ event_queue s' = event_queue s)
  /\ (forall name prompt original,
      ~ blank name -> name = original \/ name ∉ names s ->
      exists s',
        edit_prompt_profile name prompt original s = (inr (true, []), s')
        /\ profiles s' = <[name := prompt]> (delete original (profiles s))
        /\ (prompt_profile_names s').1 = inr (names s')
        /\ (original = value c ->
            elements s' !! (w, k)
            = Some (mkCombo name (names s') (width (names s')))
            /\ event_queue s' = (w, k, name) :: event_queue s)
        /\ (original <> value c ->
            elements s' !! (w, k)
            = Some (mkCombo (value c) (names s') (width (names s')))
            /\ event_queue s' = event_queue s))
  /\ (forall name,
      is_Some (profiles s !! name) ->
      exists s',
        delete_prompt_profile name s = (inr tt, s')
        /\ profiles s' = delete name (profiles s)
        /\ (prompt_profile_names s').1 = inr (names s')
        /\ (name = value c ->
            elements s' !! (w, k)
            = Some (mkCombo unsaved_prompt_profile_name (names s')
                      (width (names s')))
            /\ event_queue s' = (w, k, unsaved_prompt_profile_name)
                                :: event_queue s)
        /\ (name <> value c ->
            elements s' !! (w, k)
            = Some (mkCombo (value c) (names s') (width (names s')))
            /\ event_queue s' = event_queue s))
  /\ (forall name prompt msg s',
      add_prompt_profile name prompt s = (inr (true, msg), s') ->
      ~ blank name /\ name ∉ names s)
  /\ (forall name prompt original msg s',
      edit_prompt_profile name prompt original s = (inr (true, msg), s') ->
      ~ blank name /\ (name = original \/ name ∉ names s))
  /\ (forall name r s',
      delete_prompt_profile name s = (inr r, s') ->
      is_Some (profiles s !! name)).
Proof.
  intros Hw Hk He.
  assert (Hf : forall r d,
             let s' := followed r (written d s) in
             profiles s' = d
             /\ names s' = names (written d s)
             /\ elements s' !! (w, k)
                = Some (mkCombo (default (value c) (r (value c)))
                          (names (written d s)) (width (names (written d s))))
             /\ event_queue s'
                = match r (value c) with
                  | Some n => (w, k, n) :: event_queue s
                  | None => event_queue s
                  end).
  { intros r d s'. subst s'.
    destruct (followed_bound r w k c (written d s) Hw Hk He)
      as (_ & _ & Hel & Hq).
    rewrite profiles_followed, profiles_written, names_followed, Hel, Hq,
      lookup_insert_eq. auto. }
  split; [| split; [| split; [| split; [| split]]]].
  - intros name prompt Hb Hin. eexists.
    split; [apply add_prompt_profile_fresh; assumption |].
    destruct (Hf (reselect_saved name None) (<[name:=prompt]> (profiles s)))
      as (Hp & Hn & Hel & Hq).
    split; [exact Hp |]. split; [reflexivity |].
    rewrite Hn, Hel, Hq. unfold reselect_saved.
    rewrite bool_decide_eq_false_2 by discriminate. auto.
  - intros name prompt original Hb Hok. eexists.
    split; [apply edit_prompt_profile_ok; assumption |].
    destruct (Hf (reselect_saved name (Some original))
                (<[name:=prompt]> (delete original (profiles s))))
      as (Hp & Hn & Hel & Hq).
    split; [exact Hp |]. split; [reflexivity |].
    rewrite Hn, Hel, Hq. unfold reselect_saved.
    split.
    + intros ->. rewrite bool_decide_eq_true_2 by reflexivity. auto.
    + intros Hne. rewrite bool_decide_eq_false_2 by congruence. auto.
  - intros name Hp'. eexists.
    split; [apply delete_prompt_profile_present; exact Hp' |].
    destruct (Hf (reselect_deleted name) (delete name (profiles s)))
      as (Hp & Hn & Hel & Hq).
    split; [exact Hp |]. split; [reflexivity |].
    rewrite Hn, Hel, Hq. unfold reselect_deleted.
    split.
    + intros ->. rewrite bool_decide_eq_true_2 by reflexivity. auto.
    + intros Hne. rewrite bool_decide_eq_false_2 by congruence. auto.
  - intros name prompt msg s' Hrun.
    destruct (decide (blank name)) as [Hb | Hb].
    { rewrite add_prompt_profile_blank in Hrun by exact Hb. discriminate. }
    destruct (decide (name ∈ names s)) as [Hin | Hin].
    { rewrite add_prompt_profile_in_use in Hrun by assumption. discriminate. }
    auto.
  - intros name prompt original msg s' Hrun.
    destruct (decide (blank name)) as [Hb | Hb].
    { rewrite edit_prompt_profile_blank in Hrun by exact Hb. discriminate. }
    destruct (decide (name <> original /\ name ∈ names s)) as [[Hne Hin] | Hok].
    { rewrite edit_prompt_profile_in_use in Hrun by assumption. discriminate. }
    split; [exact Hb |].
    destruct (decide (name = original)); [tauto |].
    destruct (decide (name ∈ names s)); tauto.
  - intros name r s' Hrun.
    destruct (profiles s !! name) as [v|] eqn:Hp; [eauto |].
    rewrite delete_prompt_profile_absent in Hrun by exact Hp.
    discriminate.
Qed.

(** On the store with "A" saved and selected in the dropdown: adding "B"
    lists it and keeps "A" selected; renaming "A" to "B" selects "B" and
    tells the window; deleting "A" selects the unsaved profile name and
    tells the window. *)
Lemma dropdown_follows_profiles_witness :
  let A := of_string "A" in
  let B := of_string "B" in
  let p := of_string "p2" in
  let N := unsaved_prompt_profile_name in
  let key := of_string "-PROMPT-PROFILE-" in
  (exists s',
      add_prompt_profile B p bound_store = (inr (true, []), s')
      /\ elements s' !! (1%positive, key) = Some (mkCombo A [N; A; B] 6)
      /\ event_queue s' = [])
  /\ (exists s',
      edit_prompt_profile B p A bound_store = (inr (true, []), s')
      /\ elements s' !! (1%positive, key) = Some (mkCombo B [N; B] 6)
      /\ event_queue s' = [(1%positive, key, B)])
  /\ (exists s',
      delete_prompt_profile A bound_store = (inr tt, s')
      /\ elements s' !! (1%positive, key) = Some (mkCombo N [N] 6)
      /\ event_queue s' = [(1%positive, key, N)]).
Proof.
  intros A B p N key.
  destruct (dropdown_follows_profiles bound_store 1%positive key
              (mkCombo A [N; A] 6))
    as (Hadd & Hedit & Hdel & _); try reflexivity.
  assert (Hb : ~ blank B).
  { apply (bool_decide_eq_false_1 (blank B)). vm_compute. reflexivity. }
  assert (Hin : B ∉ names bound_store).
  { apply (bool_decide_eq_false_1 (B ∈ names bound_store)).
    vm_compute. reflexivity. }
  assert (HA : is_Some (profiles bound_store !! A)).
  { exists (of_string "p1"). vm_compute. reflexivity. }
  split; [| split].
  - destruct (Hadd B p Hb Hin) as (s' & Hrun & Hp & _ & Hel & Hq).
    exists s'. split; [exact Hrun |].
    unfold names in Hel. rewrite Hp in Hel.
    split; [rewrite Hel | rewrite Hq]; vm_compute; reflexivity.
  - destruct (Hedit B p A Hb (or_intror Hin))
      as (s' & Hrun & Hp & _ & Hsel & _).
    exists s'. split; [exact Hrun |].
    destruct (Hsel eq_refl) as [Hel Hq].
    unfold names in Hel. rewrite Hp in Hel.
    split; [rewrite Hel | rewrite Hq]; vm_compute; reflexivity.
  - destruct (Hdel A HA) as (s' & Hrun & Hp & _ & Hsel & _).
    exists s'. split; [exact Hrun |].
    destruct (Hsel eq_refl) as [Hel Hq].
    unfold names in Hel. rewrite Hp in Hel.
    split; [rewrite Hel | rewrite Hq]; vm_compute; reflexivity.
Defined.

(** C6: the calls that change the profile mapping write it to the
    settings before they return. An add with a name that is not blank and
    not listed, an edit with a name that is not blank and is the original
    name or not listed, and a delete of a saved profile return with the
    new mapping in the dict of the manager, the settings entry referring
    to that dict, and the settings file saved once more, with that
    mapping. These are the calls that change the mapping: an add or edit
    that does not succeed, and a delete that raises, leave the mapping and
    the settings file as they were. *)
Theorem mutations_written_to_settings (s : State) :
  (forall name prompt,
      ~ blank name -> name ∉ names s ->
      exists s',
        add_prompt_profile name prompt s = (inr (true, []), s')
        /\ profiles s' = <[name := prompt]> (profiles s)
        /\ user_settings s' = Some (_saved_prompt_profiles s')
        /\ deref (_saved_prompt_profiles s') s' = profiles s'
        /\ settings_file s' = profiles s' :: settings_file s)
  /\ (forall name prompt original,
      ~ blank name -> name = original \/ name ∉ names s ->
      exists s',
        edit_prompt_profile name prompt original s = (inr (true, []), s')
        /\ profiles s' = <[name := prompt]> (delete original (profiles s))
        /\ user_settings s' = Some (_saved_prompt_profiles s')
        /\ deref (_saved_prompt_profiles s') s' = profiles s'
        /\ settings_file s' = profiles s' :: settings_file s)
  /\ (forall name,
      is_Some (profiles s !! name) ->
      exists s',
        delete_prompt_profile name s = (inr tt, s')
        /\ profiles s' = delete name (profiles s)
        /\ user_settings s' = Some (_saved_prompt_profiles s')
        /\ deref (_saved_prompt_profiles s') s' = profiles s'
        /\ settings_file s' = profiles s' :: settings_file s)
  /\ (forall name prompt,
      blank name \/ name ∈ names s ->
      let r := add_prompt_profile name prompt s in
      (exists msg, r.1 = inr (false, msg))
      /\ profiles r.2 = profiles s /\ settings_file r.2 = settings_file s)
  /\ (forall name prompt original,
      blank name \/ (name <> original /\ name ∈ names s) ->
      let r := edit_prompt_profile name prompt original s in
      (exists msg, r.1 = inr (false, msg))
      /\ profiles r.2 = profiles s /\ settings_file r.2 = settings_file s)
  /\ (forall name,
      profiles s !! name = None ->
      let r := delete_prompt_profile name s in
      r.1 = inl (KeyError name)
      /\ profiles r.2 = profiles s /\ settings_file r.2 = settings_file s).
Proof.
  assert (Hf : forall r d,
             let s' := followed r (written d s) in
             profiles s' = d
             /\ user_settings s' = Some (_saved_prompt_profiles s')
             /\ deref (_saved_prompt_profiles s') s' = profiles s'
             /\ settings_file s' = profiles s' :: settings_file s).
  { intros r d s'. subst s'.
    assert (Hown : _saved_prompt_profiles (followed r (written d s))
                   = current s).
    { unfold followed.
      destruct (_dropdown_window (written d s)),
        (_dropdown_key (written d s)); try reflexivity.
      destruct (elements (written d s) !! _); [| reflexivity].
      unfold synced. destruct (r _); reflexivity. }
    rewrite Hown, profiles_followed, user_settings_followed,
      settings_file_followed, profiles_written.
    repeat split.
    unfold deref. rewrite heap_followed. apply lookup_total_insert_eq. }
  split; [| split; [| split; [| split; [| split]]]].
  - intros name prompt Hb Hin. eexists.
    split; [apply add_prompt_profile_fresh; assumption |]. apply Hf.
  - intros name prompt original Hb Hok. eexists.
    split; [apply edit_prompt_profile_ok; assumption |]. apply Hf.
  - intros name Hp. eexists.
    split; [apply delete_prompt_profile_present; exact Hp |]. apply Hf.
  - intros name prompt Hno r. subst r.
    destruct (decide (blank name)) as [Hb | Hb].
    { rewrite add_prompt_profile_blank by exact Hb. simpl. eauto. }
    destruct Hno as [Hb' | Hin]; [contradiction |].
    rewrite add_prompt_profile_in_use by assumption. simpl.
    rewrite profiles_rebind. eauto.
  - intros name prompt original Hno r. subst r.
    destruct (decide (blank name)) as [Hb | Hb].
    { rewrite edit_prompt_profile_blank by exact Hb. simpl. eauto. }
    destruct Hno as [Hb' | [Hne Hin]]; [contradiction |].
    rewrite edit_prompt_profile_in_use by assumption. simpl.
    rewrite profiles_rebind. eauto.
  - intros name Hp r. subst r.
    rewrite delete_prompt_profile_absent by exact Hp. simpl.
    rewrite ?profiles_rebind. auto.
Qed.

(** Adding "A" to a store without profiles saves the file with "A"; on the
    store with "A" saved, renaming it to "B" saves the file with "B" alone,
    and deleting it saves the file with no profile. *)
Lemma mutations_written_to_settings_witness :
  let A := of_string "A" in
  let B := of_string "B" in
  let p := of_string "p1" in
  let q := of_string "p2" in
  (exists s',
      add_prompt_profile A p empty_store = (inr (true, []), s')
      /\ settings_file s' = [ {[ A := p ]} ])
  /\ (exists s',
      edit_prompt_profile B q A bound_store = (inr (true, []), s')
      /\ settings_file s' = [ {[ B := q ]}; {[ A := p ]} ])
  /\ (exists s',
      delete_prompt_profile A bound_store = (inr tt, s')
      /\ settings_file s' = [ ∅; {[ A := p ]} ]).
Proof.
  intros A B p q.
  assert (HbA : ~ blank A).
  { apply (bool_decide_eq_false_1 (blank A)). vm_compute. reflexivity. }
  assert (HbB : ~ blank B).
  { apply (bool_decide_eq_false_1 (blank B)). vm_compute. reflexivity. }
  assert (HinA : A ∉ names empty_store).
  { apply (bool_decide_eq_false_1 (A ∈ names empty_store)).
    vm_compute. reflexivity. }
  assert (HinB : B ∉ names bound_store).
  { apply (bool_decide_eq_false_1 (B ∈ names bound_store)).
    vm_compute. reflexivity. }
  assert (HA : is_Some (profiles bound_store !! A)).
  { exists p. vm_compute. reflexivity. }
  split; [| split].
  - destruct (mutations_written_to_settings empty_store) as (Hadd & _).
    destruct (Hadd A p HbA HinA) as (s' & Hrun & Hp & _ & _ & Hfile).
    exists s'. split; [exact Hrun |]. rewrite Hfile, Hp. reflexivity.
  - destruct (mutations_written_to_settings bound_store) as (_ & Hedit & _).
    destruct (Hedit B q A HbB (or_intror HinB))
      as (s' & Hrun & Hp & _ & _ & Hfile).
    exists s'. split; [exact Hrun |]. rewrite Hfile, Hp.
    apply (bool_decide_eq_true_1 (_ = _)). vm_compute. reflexivity.
  - destruct (mutations_written_to_settings bound_store) as (_ & _ & Hdel & _).
    destruct (Hdel A HA) as (s' & Hrun & Hp & _ & _ & Hfile).
    exists s'. split; [exact Hrun |]. rewrite Hfile, Hp.
    apply (bool_decide_eq_true_1 (_ = _)). vm_compute. reflexivity.
Defined.

(** C4, at the input that breaks it: in a store without profiles, editing
    the unsaved profile name into itself succeeds and saves a profile
    under that name, and the list of profile names then holds it twice. *)
Theorem edit_unsaved_name_saves_it :
  let N := unsaved_prompt_profile_name in
  let p := of_string "p" in
  exists s',
    edit_prompt_profile N p N empty_store = (inr (true, []), s')
    /\ profiles s' !! N = Some p
    /\ (prompt_profile_names s').1 = inr [N; N]
    /\ ~ NoDup [N; N].
Proof.
  intros N p.
  assert (Hb : ~ blank N).
  { apply (bool_decide_eq_false_1 (blank N)). vm_compute. reflexivity. }
  eexists. split; [apply edit_prompt_profile_ok; [exact Hb | left; reflexivity] |].
  rewrite prompt_profile_names_run, names_followed, names_written,
    profiles_followed, profiles_written.
  split; [apply lookup_insert_eq |].
  split; [vm_compute; reflexivity |].
  intros H. inversion H as [| ? ? Hnin _]; subst. apply Hnin. left.
Qed.

(** *** Sequences of calls *)

Lemma not_in_names_ne name s :
  name ∉ names s -> name <> unsaved_prompt_profile_name.
Proof. intros H ->. apply H. unfold names. left. Qed.

Lemma apply_keeps_unsaved_name_free o s :
  ~ edits_unsaved_name o ->
  profiles s !! unsaved_prompt_profile_name = None ->
  profiles (apply s o) !! unsaved_prompt_profile_name = None.
Proof.
  intros Ho Hs. destruct o as [n p | n p o | n]; simpl in *.
  - destruct (decide (blank n)) as [Hb | Hb].
    { rewrite add_prompt_profile_blank by exact Hb. exact Hs. }
    destruct (decide (n ∈ names s)) as [Hin | Hin].
    { rewrite add_prompt_profile_in_use by assumption. simpl.
      rewrite profiles_rebind. exact Hs. }
    rewrite add_prompt_profile_fresh by assumption. simpl.
    rewrite profiles_followed, profiles_written.
    rewrite lookup_insert_ne by exact (not_in_names_ne _ _ Hin). exact Hs.
  - destruct (decide (blank n)) as [Hb | Hb].
    { rewrite edit_prompt_profile_blank by exact Hb. exact Hs. }
    destruct (decide (n <> o /\ n ∈ names s)) as [[Hne Hin] | Hok].
    { rewrite edit_prompt_profile_in_use by assumption. simpl.
      rewrite profiles_rebind. exact Hs. }
    assert (Hok' : n = o \/ n ∉ names s).
    { destruct (decide (n = o)); [tauto |].
      destruct (decide (n ∈ names s)); tauto. }
    rewrite edit_prompt_profile_ok by assumption. simpl.
    rewrite profiles_followed, profiles_written.
    assert (Hn : n <> unsaved_prompt_profile_name).
    { destruct Hok' as [-> | Hin]; [| exact (not_in_names_ne _ _ Hin)].
      intros ->. apply Ho. split; reflexivity. }
    rewrite lookup_insert_ne by exact Hn.
    rewrite lookup_delete. case_decide; [reflexivity | exact Hs].
  - destruct (profiles s !! n) as [v|] eqn:Hp.
    + rewrite delete_prompt_profile_present by eauto. simpl.
      rewrite profiles_followed, profiles_written.
      rewrite lookup_delete. case_decide; [reflexivity | exact Hs].
    + rewrite delete_prompt_profile_absent by exact Hp. simpl.
      rewrite profiles_rebind. exact Hs.
Qed.

(** The list of profile names of a store that holds no profile under the
    unsaved profile name. *)
Lemma names_listing s :
  profiles s !! unsaved_prompt_profile_name = None ->
  exists l,
    (prompt_profile_names s).1 = inr (unsaved_prompt_profile_name :: l)
    /\ NoDup (unsaved_prompt_profile_name :: l)
    /\ StronglySorted le l
    /\ (forall name, name ∈ l <-> is_Some (profiles s !! name)).
Proof.
  intros Hfree.
  exists (sorted (map_to_list (profiles s)).*1).
  assert (Hmem : forall name,
             name ∈ sorted (map_to_list (profiles s)).*1
             <-> is_Some (profiles s !! name)).
  { intros name. rewrite elem_of_sorted, list_elem_of_fmap. split.
    - intros [[k v] [-> H]]. apply elem_of_map_to_list in H. eauto.
    - intros [v H]. exists (name, v). split; [reflexivity |].
      apply elem_of_map_to_list. exact H. }
  split; [reflexivity |]. split; [| split].
  - constructor.
    + rewrite Hmem, Hfree. intros [v Hv]. discriminate.
    + apply NoDup_sorted, NoDup_fst_map_to_list.
  - apply sorted_StronglySorted.
  - exact Hmem.
Qed.

(** X1: as long as no edit turns the unsaved profile name into itself, the
    list of profile names after any sequence of adds, edits and deletes
    begins with the unsaved profile name, goes on with the names of the
    saved profiles in ascending order, and holds no name twice; the
    unsaved profile name is not saved. *)
Theorem listing_after_calls (ops : list Op) (s : State) :
  profiles s !! unsaved_prompt_profile_name = None ->
  Forall (fun o => ~ edits_unsaved_name o) ops ->
  exists l,
    (prompt_profile_names (run ops s)).1
    = inr (unsaved_prompt_profile_name :: l)
    /\ NoDup (unsaved_prompt_profile_name :: l)
    /\ StronglySorted le l
    /\ (forall name, name ∈ l <-> is_Some (profiles (run ops s) !! name))
    /\ profiles (run ops s) !! unsaved_prompt_profile_name = None.
Proof.
  intros Hs Hops.
  assert (Hfree : profiles (run ops s) !! unsaved_prompt_profile_name = None).
  { revert s Hs. induction Hops as [| o ops Ho _ IH]; intros s Hs; simpl.
    - exact Hs.
    - apply IH, apply_keeps_unsaved_name_free; assumption. }
  destruct (names_listing _ Hfree) as (l & Hl & Hnd & Hsort & Hmem).
  exists l. repeat split; try assumption; apply Hmem.
Qed.

(** Five calls on a store without profiles, an edit that renames and a
    delete among them. *)
Lemma listing_after_calls_witness :
  let A := of_string "A" in
  let B := of_string "B" in
  let p := of_string "p" in
  (prompt_profile_names
     (run [Add B p; Add A p; Edit B p A; Delete A; Add A p] empty_store)).1
  = inr [unsaved_prompt_profile_name; A; B].
Proof.
  intros A B p.
  destruct (listing_after_calls
              [Add B p; Add A p; Edit B p A; Delete A; Add A p] empty_store)
    as (l & Hl & _).
  - vm_compute. reflexivity.
  - repeat first
      [ apply Forall_nil_2
      | apply Forall_cons_2;
        [ simpl; first [tauto | intros [H _]; vm_compute in H; discriminate H]
        | ] ].
  - rewrite Hl. f_equal.
    assert (H : (prompt_profile_names
                   (run [Add B p; Add A p; Edit B p A; Delete A; Add A p]
                      empty_store)).1
                = inr [unsaved_prompt_profile_name; A; B]).
    { vm_compute. reflexivity. }
    rewrite Hl in H. congruence.
Defined.

End PromptProfileStore.

(** ** The transcription job *)

Module TranscriptionJob.

Import Py PromptManager App.

Lemma transcriber_update a : transcriber (update a) = transcriber a.
Proof. reflexivity. Qed.

Lemma transcriber_track_modal_window w a :
  transcriber (track_modal_window w a) = transcriber a.
Proof. reflexivity. Qed.

Lemma transcriber_stop a :
  transcriber (stop a) = Transcriber.stop (transcriber a).
Proof. reflexivity. Qed.

(** A request to stop changes the state of a running job and nothing
    else. *)
Lemma stop_keeps_job tr :
  let tr' := Transcriber.stop tr in
  Transcriber.num_tasks tr' = Transcriber.num_tasks tr
  /\ Transcriber.num_tasks_done tr' = Transcriber.num_tasks_done tr
  /\ Transcriber.started_at tr' = Transcriber.started_at tr
  /\ Transcriber.transcribe_thread tr' = Transcriber.transcribe_thread tr
  /\ Transcriber.is_transcribing tr' = Transcriber.is_transcribing tr.
Proof.
  unfold Transcriber.stop, Transcriber.is_transcribing.
  destruct tr as [[] ? ? ? ? ? ?]; simpl; auto.
Qed.

(** What follows the chain leaves the counts of the job alone, unless the
    event ends the job. *)
Lemma housekeeping_keeps_job ev env a :
  TRANSCRIBE_DONE_NO_SUCCESS_EVENTS ev = false ->
  let tr := transcriber a in
  let tr' := transcriber (housekeeping ev env a) in
  Transcriber.num_tasks tr' = Transcriber.num_tasks tr
  /\ Transcriber.num_tasks_done tr' = Transcriber.num_tasks_done tr
  /\ Transcriber.started_at tr' = Transcriber.started_at tr
  /\ Transcriber.transcribe_thread tr' = Transcriber.transcribe_thread tr
  /\ Transcriber.is_transcribing tr' = Transcriber.is_transcribing tr.
Proof.
  intros Hev. unfold housekeeping. rewrite Hev, transcriber_update.
  destruct (Transcriber.is_transcribing (transcriber a)) eqn:E;
    [| rewrite E; auto].
  destruct (negb _); [| rewrite E; auto].
  destruct (meter_updated env).
  - destruct (meter_window env);
      rewrite ?transcriber_track_modal_window, E; auto.
  - rewrite transcriber_stop, <- E. apply stop_keeps_job.
Qed.

(** One iteration on a progress event. *)
Lemma loop_body_progress env a :
  exists a',
    loop_body TRANSCRIBE_PROGRESS env a = (Next, a')
    /\ Transcriber.num_tasks (transcriber a')
       = Transcriber.num_tasks (transcriber a)
    /\ Transcriber.num_tasks_done (transcriber a')
       = (Transcriber.num_tasks_done (transcriber a) + 1)%nat
    /\ Transcriber.started_at (transcriber a')
       = Transcriber.started_at (transcriber a)
    /\ Transcriber.transcribe_thread (transcriber a')
       = Transcriber.transcribe_thread (transcriber a)
    /\ Transcriber.is_transcribing (transcriber a')
       = Transcriber.is_transcribing (transcriber a).
Proof.
  eexists. split; [reflexivity |].
  destruct (housekeeping_keeps_job TRANSCRIBE_PROGRESS env
              (set_transcriber
                 (Transcriber.incr_num_tasks_done (transcriber a)) a)
              eq_refl) as (H1 & H2 & H3 & H4 & H5).
  rewrite H1, H2, H3, H4, H5. repeat split.
Qed.

(** Iterations on progress events only. *)
Lemma loop_progress (envs : list Env) a :
  exists a',
    loop ((fun env => (TRANSCRIBE_PROGRESS, env)) <$> envs) a = (Looping, a')
    /\ Transcriber.num_tasks (transcriber a')
       = Transcriber.num_tasks (transcriber a)
    /\ Transcriber.num_tasks_done (transcriber a')
       = (Transcriber.num_tasks_done (transcriber a) + length envs)%nat
    /\ Transcriber.started_at (transcriber a')
       = Transcriber.started_at (transcriber a)
    /\ Transcriber.transcribe_thread (transcriber a')
       = Transcriber.transcribe_thread (transcriber a)
    /\ Transcriber.is_transcribing (transcriber a')
       = Transcriber.is_transcribing (transcriber a).
Proof.
  revert a. induction envs as [| env envs IH]; intros a.
  - exists a. simpl. rewrite Nat.add_0_r. repeat split.
  - destruct (loop_body_progress env a) as (a1 & Hrun & H1 & H2 & H3 & H4 & H5).
    destruct (IH a1) as (a' & Hloop & G1 & G2 & G3 & G4 & G5).
    exists a'. rewrite fmap_cons. cbn [loop]. rewrite Hrun.
    split; [exact Hloop |].
    rewrite G1, G2, G3, G4, G5, H1, H2, H3, H4, H5.
    repeat split. simpl. lia.
Qed.

Lemma done_transcribing success now tr :
  Transcriber.is_transcribing tr = true ->
  exists tr',
    Transcriber.done success now tr
    = (Some (now - Transcriber.started_at tr)%Z, tr')
    /\ Transcriber.state tr' = Transcriber.Done
    /\ Transcriber.transcribe_thread tr' = false
    /\ Transcriber.num_tasks tr' = Transcriber.num_tasks tr
    /\ Transcriber.num_tasks_done tr' = Transcriber.num_tasks_done tr.
Proof.
  unfold Transcriber.is_transcribing, Transcriber.done.
  destruct (Transcriber.state tr); try discriminate; intros _;
    eexists; repeat split.
Qed.

Lemma done_Done success now tr :
  Transcriber.state tr = Transcriber.Done ->
  Transcriber.done success now tr = (None, tr).
Proof. unfold Transcriber.done. intros ->. reflexivity. Qed.

(** One iteration on the event that starts a job. *)
Lemma loop_body_START in_file out_dir files env a :
  truthy (strip in_file) = true -> truthy (strip out_dir) = true ->
  exists a',
    loop_body (START in_file out_dir files) env a = (Next, a')
    /\ Transcriber.num_tasks (transcriber a') = length files
    /\ Transcriber.num_tasks_done (transcriber a') = 0%nat
    /\ Transcriber.started_at (transcriber a') = now env
    /\ Transcriber.transcribe_thread (transcriber a') = true
    /\ Transcriber.is_transcribing (transcriber a') = true.
Proof.
  intros Hin Hout. eexists. unfold loop_body, dispatch.
  rewrite Hin, Hout. cbn [andb]. split; [reflexivity |].
  destruct (housekeeping_keeps_job (START in_file out_dir files) env
              (set_transcriber
                 (Transcriber.start files (now env) (transcriber a)) a)
              eq_refl) as (H1 & H2 & H3 & H4 & H5).
  rewrite H1, H2, H3, H4, H5. repeat split.
Qed.

Lemma done_not_transcribing success now tr :
  Transcriber.is_transcribing (Transcriber.done success now tr).2 = false.
Proof.
  unfold Transcriber.done, Transcriber.is_transcribing.
  destruct (Transcriber.state tr) eqn:E; simpl; rewrite ?E; reflexivity.
Qed.

(** One iteration on the event that reports success, of a job that is
    running: [done] answers with a time, which the f-string formats. *)
Lemma loop_body_SUCCESS env a :
  Transcriber.is_transcribing (transcriber a) = true ->
  exists a',
    loop_body TRANSCRIBE_SUCCESS env a = (Next, a')
    /\ transcriber a' = (Transcriber.done true (now env) (transcriber a)).2.
Proof.
  intros Htr. unfold loop_body, dispatch.
  pose proof (done_not_transcribing true (now env) (transcriber a)) as Hn.
  destruct (done_transcribing true (now env) (transcriber a) Htr)
    as (tr' & Hdone & _).
  rewrite Hdone in *. eexists. split; [reflexivity |].
  unfold housekeeping. cbn [TRANSCRIBE_DONE_NO_SUCCESS_EVENTS].
  rewrite transcriber_update.
  change (transcriber (popup_tracked_modal (set_transcriber tr' a))) with tr'.
  simpl in Hn. rewrite Hn. reflexivity.
Qed.

(** C7: a job is started with a list of files, by the event that starts
    it: the total count is the length of the list and the completed count
    is 0. Every iteration on a progress event adds exactly one to the
    completed count; after as many progress events as the list has files,
    or fewer, the completed count is their number, at most the total
    count, and equal to it after all of them. The event that reports
    success then has [done(success=True)] answer with the time elapsed
    since the start, which is not negative when the clock has not gone
    back, and leaves the job Done with the worker handle released. Any
    further [done] before the next start answers with the sentinel and
    changes nothing. *)
Theorem job_counts_and_finish (in_file out_dir : str) (files : list str)
    (env0 env1 : Env) (envs : list Env) (a0 : t) :
  truthy (strip in_file) = true -> truthy (strip out_dir) = true ->
  (length envs <= length files)%nat ->
  (now env0 <= now env1)%Z ->
  exists a a1 a2 elapsed,
    loop_body (START in_file out_dir files) env0 a0 = (Next, a)
    /\ Transcriber.num_tasks (transcriber a) = length files
    /\ Transcriber.num_tasks_done (transcriber a) = 0%nat
    /\ (forall env b,
         Transcriber.num_tasks_done
           (transcriber (loop_body TRANSCRIBE_PROGRESS env b).2)
         = (Transcriber.num_tasks_done (transcriber b) + 1)%nat)
    /\ loop ((fun env => (TRANSCRIBE_PROGRESS, env)) <$> envs) a
       = (Looping, a1)
    /\ Transcriber.num_tasks (transcriber a1) = length files
    /\ Transcriber.num_tasks_done (transcriber a1) = length envs
    /\ (Transcriber.num_tasks_done (transcriber a1)
        <= Transcriber.num_tasks (transcriber a1))%nat
    /\ (length envs = length files ->
        Transcriber.num_tasks_done (transcriber a1)
        = Transcriber.num_tasks (transcriber a1))
    /\ Transcriber.done true (now env1) (transcriber a1)
       = (Some elapsed, transcriber a2)
    /\ elapsed = (now env1 - now env0)%Z
    /\ (0 <= elapsed)%Z
    /\ loop_body TRANSCRIBE_SUCCESS env1 a1 = (Next, a2)
    /\ Transcriber.state (transcriber a2) = Transcriber.Done
    /\ Transcriber.transcribe_thread (transcriber a2) = false
    /\ Transcriber.num_tasks_done (transcriber a2) = length envs
    /\ (forall success now',
         Transcriber.done success now' (transcriber a2)
         = (None, transcriber a2)).
Proof.
  intros Hin Hout Hlen Hclock.
  destruct (loop_body_START in_file out_dir files env0 a0 Hin Hout)
    as (a & Hstart & Hn & Hd & Ht0 & Hth & Htr).
  destruct (loop_progress envs a) as (a1 & Hloop & G1 & G2 & G3 & G4 & G5).
  assert (Htr1 : Transcriber.is_transcribing (transcriber a1) = true)
    by congruence.
  destruct (loop_body_SUCCESS env1 a1 Htr1) as (a2 & Hsucc & Ha2).
  destruct (done_transcribing true (now env1) (transcriber a1) Htr1)
    as (tr' & Hdone & Hs & Hh & _ & Hk).
  rewrite Hdone in Ha2. simpl in Ha2. subst tr'.
  exists a, a1, a2, (now env1 - Transcriber.started_at (transcriber a1))%Z.
  rewrite G1, G2, Hn, Hd, G3, Ht0, Hk, G2, Hd.
  repeat split; try assumption; try reflexivity; try lia.
  - intros env b.
    destruct (loop_body_progress env b) as (b' & -> & _ & H2 & _). exact H2.
  - rewrite Hdone, G3, Ht0. reflexivity.
  - intros success now'. apply done_Done. exact Hs.
Qed.

(** Three files, three progress events, success two ticks after the
    start. *)
Lemma job_counts_and_finish_witness :
  let f := of_string "f" in
  let env0 := mkEnv 5 true None None in
  let env1 := mkEnv 7 true None None in
  exists a a2,
    loop ((START f f [f; f; f], env0)
          :: (TRANSCRIBE_PROGRESS, env0) :: (TRANSCRIBE_PROGRESS, env0)
          :: (TRANSCRIBE_PROGRESS, env0) :: [])
         (setup ∅ None [] None) = (Looping, a)
    /\ Transcriber.num_tasks_done (transcriber a) = 3%nat
    /\ Transcriber.num_tasks (transcriber a) = 3%nat
    /\ Transcriber.done true 7 (transcriber a) = (Some 2%Z, transcriber a2)
    /\ Transcriber.state (transcriber a2) = Transcriber.Done.
Proof.
  intros f env0 env1.
  destruct (job_counts_and_finish f f [f; f; f] env0 env1 [env0; env0; env0]
              (setup ∅ None [] None))
    as (a & a1 & a2 & elapsed & Hstart & _ & _ & _ & Hloop & Hn & Hd & _ & _
        & Hdone & He & _ & _ & Hs & _).
  - reflexivity.
  - reflexivity.
  - simpl. lia.
  - simpl. lia.
  - exists a1, a2. cbn [loop]. rewrite Hstart.
    split; [exact Hloop |]. split; [exact Hd |]. split; [exact Hn |].
    split; [| exact Hs].
    subst elapsed. exact Hdone.
Defined.

End TranscriptionJob.

(** ** Modal windows *)

Module ModalWindows.

Import Py PyFacts PromptManager PromptManagerFacts App.

(** *** The manager and its windows *)

Lemma filter_none {A} (P : A -> Prop) `{forall x, Decision (P x)}
    (l : list A) :
  (forall x, x ∈ l -> ~ P x) -> filter P l = [].
Proof.
  induction l as [| y l IH]; intros HP; [reflexivity |].
  rewrite filter_cons_False by (apply HP; left).
  apply IH. intros x Hx. apply HP. right. exact Hx.
Qed.

Lemma filter_unique {A} (P : A -> Prop) `{forall x, Decision (P x)}
    (l : list A) (w : A) :
  NoDup l -> w ∈ l -> (forall x, x ∈ l -> (P x <-> x = w)) ->
  filter P l = [w].
Proof.
  induction l as [| y l IH]; intros Hnd Hin HP.
  - inversion Hin.
  - inversion Hnd as [| ? ? Hy Hnd']; subst.
    rewrite filter_cons. destruct (decide (P y)) as [Hpy | Hpy].
    + apply HP in Hpy; [| left]. subst y. f_equal.
      apply filter_none. intros x Hx Hpx.
      apply HP in Hpx; [| right; exact Hx]. subst. contradiction.
    + apply IH; [exact Hnd' | | intros x Hx; apply HP; right; exact Hx].
      apply elem_of_cons in Hin as [-> | Hin]; [| exact Hin].
      exfalso. apply Hpy, HP; [left | reflexivity].
Qed.

Lemma last_filter_newest {A} (P : A -> Prop) `{forall x, Decision (P x)}
    (l : list A) (w : A) :
  last (filter P l) = Some w
  <-> exists l1 l2, l = l1 ++ w :: l2 /\ P w /\ Forall (fun x => ~ P x) l2.
Proof.
  induction l as [| y l IH] using rev_ind.
  - split; [discriminate |]. intros (l1 & l2 & Heq & _).
    destruct l1; discriminate.
  - rewrite filter_app, filter_cons, filter_nil.
    destruct (decide (P y)) as [Hpy | Hpy].
    + rewrite last_snoc. split.
      * intros [= ->]. exists l, []. auto.
      * intros (l1 & l2 & Heq & Hw & Hl2).
        destruct l2 as [| z l2] using rev_ind.
        { apply app_inj_tail in Heq as [_ ->]. reflexivity. }
        rewrite app_comm_cons, app_assoc in Heq.
        apply app_inj_tail in Heq as [_ ->].
        apply Forall_app in Hl2 as [_ Hz]. inversion Hz; contradiction.
    + rewrite app_nil_r, IH. split.
      * intros (l1 & l2 & -> & Hw & Hl2). exists l1, (l2 ++ [y]).
        rewrite <- app_assoc. split; [reflexivity |]. split; [exact Hw |].
        apply Forall_app. auto.
      * intros (l1 & l2 & Heq & Hw & Hl2).
        destruct l2 as [| z l2 _] using rev_ind.
        { apply app_inj_tail in Heq as [_ ->]. contradiction. }
        rewrite app_comm_cons, app_assoc in Heq.
        apply app_inj_tail in Heq as [-> ->].
        exists l1, l2. apply Forall_app in Hl2 as [Hl2 _]. auto.
Qed.

Import ModalWindowManager.

Lemma consistent_init : consistent (init, Gui.init).
Proof. split; simpl; set_solver. Qed.

Lemma consistent_update m g :
  consistent (m, g) -> consistent (update m g).
Proof.
  intros [Hsub Hone]. unfold update, consistent. simpl in *.
  assert (Hc : forall w, w ∉ Gui.modal g ∖ list_to_set m).
  { intros w Hw. apply elem_of_difference in Hw as [Hw1 Hw2].
    apply Hw2, elem_of_list_to_set, Hsub, Hw1. }
  destruct (last (filter _ m)) as [w|] eqn:El.
  - assert (Hw : w ∈ filter (fun w => w ∈ Gui.open_windows g) m).
    { apply last_Some in El as [l' ->]. set_solver. }
    split.
    + intros x Hx. apply elem_of_union in Hx as [Hx | Hx].
      * apply elem_of_singleton in Hx. subst. exact Hw.
      * destruct (Hc _ Hx).
    + intros x y Hx Hy.
      apply elem_of_union in Hx as [Hx | Hx]; [| destruct (Hc _ Hx)].
      apply elem_of_union in Hy as [Hy | Hy]; [| destruct (Hc _ Hy)].
      set_solver.
  - split; [intros x Hx | intros x y Hx]; destruct (Hc _ Hx).
Qed.

Lemma consistent_step st o : consistent st -> consistent (step st o).
Proof.
  destruct st as [m g]. destruct o; simpl.
  - trivial.
  - intros [Hsub Hone]. split; simpl in *; [| exact Hone].
    intros x Hx. unfold track_modal_window. set_solver.
  - trivial.
  - apply consistent_update.
Qed.

Lemma consistent_run ops st : consistent st -> consistent (run ops st).
Proof.
  revert st. induction ops as [| o ops IH]; intros st H; simpl; [exact H |].
  apply IH, consistent_step, H.
Qed.

Lemma active_at_most_one st : consistent st -> (length (active st.1 st.2) <= 1)%nat.
Proof.
  intros [_ Hone]. unfold active.
  assert (Hnd : NoDup (filter (fun w => w ∈ Gui.open_windows st.2
                                        ∧ w ∈ Gui.modal st.2)
                         (remove_dups st.1))).
  { apply NoDup_filter, NoDup_remove_dups. }
  destruct (filter _ (remove_dups st.1)) as [| x [| y l]] eqn:E;
    simpl; try lia.
  exfalso.
  assert (Hx : x ∈ x :: y :: l) by (apply elem_of_cons; auto).
  assert (Hy : y ∈ x :: y :: l).
  { apply elem_of_cons. right. apply elem_of_cons. auto. }
  rewrite <- E in Hx, Hy.
  apply list_elem_of_filter in Hx as [[_ Hx] _].
  apply list_elem_of_filter in Hy as [[_ Hy] _].
  assert (x = y) by (apply Hone; assumption). subst.
  inversion Hnd as [| ? ? Hn _]; subst. apply Hn. left.
Qed.

Lemma active_update m g :
  consistent (m, g) ->
  active (update m g).1 (update m g).2
  = match last (filter (fun w => w ∈ Gui.open_windows g) m) with
    | Some w => [w]
    | None => []
    end.
Proof.
  intros [Hsub Hone]. unfold update, active. simpl in *.
  assert (Hc : forall w, w ∉ Gui.modal g ∖ list_to_set m).
  { intros w Hw. apply elem_of_difference in Hw as [Hw1 Hw2].
    apply Hw2, elem_of_list_to_set, Hsub, Hw1. }
  destruct (last (filter _ m)) as [w|] eqn:El.
  - assert (Hw : w ∈ filter (fun w => w ∈ Gui.open_windows g) m).
    { apply last_Some in El as [l' ->]. set_solver. }
    apply filter_unique.
    + apply NoDup_remove_dups.
    + apply elem_of_remove_dups, Hw.
    + intros x Hx. apply elem_of_remove_dups, list_elem_of_filter in Hx as [Hx _].
      split.
      * intros [_ Hm]. apply elem_of_union in Hm as [Hm | Hm];
          [set_solver | destruct (Hc _ Hm)].
      * intros ->. split; [exact Hx | set_solver].
  - apply last_None in El. rewrite El. reflexivity.
Qed.

(** *** The loop's calls to [update] *)

Lemma updates_fold_close ws a :
  updates (fold_left (fun a win => close win a) ws a) = updates a.
Proof.
  revert a. induction ws as [| w ws IH]; intros a; simpl; [reflexivity |].
  rewrite IH. reflexivity.
Qed.

Lemma dispatch_updates ev env a :
  updates (dispatch ev env a).2 = updates a
  \/ ((dispatch ev env a).1 = Next
      /\ updates (dispatch ev env a).2 = S (updates a)).
Proof.
  unfold dispatch, after_add_edit, reload_prompt_manager_window,
    popup_tracked_modal, popup_tracked, popup_prompt_manager,
    make_tracked_main_window_with_synced_profiles, make_main_window,
    popup_add_prompt_profile, popup_edit_prompt_profile,
    popup_add_edit_prompt_profile, new_window, call, Gui.new_window.
  destruct ev.
  all: repeat case_match.
  all: simplify_eq/=.
  all: try (left; reflexivity).
  all: try (right; split; reflexivity).
  left. unfold updates. simpl. apply updates_fold_close.
Qed.

Lemma updates_housekeeping ev env a :
  updates (housekeeping ev env a) = S (updates a)
  /\ exists l, log (housekeeping ev env a) = CallUpdate :: l.
Proof.
  unfold housekeeping, update, stop, track_modal_window.
  repeat case_match; simplify_eq/=; split; eauto.
Qed.

(** *** The updates of one iteration *)

Lemma call_answer {A} (m : M A) (a : App.t) r p :
  m (prompt_manager a) = (r, p) -> call m a = (r, set_prompt_manager p a).
Proof. unfold call. intros ->. reflexivity. Qed.

(** The reload holds one update when there is a window whose location is
    known, and none otherwise. *)
Lemma updates_reload loc a :
  updates (reload_prompt_manager_window loc a).2
  = match prompt_manager_window a, loc with
    | Some _, Some _ => S (updates a)
    | _, _ => updates a
    end.
Proof.
  unfold reload_prompt_manager_window, popup_prompt_manager, PopupError,
    new_window, call, Gui.new_window.
  repeat case_match; simplify_eq/=; reflexivity.
Qed.

(** After a successful add, edit or delete: the reload, and its update when
    there is a window whose location is known. *)
Lemma updates_after_reload (P : Prop) loc (a a1 : App.t) :
  prompt_manager_window a1 = prompt_manager_window a ->
  updates a1 = updates a -> P ->
  let r := reload_prompt_manager_window loc a1 in
  (is_Some (prompt_manager_window a) /\ is_Some loc /\ P ->
   updates (set_prompt_manager_window r.1 r.2) = S (updates a))
  /\ (~ (is_Some (prompt_manager_window a) /\ is_Some loc /\ P) ->
      updates (set_prompt_manager_window r.1 r.2) = updates a).
Proof.
  intros Hw Hu HP r. subst r.
  change (updates (set_prompt_manager_window ?w ?x)) with (updates x).
  rewrite updates_reload, Hw, Hu.
  destruct (prompt_manager_window a), loc; split;
    try (intros _; reflexivity);
    try (intros ([? H1] & [? H2] & _); discriminate).
  intros H. exfalso. apply H. eauto.
Qed.

(** The chain holds one update in the iterations that reload the prompt
    manager window, which end normally, and none in the others. *)
Lemma dispatch_updates_exact ev env a :
  (reloads ev env a ->
   (dispatch ev env a).1 = Next
   /\ updates (dispatch ev env a).2 = S (updates a))
  /\ (~ reloads ev env a -> updates (dispatch ev env a).2 = updates a).
Proof.
  destruct ev;
    try (split; [intros (_ & _ & []) |]; intros _;
         unfold dispatch, popup_tracked_modal, popup_tracked,
           popup_prompt_manager,
           make_tracked_main_window_with_synced_profiles, make_main_window,
           popup_add_prompt_profile, popup_edit_prompt_profile,
           popup_add_edit_prompt_profile, new_window, call, Gui.new_window;
         repeat case_match; simplify_eq/=;
         first [reflexivity | apply updates_fold_close]).
  - (* ADD_PROMPT_PROFILE *)
    unfold reloads, dispatch.
    destruct (metadata a !! w) as [o |] eqn:Hm.
    2:{ split; [intros (_ & _ & [? H] & _); discriminate | reflexivity]. }
    destruct (decide (blank new_profile_name)) as [Hb | Hb].
    { rewrite (call_answer _ _ _ _
                 (add_prompt_profile_blank _ new_profile_prompt _ Hb)).
      split; [intros (_ & _ & _ & H & _); contradiction | reflexivity]. }
    destruct (decide (new_profile_name ∈ names (prompt_manager a)))
      as [Hin | Hin].
    { rewrite (call_answer _ _ _ _
                 (add_prompt_profile_in_use _ new_profile_prompt _ Hb Hin)).
      split; [intros (_ & _ & _ & _ & H); contradiction | reflexivity]. }
    rewrite (call_answer _ _ _ _
               (add_prompt_profile_fresh _ new_profile_prompt _ Hb Hin)).
    unfold after_add_edit.
    match goal with
    | |- context [reload_prompt_manager_window ?l ?x] =>
        pose proof (updates_after_reload
                      (is_Some (Some o) /\ ~ blank new_profile_name
                       /\ new_profile_name ∉ names (prompt_manager a))
                      l a x eq_refl eq_refl) as Hu;
        destruct (reload_prompt_manager_window l x) as [pmw a2]
    end.
    destruct Hu as [Hu1 Hu2]; [eauto |].
    split; [intros H; split; [reflexivity | apply Hu1, H] | exact Hu2].
  - (* EDIT_PROMPT_PROFILE *)
    unfold reloads, dispatch.
    destruct (metadata a !! w) as [o |] eqn:Hm.
    2:{ split; [intros (_ & _ & ? & H & _); discriminate | reflexivity]. }
    destruct (decide (blank new_profile_name)) as [Hb | Hb].
    { rewrite (call_answer _ _ _ _
                 (edit_prompt_profile_blank _ new_profile_prompt o _ Hb)).
      split; [intros (_ & _ & ? & _ & H & _); contradiction | reflexivity]. }
    destruct (decide (new_profile_name <> o
                      /\ new_profile_name ∈ names (prompt_manager a)))
      as [[Hne Hin] | Hok].
    { rewrite (call_answer _ _ _ _
                 (edit_prompt_profile_in_use _ new_profile_prompt o _
                    Hb Hne Hin)).
      split; [| reflexivity].
      intros (_ & _ & o' & [= <-] & _ & [H | H]); contradiction. }
    assert (Hok' : new_profile_name = o
                   \/ new_profile_name ∉ names (prompt_manager a)).
    { destruct (decide (new_profile_name = o)); [tauto |].
      destruct (decide (new_profile_name ∈ names (prompt_manager a))); tauto. }
    rewrite (call_answer _ _ _ _
               (edit_prompt_profile_ok _ new_profile_prompt o _ Hb Hok')).
    unfold after_add_edit.
    match goal with
    | |- context [reload_prompt_manager_window ?l ?x] =>
        pose proof (updates_after_reload
                      (exists original,
                          Some o = Some original
                          /\ ~ blank new_profile_name
                          /\ (new_profile_name = original
                              \/ new_profile_name
                                 ∉ names (prompt_manager a)))
                      l a x eq_refl eq_refl) as Hu;
        destruct (reload_prompt_manager_window l x) as [pmw a2]
    end.
    destruct Hu as [Hu1 Hu2]; [eauto |].
    split; [intros H; split; [reflexivity | apply Hu1, H] | exact Hu2].
  - (* DELETE_PROMPT *)
    unfold reloads, dispatch.
    destruct selected_table_row_indices as [| i rows].
    { split; [intros (_ & _ & []) | reflexivity]. }
    rewrite (call_answer _ _ _ _ (saved_prompt_profile_names_run _)).
    destruct (tail (names (prompt_manager a)) !! i) as [n |] eqn:Hi.
    2:{ split; [intros (_ & _ & ? & H); discriminate | reflexivity]. }
    assert (Hn : is_Some (profiles (rebind (prompt_manager a)) !! n)).
    { rewrite profiles_rebind.
      apply list_elem_of_lookup_2 in Hi. unfold names in Hi. simpl in Hi.
      apply elem_of_sorted, list_elem_of_fmap in Hi as [[k v] [-> H]].
      apply elem_of_map_to_list in H. eauto. }
    rewrite (call_answer (delete_prompt_profile n)
               (set_prompt_manager (rebind (prompt_manager a)) a) _ _
               (delete_prompt_profile_present n _ Hn)).
    match goal with
    | |- context [reload_prompt_manager_window ?l ?x] =>
        pose proof (updates_after_reload (is_Some (Some n))
                      l a x eq_refl eq_refl) as Hu;
        destruct (reload_prompt_manager_window l x) as [pmw a2]
    end.
    destruct Hu as [Hu1 Hu2]; [eauto |].
    split; [intros H; split; [reflexivity | apply Hu1, H] | exact Hu2].
Qed.

(** The iterations that take [continue]: the scaling input is no decimal,
    or a decimal out of range; they track a popup and update nothing. *)
Lemma loop_body_Continue ev env a :
  ((loop_body ev env a).1 = Continue
   <-> ev = APPLY_GLOBAL_SCALING None
       \/ exists d, ev = APPLY_GLOBAL_SCALING (Some d)
                    /\ scaling_in_range d = Some false)
  /\ ((loop_body ev env a).1 = Continue ->
      log (loop_body ev env a).2
      = CallTrackModal (Gui.next_window (gui a)) :: log a).
Proof.
  unfold loop_body, dispatch, after_add_edit.
  destruct ev.
  all: repeat case_match; simplify_eq/=.
  all: split; [split |]; try discriminate; try reflexivity; eauto.
  all: try (intros [H | (d' & H & H')]; simplify_eq; congruence).
Qed.

(** The updates of one iteration. *)
Lemma loop_body_updates ev env a :
  let r := loop_body ev env a in
  (r.1 = Next ->
   (exists l, log r.2 = CallUpdate :: l)
   /\ (updates r.2 = (updates a + 1)%nat
       \/ updates r.2 = (updates a + 2)%nat))
  /\ (r.1 <> Next -> updates r.2 = updates a)
  /\ (reloads ev env a ->
      r.1 = Next /\ updates r.2 = (updates a + 2)%nat)
  /\ (~ reloads ev env a -> r.1 = Next ->
      updates r.2 = (updates a + 1)%nat).
Proof.
  intros r. subst r.
  destruct (dispatch_updates_exact ev env a) as [He1 He2].
  pose proof (dispatch_updates ev env a) as Hd.
  unfold loop_body.
  destruct (dispatch ev env a) as [o a1]; simpl in *.
  destruct (updates_housekeeping ev env a1) as [Hh Hl].
  split; [| split; [| split]].
  - destruct o; simpl; try discriminate. intros _. split; [exact Hl |].
    rewrite Hh. destruct Hd as [-> | [_ ->]]; [left | right]; lia.
  - destruct o; simpl; try congruence; intros _;
      destruct Hd as [Hd | [Hd _]]; congruence.
  - intros H. destruct (He1 H) as [-> Hu]. simpl. split; [reflexivity |].
    rewrite Hh, Hu. lia.
  - intros H. specialize (He2 H). destruct o; simpl; try discriminate.
    intros _. rewrite Hh, He2. lia.
Qed.

(** *** The windows of the loop *)

(** The loop keeps the focus with tracked windows, one at most. *)
Abbreviation Inv a := (consistent (windows a)).

Lemma Inv_new_window a w a' : new_window a = (w, a') -> Inv a -> Inv a'.
Proof.
  unfold new_window. simpl. intros [= <- <-]. 
  exact (consistent_step (windows a) Open).
Qed.

Lemma Inv_close w a : Inv a -> Inv (close w a).
Proof. exact (consistent_step (windows a) (Close w)). Qed.

Lemma Inv_track_modal_window w a : Inv a -> Inv (App.track_modal_window w a).
Proof. exact (consistent_step (windows a) (Track w)). Qed.

Lemma Inv_update a : Inv a -> Inv (App.update a).
Proof.
  intros H. unfold Inv, windows, App.update.
  pose proof (consistent_update _ _ H) as H'.
  destruct (ModalWindowManager.update _ _). exact H'.
Qed.

Lemma Inv_same a a' : windows a' = windows a -> Inv a -> Inv a'.
Proof. unfold Inv. intros ->. trivial. Qed.

Lemma Inv_call {A} (m : M A) a r a' : call m a = (r, a') -> Inv a -> Inv a'.
Proof.
  unfold call. destruct (m _). intros [= <- <-]. apply Inv_same. reflexivity.
Qed.

Lemma Inv_popup_tracked_modal a : Inv a -> Inv (popup_tracked_modal a).
Proof.
  intros H. unfold popup_tracked_modal, popup_tracked.
  destruct (new_window a) as [w a1] eqn:E.
  apply Inv_track_modal_window. apply (Inv_same a1); [reflexivity |].
  eapply (Inv_new_window a); eassumption.
Qed.

Lemma Inv_popup_prompt_manager a w a' :
  popup_prompt_manager a = (w, a') -> Inv a -> Inv a'.
Proof.
  unfold popup_prompt_manager.
  destruct (call saved_prompt_profiles_list a) as [r a1] eqn:E.
  intros Hn H. eapply Inv_new_window; [exact Hn |].
  eapply Inv_call; eassumption.
Qed.

Lemma Inv_reload loc a w a' :
  reload_prompt_manager_window loc a = (w, a') -> Inv a -> Inv a'.
Proof.
  unfold reload_prompt_manager_window.
  destruct (prompt_manager_window a) as [old|]; [| intros [= <- <-]; trivial].
  destruct loc; [| intros [= <- <-]; trivial].
  destruct (popup_prompt_manager a) as [new a1] eqn:E.
  intros [= <- <-] H.
  apply Inv_track_modal_window, Inv_update.
  apply (Inv_same (close old a1)); [reflexivity |].
  apply Inv_close. eapply Inv_popup_prompt_manager; eassumption.
Qed.

Lemma Inv_fold_close ws a :
  Inv a -> Inv (fold_left (fun a win => close win a) ws a).
Proof.
  revert a. induction ws as [| w ws IH]; intros a H; simpl; [exact H |].
  apply IH, Inv_close, H.
Qed.

Lemma Inv_make_tracked a w a' :
  make_tracked_main_window_with_synced_profiles a = (w, a') ->
  Inv a -> Inv a'.
Proof.
  unfold make_tracked_main_window_with_synced_profiles, make_main_window.
  destruct (call prompt_profile_names a) as [r1 a1] eqn:E1.
  destruct (call saved_prompt_profiles a1) as [r2 a2] eqn:E2.
  destruct (new_window a2) as [w3 a3] eqn:E3.
  intros [= <- <-] H.
  eapply (Inv_same a3); [reflexivity |].
  eapply Inv_new_window; [exact E3 |].
  eapply Inv_call; [exact E2 |].
  eapply Inv_call; [exact E1 |]. exact H.
Qed.

Ltac inv_step :=
  match goal with
  | H : Inv ?a |- Inv ?a => exact H
  | |- Inv (App.track_modal_window _ _) => apply Inv_track_modal_window
  | |- Inv (close _ _) => apply Inv_close
  | |- Inv (App.update _) => apply Inv_update
  | |- Inv (popup_tracked_modal _) => apply Inv_popup_tracked_modal
  | |- Inv (fold_left _ _ _) => apply Inv_fold_close
  | |- Inv (stop ?a) => apply (Inv_same a); [reflexivity |]
  | |- Inv (track_window _ ?a) => apply (Inv_same a); [reflexivity |]
  | |- Inv (set_transcriber _ ?a) => apply (Inv_same a); [reflexivity |]
  | |- Inv (set_prompt_manager _ ?a) => apply (Inv_same a); [reflexivity |]
  | |- Inv (set_window_tracker _ ?a) => apply (Inv_same a); [reflexivity |]
  | |- Inv (set_main_window _ ?a) => apply (Inv_same a); [reflexivity |]
  | |- Inv (set_prompt_manager_window _ ?a) =>
      apply (Inv_same a); [reflexivity |]
  | |- Inv (set_add_new_prompt_window _ ?a) =>
      apply (Inv_same a); [reflexivity |]
  | |- Inv (set_selected_profile_setting _ ?a) =>
      apply (Inv_same a); [reflexivity |]
  | |- Inv (set_metadata _ ?a) => apply (Inv_same a); [reflexivity |]
  | E : new_window ?a = (_, ?a') |- Inv ?a' =>
      apply (Inv_new_window _ _ _ E)
  | E : call _ ?a = (_, ?a') |- Inv ?a' => apply (Inv_call _ _ _ _ E)
  | E : popup_prompt_manager ?a = (_, ?a') |- Inv ?a' =>
      apply (Inv_popup_prompt_manager _ _ _ E)
  | E : reload_prompt_manager_window _ ?a = (_, ?a') |- Inv ?a' =>
      apply (Inv_reload _ _ _ _ E)
  | E : make_tracked_main_window_with_synced_profiles ?a = (_, ?a')
    |- Inv ?a' => apply (Inv_make_tracked _ _ _ E)
  end.

Lemma Inv_dispatch ev env a : Inv a -> Inv (dispatch ev env a).2.
Proof.
  intros H.
  unfold dispatch, after_add_edit, popup_add_prompt_profile,
    popup_edit_prompt_profile, popup_add_edit_prompt_profile.
  destruct ev.
  all: repeat case_match; simplify_eq; cbn [snd].
  all: repeat inv_step.
Qed.

Lemma Inv_housekeeping ev env a : Inv a -> Inv (housekeeping ev env a).
Proof.
  intros H. unfold housekeeping.
  repeat case_match; repeat inv_step.
Qed.

Lemma Inv_loop_body ev env a : Inv a -> Inv (loop_body ev env a).2.
Proof.
  intros H. unfold loop_body.
  pose proof (Inv_dispatch ev env a H) as Hd.
  destruct (dispatch ev env a) as [[] a1]; simpl in *; try exact Hd.
  apply Inv_housekeeping, Hd.
Qed.

Lemma Inv_loop evs a : Inv a -> Inv (loop evs a).2.
Proof.
  revert a. induction evs as [| [ev env] evs IH]; intros a H; [exact H |].
  cbn [loop].
  pose proof (Inv_loop_body ev env a H) as Hb.
  destruct (loop_body ev env a) as [[] a1]; simpl in *;
    first [apply IH, Hb | apply Inv_close, Hb | exact Hb].
Qed.

Lemma Inv_setup h u f selected : Inv (setup h u f selected).
Proof.
  unfold setup.
  destruct (make_tracked_main_window_with_synced_profiles _) as [w a] eqn:E.
  apply (Inv_same a); [reflexivity |].
  apply (Inv_make_tracked _ _ _ E).
  exact consistent_init.
Qed.

Lemma update_nil g : update [] g = ([], g).
Proof.
  unfold update. simpl. destruct g as [n o m]. simpl. do 2 f_equal.
  apply leibniz_equiv. set_solver.
Qed.

Lemma close_closed w g : w ∉ Gui.open_windows g -> Gui.close w g = g.
Proof.
  intros H. destruct g as [n o m]. unfold Gui.close. simpl in *. f_equal.
  apply leibniz_equiv. set_solver.
Qed.

Lemma close_close w g : Gui.close w (Gui.close w g) = Gui.close w g.
Proof.
  apply close_closed. unfold Gui.close. simpl. set_solver.
Qed.

(** C8, as the code has it: whatever windows are created, tracked and
    closed and whenever the manager is asked to update, and so at every
    point of a run of [start_GUI], at most one tracked window is an
    active modal, and after each update it is exactly the most recently
    tracked window that is still open (after W1, W2, W3 are tracked in
    this order and W2 is closed, an update makes W3 the active modal;
    after W3 is closed too, an update makes it W1). An iteration of the
    loop that runs to the end of the loop body ends with an update of the
    manager; it holds exactly two updates if it reloads the prompt manager
    window, and every such iteration runs to the end, and exactly one
    otherwise. An iteration that leaves the body early, by [continue],
    [break] or an exception, holds none; the iterations that take
    [continue] are those of a scaling input that is no decimal or out of
    range, and they track a popup as a modal window before they leave.
    Updating with no tracked window, and closing a window that is closed,
    change nothing. *)
Theorem modal_window_reconciled :
  (forall ops,
      let st := run ops (init, Gui.init) in
      (length (active st.1 st.2) <= 1)%nat
      /\ active (update st.1 st.2).1 (update st.1 st.2).2
         = match last (filter (fun w => w ∈ Gui.open_windows st.2) st.1) with
           | Some w => [w]
           | None => []
           end
      /\ (forall w,
            active (update st.1 st.2).1 (update st.1 st.2).2 = [w]
            <-> exists l1 l2,
                st.1 = l1 ++ w :: l2 /\ w ∈ Gui.open_windows st.2
                /\ Forall (fun x => x ∉ Gui.open_windows st.2) l2))
  /\ (forall h u f selected evs,
      let a := (start_GUI h u f selected evs).2 in
      (length (active (modal_window_manager a) (gui a)) <= 1)%nat)
  /\ (let W1 := 1%positive in
      let W2 := 2%positive in
      let W3 := 3%positive in
      let st := run [Open; Open; Open; Track W1; Track W2; Track W3;
                     Close W2; Reconcile] (init, Gui.init) in
      active st.1 st.2 = [W3]
      /\ (let st' := run [Close W3; Reconcile] st in
          active st'.1 st'.2 = [W1]))
  /\ (forall ev env a,
      let r := loop_body ev env a in
      (r.1 = Next ->
       (exists l, log r.2 = CallUpdate :: l)
       /\ (updates r.2 = (updates a + 1)%nat
           \/ updates r.2 = (updates a + 2)%nat))
      /\ (r.1 <> Next -> updates r.2 = updates a)
      /\ (reloads ev env a ->
          r.1 = Next /\ updates r.2 = (updates a + 2)%nat)
      /\ (~ reloads ev env a -> r.1 = Next ->
          updates r.2 = (updates a + 1)%nat)
      /\ (r.1 = Continue
          <-> ev = APPLY_GLOBAL_SCALING None
              \/ exists d, ev = APPLY_GLOBAL_SCALING (Some d)
                           /\ scaling_in_range d = Some false)
      /\ (r.1 = Continue ->
          log r.2 = CallTrackModal (Gui.next_window (gui a)) :: log a))
  /\ (forall g, update [] g = ([], g))
  /\ (forall w g, w ∉ Gui.open_windows g -> Gui.close w g = g)
  /\ (forall w g, Gui.close w (Gui.close w g) = Gui.close w g).
Proof.
  split; [| split; [| split; [| split; [| split; [| split]]]]].
  - intros ops st.
    assert (Hc : consistent st) by apply consistent_run, consistent_init.
    assert (Hu : active (update st.1 st.2).1 (update st.1 st.2).2
                 = match last (filter (fun w => w ∈ Gui.open_windows st.2)
                                 st.1) with
                   | Some w => [w]
                   | None => []
                   end).
    { apply active_update. destruct st. exact Hc. }
    split; [apply active_at_most_one, Hc |]. split; [exact Hu |].
    intros w. rewrite Hu.
    pose proof (last_filter_newest (fun w => w ∈ Gui.open_windows st.2)
                  st.1 w) as Hl.
    simpl in Hl. rewrite <- Hl.
    destruct (last _); split; congruence.
  - intros h u f selected evs a.
    apply (active_at_most_one (windows a)), Inv_loop, Inv_setup.
  - vm_compute. split; reflexivity.
  - intros ev env a r. subst r.
    destruct (loop_body_updates ev env a) as (H1 & H2 & H3 & H4).
    destruct (loop_body_Continue ev env a) as [H5 H6].
    split; [exact H1 |]. split; [exact H2 |]. split; [exact H3 |].
    split; [exact H4 |]. split; [exact H5 | exact H6].
  - apply update_nil.
  - apply close_closed.
  - apply close_close.
Qed.

(** C8, at three iterations. With the prompt manager window open, the
    iteration that deletes a profile reloads that window and updates the
    manager twice; the iteration that leaves the loop, on the closing of
    the main window, does not update it; nor does the iteration that
    takes [continue] because the scaling input is no decimal, though it
    tracks a popup as a modal window. *)
Lemma update_not_once_per_iteration :
  let A := of_string "A" in
  let env := mkEnv 0 true None (Some (0, 0)%Z) in
  let a0 := setup ∅ None [] None in
  let a :=
    (loop [ (OPEN_ADD_PROMPT_WINDOW, env);
            (ADD_PROMPT_PROFILE 2%positive A A, env);
            (START_PROMPT_MANAGER, env) ] a0).2 in
  ((loop_body (DELETE_PROMPT [0%nat]) env a).1 = Next
   /\ updates (loop_body (DELETE_PROMPT [0%nat]) env a).2
      = (updates a + 2)%nat)
  /\ ((loop_body (Closing (main_window a0)) env a0).1 = Break
      /\ updates (loop_body (Closing (main_window a0)) env a0).2
         = updates a0)
  /\ ((loop_body (APPLY_GLOBAL_SCALING None) env a0).1 = Continue
      /\ log (loop_body (APPLY_GLOBAL_SCALING None) env a0).2
         = [CallTrackModal 2%positive]
      /\ updates (loop_body (APPLY_GLOBAL_SCALING None) env a0).2
         = updates a0).
Proof. vm_compute. repeat split. Qed.

End ModalWindows.

(** ** Leaving the loop *)

Module LoopExit.

Import Py PromptManager App.

Lemma dispatch_Break ev env a :
  (dispatch ev env a).1 = Break <-> ev = Closing (main_window a).
Proof.
  split.
  - unfold dispatch, after_add_edit, reload_prompt_manager_window,
      popup_tracked_modal, popup_tracked, popup_prompt_manager,
      make_tracked_main_window_with_synced_profiles, make_main_window,
      popup_add_prompt_profile, popup_edit_prompt_profile,
    popup_add_edit_prompt_profile, new_window, call, Gui.new_window.
    destruct ev.
    all: repeat case_match.
    all: simplify_eq/=.
    all: try discriminate.
    all: intros _; f_equal; eapply bool_decide_eq_true_1; eassumption.
  - intros ->. simpl. rewrite bool_decide_eq_true_2 by reflexivity.
    destruct (Transcriber.transcribe_thread _); reflexivity.
Qed.

Lemma loop_body_Break ev env a :
  (loop_body ev env a).1 = Break <-> ev = Closing (main_window a).
Proof.
  rewrite <- (dispatch_Break ev env a). unfold loop_body.
  destruct (dispatch ev env a) as [[] a1]; simpl; split; congruence.
Qed.

(** What the iteration that leaves the loop does. *)
Lemma loop_body_Closing_main env a :
  loop_body (Closing (main_window a)) env a
  = (Break, if Transcriber.transcribe_thread (transcriber a)
            then stop a else a).
Proof.
  unfold loop_body, dispatch. rewrite bool_decide_eq_true_2 by reflexivity.
  destruct (Transcriber.transcribe_thread _); reflexivity.
Qed.

Lemma loop_Returned evs a :
  (loop evs a).1 = Returned
  <-> exists evs1 env evs2 a1,
      evs = evs1 ++ (Closing (main_window a1), env) :: evs2
      /\ loop evs1 a = (Looping, a1).
Proof.
  revert a. induction evs as [| [ev env] evs IH]; intros a.
  - split; [discriminate |]. intros (evs1 & env & evs2 & a1 & Heq & _).
    destruct evs1; discriminate.
  - cbn [loop]. split.
    + destruct (loop_body ev env a) as [o a1] eqn:E. destruct o.
      * intros H. apply IH in H as (evs1 & env' & evs2 & a2 & -> & Hl).
        exists ((ev, env) :: evs1), env', evs2, a2.
        split; [reflexivity |]. cbn [loop]. rewrite E. exact Hl.
      * intros H. apply IH in H as (evs1 & env' & evs2 & a2 & -> & Hl).
        exists ((ev, env) :: evs1), env', evs2, a2.
        split; [reflexivity |]. cbn [loop]. rewrite E. exact Hl.
      * intros _. exists [], env, evs, a. split; [| reflexivity].
        assert (Hb : (loop_body ev env a).1 = Break) by (rewrite E; reflexivity).
        apply loop_body_Break in Hb. subst ev. reflexivity.
      * discriminate.
    + intros (evs1 & env' & evs2 & a1 & Heq & Hl).
      destruct evs1 as [| [ev1 env1] evs1].
      * simpl in Heq, Hl. injection Hl as <-. injection Heq as -> -> ->.
        rewrite loop_body_Closing_main. reflexivity.
      * simpl in Heq. injection Heq as -> -> ->.
        cbn [loop] in Hl.
        destruct (loop_body ev1 env1 a) as [o a2] eqn:E.
        destruct o; try discriminate;
          apply IH; exists evs1, env', evs2, a1; auto.
Qed.

(** C9, as the code has it: an iteration leaves the loop by [break]
    exactly when its event is a closing event of the main window, and the
    loop returns exactly when such an event arrives while it is looping.
    On that exit, if the transcriber holds a worker handle, the loop calls
    [stop] on it and then closes the main window; [stop] is a request: the
    handle is still held when the window is closed, and a job that was
    Running is Stopping, not Done. Without a worker handle the loop only
    closes the main window. *)
Theorem loop_leaves_on_main_window_close :
  (forall ev env a,
      (loop_body ev env a).1 = Break <-> ev = Closing (main_window a))
  /\ (forall evs a,
      (loop evs a).1 = Returned
      <-> exists evs1 env evs2 a1,
          evs = evs1 ++ (Closing (main_window a1), env) :: evs2
          /\ loop evs1 a = (Looping, a1))
  /\ (forall env rest a,
      exists a',
        loop ((Closing (main_window a), env) :: rest) a = (Returned, a')
        /\ Gui.is_open (gui a') (main_window a) = false
        /\ (Transcriber.transcribe_thread (transcriber a) = true ->
            log a' = CallClose (main_window a) :: CallStop :: log a
            /\ transcriber a' = Transcriber.stop (transcriber a)
            /\ Transcriber.transcribe_thread (transcriber a') = true
            /\ (Transcriber.state (transcriber a) = Transcriber.Running ->
                Transcriber.state (transcriber a')
                = Transcriber.Stopping))
        /\ (Transcriber.transcribe_thread (transcriber a) = false ->
            log a' = CallClose (main_window a) :: log a
            /\ transcriber a' = transcriber a)).
Proof.
  split; [exact loop_body_Break |]. split; [exact loop_Returned |].
  intros env rest a. eexists. cbn [loop]. rewrite loop_body_Closing_main.
  split; [reflexivity |].
  split; [| split].
  - unfold Gui.is_open. apply bool_decide_eq_false_2.
    destruct (Transcriber.transcribe_thread (transcriber a)); simpl;
      set_solver.
  - intros H. rewrite H. simpl. repeat split.
    + unfold Transcriber.stop.
      destruct (Transcriber.state (transcriber a)); exact H.
    + intros Hs. unfold Transcriber.stop. rewrite Hs. reflexivity.
  - intros H. rewrite H. simpl. split; reflexivity.
Qed.

(** C9, at a run where a job is under way when the main window is closed:
    the loop returns with the main window closed, having asked the job to
    stop, while the worker handle is still held and the job is Stopping. *)
Lemma exit_does_not_wait_for_worker :
  let f := of_string "f" in
  let env := mkEnv 0 true None None in
  let r := start_GUI ∅ None [] None
             [(START f f [f], env); (Closing 1%positive, env)] in
  r.1 = Returned
  /\ log r.2 = [CallClose 1%positive; CallStop; CallUpdate]
  /\ Gui.is_open (gui r.2) 1%positive = false
  /\ Transcriber.transcribe_thread (transcriber r.2) = true
  /\ Transcriber.state (transcriber r.2) = Transcriber.Stopping.
Proof. vm_compute. repeat split. Qed.

End LoopExit.

(** ** Deleting from the prompt manager window *)

Module DeleteEvent.

Import Py PyFacts PromptManager PromptManagerFacts App.

Lemma call_run {A} (m : M A) (a : t) r p :
  m (prompt_manager a) = (r, p) -> call m a = (r, set_prompt_manager p a).
Proof. unfold call. intros ->. reflexivity. Qed.

(** X2: the loop deletes a profile by the row selected in the table, so
    the name it passes to [delete_prompt_profile] is the name of a saved
    profile: the iteration raises no [KeyError]. It ends normally, or with
    an [IndexError] when the row is beyond the list. *)
Theorem delete_event_raises_no_KeyError (rows : list nat) (env : Env)
    (a : t) :
  (loop_body (DELETE_PROMPT rows) env a).1 = Next
  \/ (loop_body (DELETE_PROMPT rows) env a).1 = Raise IndexError.
Proof.
  unfold loop_body, dispatch.
  destruct rows as [| i rows]; [left; reflexivity |].
  rewrite (call_run _ _ _ _ (saved_prompt_profile_names_run _)).
  destruct (tail (names (prompt_manager a)) !! i) as [n|] eqn:Hi;
    [| right; reflexivity].
  assert (Hn : is_Some (profiles (rebind (prompt_manager a)) !! n)).
  { rewrite profiles_rebind.
    apply list_elem_of_lookup_2 in Hi. unfold names in Hi. simpl in Hi.
    apply elem_of_sorted, list_elem_of_fmap in Hi as [[k v] [-> H]].
    apply elem_of_map_to_list in H. eauto. }
  rewrite (call_run (delete_prompt_profile n)
             (set_prompt_manager (rebind (prompt_manager a)) a) _ _
             (delete_prompt_profile_present n _ Hn)).
  destruct (reload_prompt_manager_window _ _). left. reflexivity.
Qed.

End DeleteEvent.

(** ** The unsaved profile name in the loop *)

Module ReservedName.

Import Py PyFacts PromptManager PromptManagerFacts PromptProfileStore App.

Lemma free_same a a' :
  profiles (prompt_manager a') = profiles (prompt_manager a) ->
  metadata a' = metadata a -> unsaved_name_free a -> unsaved_name_free a'.
Proof. unfold unsaved_name_free. intros -> ->. trivial. Qed.

Lemma saved_prompt_profiles_list_run s :
  exists l, saved_prompt_profiles_list s = (inr l, rebind s)
            /\ forall n p, (n, p) ∈ l -> profiles s !! n = Some p.
Proof.
  eexists. split; [reflexivity |].
  intros n p H.
  rewrite merge_sort_Permutation in H.
  apply elem_of_map_to_list in H. exact H.
Qed.

Lemma free_call {A} (m : M A) a r a' :
  call m a = (r, a') ->
  profiles (m (prompt_manager a)).2 = profiles (prompt_manager a) ->
  unsaved_name_free a -> unsaved_name_free a'.
Proof.
  unfold call. destruct (m _) as [r' p]. intros [= <- <-] Hp.
  apply free_same; [exact Hp | reflexivity].
Qed.


Ltac free_call E :=
  eapply (free_call _ _ _ _ E); try (simpl; apply profiles_rebind).

Lemma free_new_window a w a' : new_window a = (w, a') -> unsaved_name_free a -> unsaved_name_free a'.
Proof. intros [= <- <-]. apply free_same; reflexivity. Qed.

Lemma free_popup_tracked_modal a : unsaved_name_free a -> unsaved_name_free (popup_tracked_modal a).
Proof. apply free_same; reflexivity. Qed.

Lemma free_popup_prompt_manager a w a' :
  popup_prompt_manager a = (w, a') -> unsaved_name_free a -> unsaved_name_free a'.
Proof.
  unfold popup_prompt_manager.
  destruct (call saved_prompt_profiles_list a) as [r a1] eqn:E1.
  intros [= <- <-] H. eapply (free_same a1); try reflexivity.
  free_call E1. exact H.
Qed.

Lemma free_reload loc a w a' :
  reload_prompt_manager_window loc a = (w, a') -> unsaved_name_free a -> unsaved_name_free a'.
Proof.
  unfold reload_prompt_manager_window.
  destruct (prompt_manager_window a); [| intros [= <- <-]; trivial].
  destruct loc; [| intros [= <- <-]; trivial].
  destruct (popup_prompt_manager a) as [w1 a1] eqn:E1.
  intros [= <- <-] H. eapply (free_same a1); try reflexivity.
  eapply free_popup_prompt_manager; eassumption.
Qed.

Lemma free_make_tracked a w a' :
  make_tracked_main_window_with_synced_profiles a = (w, a') ->
  unsaved_name_free a -> unsaved_name_free a'.
Proof.
  unfold make_tracked_main_window_with_synced_profiles, make_main_window.
  destruct (call prompt_profile_names a) as [r1 a1] eqn:E1.
  destruct (call saved_prompt_profiles a1) as [r2 a2] eqn:E2.
  destruct (new_window a2) as [w3 a3] eqn:E3.
  intros [= <- <-] H.
  eapply (free_same a3); try reflexivity.
  eapply free_new_window; [exact E3 |].
  free_call E2. free_call E1. exact H.
Qed.

Lemma free_popup_add_edit_prompt_profile profile_name a w a' :
  popup_add_edit_prompt_profile profile_name a = (w, a') ->
  profile_name <> unsaved_prompt_profile_name -> unsaved_name_free a -> unsaved_name_free a'.
Proof.
  intros [= <- <-] Hn [H1 H2]. split; [exact H1 |].
  intros w v Hv. simpl in Hv.
  apply lookup_insert_Some in Hv as [[_ <-] | [_ Hv]].
  - exact Hn.
  - eapply H2, Hv.
Qed.

Lemma free_fold_close ws a :
  unsaved_name_free a -> unsaved_name_free (fold_left (fun a win => close win a) ws a).
Proof.
  revert a. induction ws as [| w ws IH]; intros a H; simpl; [exact H |].
  apply IH. revert H. apply free_same; reflexivity.
Qed.

Lemma free_after_add_edit w env r a :
  unsaved_name_free a -> unsaved_name_free (after_add_edit w env (r, a)).2.
Proof.
  intros H. unfold after_add_edit.
  destruct r as [e | [[] msg]]; simpl.
  - exact H.
  - destruct (reload_prompt_manager_window _ _) as [pmw a1] eqn:E. simpl.
    eapply (free_same a1); try reflexivity.
    eapply free_reload; [exact E |].
    revert H. apply free_same; reflexivity.
  - apply free_popup_tracked_modal, H.
Qed.

Lemma free_call_apply {A} (m : M A) o a r a' :
  call m a = (r, a') ->
  (m (prompt_manager a)).2 = apply (prompt_manager a) o ->
  ~ edits_unsaved_name o -> unsaved_name_free a -> unsaved_name_free a'.
Proof.
  unfold call. destruct (m _) as [r' p]. intros [= <- <-] Hp Ho [H1 H2].
  simpl in Hp. subst p. split; [| exact H2]. simpl.
  apply apply_keeps_unsaved_name_free; assumption.
Qed.

Lemma free_dispatch ev env a : unsaved_name_free a -> unsaved_name_free (dispatch ev env a).2.
Proof.
  intros H. unfold dispatch. destruct ev; try exact H.
  - (* Closing *)
    repeat case_match; simpl; try exact H;
      revert H; apply free_same; reflexivity.
  - (* START_PROMPT_MANAGER *)
    destruct (popup_prompt_manager a) as [w a1] eqn:E. simpl.
    eapply (free_same a1); try reflexivity.
    eapply free_popup_prompt_manager; eassumption.
  - (* OPEN_ADD_PROMPT_WINDOW *)
    unfold popup_add_prompt_profile.
    destruct (popup_add_edit_prompt_profile [] a) as [w a1] eqn:E. simpl.
    eapply (free_same a1); try reflexivity.
    eapply free_popup_add_edit_prompt_profile;
      [exact E | discriminate | exact H].
  - (* OPEN_EDIT_PROMPT_WINDOW *)
    destruct selected_table_row_indices as [| i rows];
      [apply free_popup_tracked_modal, H |].
    destruct (saved_prompt_profiles_list_run (prompt_manager a))
      as (l & Hl & Hin).
    unfold call. rewrite Hl. cbn beta iota.
    assert (Hr : unsaved_name_free (set_prompt_manager (rebind (prompt_manager a)) a)).
    { revert H. apply free_same; [apply profiles_rebind | reflexivity]. }
    destruct (l !! i) as [[n p] |] eqn:Hi; [| exact Hr].
    unfold popup_edit_prompt_profile.
    destruct (popup_add_edit_prompt_profile n _) as [w a1] eqn:E. simpl.
    eapply (free_same a1); try reflexivity.
    eapply free_popup_add_edit_prompt_profile; [exact E | | exact Hr].
    intros ->. apply list_elem_of_lookup_2, Hin in Hi.
    destruct H as [H _]. congruence.
  - (* ADD_PROMPT_PROFILE *)
    destruct (metadata a !! w) as [o |] eqn:Ho; [| exact H].
    destruct (call _ a) as [r a1] eqn:E.
    apply free_after_add_edit.
    eapply (free_call_apply _ (Add _ _) _ _ _ E); [reflexivity | | exact H].
    simpl. tauto.
  - (* EDIT_PROMPT_PROFILE *)
    destruct (metadata a !! w) as [o |] eqn:Ho; [| exact H].
    destruct (call _ a) as [r a1] eqn:E.
    apply free_after_add_edit.
    eapply (free_call_apply _ (Edit _ _ _) _ _ _ E); [reflexivity | | exact H].
    simpl. intros [_ ->]. destruct H as [_ H2]. exact (H2 _ _ Ho eq_refl).
  - (* DELETE_PROMPT *)
    destruct selected_table_row_indices as [| i rows];
      [apply free_popup_tracked_modal, H |].
    destruct (call saved_prompt_profile_names a) as [l a1] eqn:E1.
    assert (H1 : unsaved_name_free a1) by (free_call E1; exact H).
    destruct l as [e | l]; [exact H1 |].
    destruct (l !! i) as [n |]; [| exact H1].
    destruct (call (delete_prompt_profile n) a1) as [r a2] eqn:E2.
    assert (H2 : unsaved_name_free a2).
    { eapply (free_call_apply _ (Delete _) _ _ _ E2);
        [reflexivity | simpl; tauto | exact H1]. }
    destruct r as [e | []]; [exact H2 |].
    destruct (reload_prompt_manager_window _ _) as [pmw a3] eqn:E3. simpl.
    eapply (free_same a3); try reflexivity.
    eapply free_reload; eassumption.
  - (* PROMPT_PROFILE_DROPDOWN *)
    destruct (call saved_prompt_profile_names a) as [l a1] eqn:E1.
    assert (H1 : unsaved_name_free a1) by (free_call E1; exact H).
    destruct l as [e | l]; [exact H1 |].
    case_bool_decide.
    + destruct (call saved_prompt_profiles a1) as [r a2] eqn:E2. simpl.
      eapply (free_same a2); try reflexivity.
      free_call E2. exact H1.
    + case_bool_decide; exact H1.
  - (* APPLY_GLOBAL_SCALING *)
    destruct scaling_input as [d |]; [| apply free_popup_tracked_modal, H].
    destruct (scaling_in_range d) as [[] |];
      [| apply free_popup_tracked_modal, H | exact H].
    match goal with
    | |- context [make_tracked_main_window_with_synced_profiles ?x] =>
        destruct (make_tracked_main_window_with_synced_profiles x)
          as [w a1] eqn:E
    end.
    simpl.
    eapply (free_same a1); try reflexivity.
    eapply free_make_tracked; [exact E |].
    eapply (free_same (fold_left _ _ a)); try reflexivity.
    apply free_fold_close, H.
  - (* START *)
    case_match; [exact H | apply free_popup_tracked_modal, H].
  - (* TRANSCRIBE_SUCCESS *)
    destruct (Transcriber.done _ _ _) as [[time |] tr]; simpl;
      [apply free_popup_tracked_modal |]; exact H.
Qed.

Lemma free_housekeeping ev env a :
  unsaved_name_free a -> unsaved_name_free (housekeeping ev env a).
Proof.
  apply free_same;
    unfold housekeeping, App.update, stop, App.track_modal_window;
    repeat case_match; reflexivity.
Qed.

Lemma free_loop_body ev env a :
  unsaved_name_free a -> unsaved_name_free (loop_body ev env a).2.
Proof.
  intros H. unfold loop_body.
  pose proof (free_dispatch ev env a H) as Hd.
  destruct (dispatch ev env a) as [[] a1]; simpl in *; try exact Hd.
  apply free_housekeeping, Hd.
Qed.

Lemma free_loop evs a :
  unsaved_name_free a -> unsaved_name_free (loop evs a).2.
Proof.
  revert a. induction evs as [| [ev env] evs IH]; intros a H; simpl;
    [exact H |].
  pose proof (free_loop_body ev env a H) as Hb.
  destruct (loop_body ev env a) as [[] a1]; simpl in *; auto.
Qed.

Lemma free_setup h u f selected :
  profiles (__init__ h u f ∅ []) !! unsaved_prompt_profile_name = None ->
  unsaved_name_free (setup h u f selected).
Proof.
  intros H. unfold setup.
  destruct (make_tracked_main_window_with_synced_profiles _) as [w a] eqn:E.
  eapply (free_same a); try reflexivity.
  eapply free_make_tracked; [exact E |].
  split; [exact H |]. simpl. intros w' v Hv.
  rewrite lookup_empty in Hv. discriminate.
Qed.

(** X3: in the loop the original name of an edit is the name its window
    was made for, the name of a saved profile picked in the table. So along
    every run of [start_GUI] that begins with no profile saved under the
    unsaved profile name, none is ever saved under it, and the list of
    profile names is the unsaved profile name followed by the names of the
    saved profiles in ascending order, with no name twice. *)
Theorem loop_keeps_unsaved_name_apart (h : gmap ref dict) (u : option ref)
    (f : list dict) (selected : option str) (evs : list (Event * Env)) :
  profiles (__init__ h u f ∅ []) !! unsaved_prompt_profile_name = None ->
  let p := prompt_manager (start_GUI h u f selected evs).2 in
  exists l,
    (prompt_profile_names p).1 = inr (unsaved_prompt_profile_name :: l)
    /\ NoDup (unsaved_prompt_profile_name :: l)
    /\ StronglySorted le l
    /\ (forall name, name ∈ l <-> is_Some (profiles p !! name))
    /\ profiles p !! unsaved_prompt_profile_name = None.
Proof.
  intros H p.
  assert (Hfree : unsaved_name_free (start_GUI h u f selected evs).2).
  { apply free_loop, free_setup, H. }
  destruct Hfree as [Hp _]. fold p in Hp.
  destruct (names_listing _ Hp) as (l & Hl & Hnd & Hsort & Hmem).
  exists l. repeat split; try assumption; apply Hmem.
Qed.

(** A run from empty settings: the user adds the profile "A", opens the
    prompt manager and the edit window for "A", tries to rename it to the
    unsaved profile name, which is refused, and renames it to "B". *)
Lemma loop_keeps_unsaved_name_apart_witness :
  let A := of_string "A" in
  let B := of_string "B" in
  let q := of_string "q" in
  let env := mkEnv 0 false None (Some (0, 0)%Z) in
  let evs :=
    [ (OPEN_ADD_PROMPT_WINDOW, env);
      (ADD_PROMPT_PROFILE 2%positive A q, env);
      (START_PROMPT_MANAGER, env);
      (OPEN_EDIT_PROMPT_WINDOW [0%nat], env);
      (EDIT_PROMPT_PROFILE 4%positive unsaved_prompt_profile_name q, env);
      (EDIT_PROMPT_PROFILE 4%positive B q, env) ] in
  (prompt_profile_names (prompt_manager (start_GUI ∅ None [] None evs).2)).1
  = inr [unsaved_prompt_profile_name; B].
Proof.
  intros A B q env evs.
  destruct (loop_keeps_unsaved_name_apart ∅ None [] None evs)
    as (l & Hl & _).
  - vm_compute. reflexivity.
  - rewrite Hl. f_equal.
    assert (H : (prompt_profile_names
                   (prompt_manager (start_GUI ∅ None [] None evs).2)).1
                = inr [unsaved_prompt_profile_name; B]).
    { vm_compute. reflexivity. }
    rewrite Hl in H. congruence.
Defined.

End ReservedName.

(** ** The prompt profile store: how the calls compose *)

Module StoreLaws.

Import Py PyFacts PromptManager PromptManagerFacts PromptProfileStore.

(** The names of a mapping, ascending. *)
Lemma keys_Permutation (d1 d2 : dict) :
  (forall k, is_Some (d1 !! k) <-> is_Some (d2 !! k)) ->
  (map_to_list d1).*1 ≡ₚ (map_to_list d2).*1.
Proof.
  intros H. apply NoDup_Permutation; try apply NoDup_fst_map_to_list.
  intros k. rewrite !list_elem_of_fmap. split.
  - intros [[k' v] [-> Hk]]. apply elem_of_map_to_list in Hk.
    destruct (proj1 (H k')) as [v' Hv']; [eauto |].
    exists (k', v'). split; [reflexivity |]. apply elem_of_map_to_list, Hv'.
  - intros [[k' v] [-> Hk]]. apply elem_of_map_to_list in Hk.
    destruct (proj2 (H k')) as [v' Hv']; [eauto |].
    exists (k', v'). split; [reflexivity |]. apply elem_of_map_to_list, Hv'.
Qed.

Lemma sorted_keys_ext (d1 d2 : dict) :
  (forall k, is_Some (d1 !! k) <-> is_Some (d2 !! k)) ->
  sorted (map_to_list d1).*1 = sorted (map_to_list d2).*1.
Proof.
  intros H. apply sorted_unique; [apply sorted_StronglySorted |].
  rewrite sorted_Permutation. symmetry. apply keys_Permutation, H.
Qed.

#[local] Instance le_fst_trans : Transitive (fun x y : str * str => le x.1 y.1).
Proof. intros x y z. apply le_trans. Qed.

#[local] Instance le_fst_total : Total (fun x y : str * str => le x.1 y.1).
Proof. intros x y. apply le_total. Qed.

Lemma saved_prompt_profiles_list_names s rows :
  saved_prompt_profiles_list s = (inr rows, rebind s) ->
  rows.*1 = tail (names s).
Proof.
  intros [= <-]. unfold names. simpl. symmetry.
  apply sorted_unique.
  - eapply StronglySorted_fmap;
      [| apply StronglySorted_merge_sort; apply _].
    intros x y Hxy. exact Hxy.
  - unfold deref. rewrite merge_sort_Permutation. reflexivity.
Qed.


Lemma not_in_names_None name s : name ∉ names s -> profiles s !! name = None.
Proof.
  intros H. destruct (profiles s !! name) eqn:E; [| reflexivity].
  exfalso. apply H, elem_of_names. right. eauto.
Qed.

(** X4: the rows of the table of the prompt manager window are the saved
    profiles, one row each, in ascending order of their names; their names
    are the list the loop indexes to delete a profile, and the list of the
    dropdown after the unsaved profile name. *)
Theorem saved_prompt_profiles_list_rows (s : State) :
  exists rows,
    saved_prompt_profiles_list s = (inr rows, rebind s)
    /\ saved_prompt_profile_names s = (inr rows.*1, rebind s)
    /\ prompt_profile_names s
       = (inr (unsaved_prompt_profile_name :: rows.*1), rebind s)
    /\ (forall n p, (n, p) ∈ rows <-> profiles s !! n = Some p)
    /\ StronglySorted le rows.*1
    /\ NoDup rows.*1
    /\ length rows = base.size (profiles s).
Proof.
  eexists. split; [reflexivity |].
  pose proof (saved_prompt_profiles_list_names s _ eq_refl) as Hn.
  split; [rewrite saved_prompt_profile_names_run, Hn; reflexivity |].
  split; [rewrite prompt_profile_names_run, Hn; reflexivity |].
  split; [| split; [| split]].
  - intros n p. rewrite merge_sort_Permutation.
    apply elem_of_map_to_list.
  - rewrite Hn. apply sorted_StronglySorted.
  - rewrite Hn. apply NoDup_sorted, NoDup_fst_map_to_list.
  - rewrite merge_sort_Permutation. apply length_map_to_list.
Qed.

(** X5: adding a profile and deleting it again gives back the mapping and
    the list of names; each of the two calls has saved the settings file
    once. *)
Theorem add_then_delete_restores (s : State) (name prompt : str) :
  ~ blank name -> name ∉ names s ->
  exists s1 s2,
    add_prompt_profile name prompt s = (inr (true, []), s1)
    /\ delete_prompt_profile name s1 = (inr tt, s2)
    /\ profiles s2 = profiles s
    /\ names s2 = names s
    /\ settings_file s2
       = profiles s :: (<[name := prompt]> (profiles s)) :: settings_file s.
Proof.
  intros Hb Hin.
  pose proof (not_in_names_None _ _ Hin) as Hnone.
  set (s1 := followed (reselect_saved name None)
               (written (<[name := prompt]> (profiles s)) s)).
  exists s1. eexists.
  split; [apply add_prompt_profile_fresh; assumption |].
  assert (Hp1 : profiles s1 = <[name := prompt]> (profiles s)).
  { unfold s1. rewrite profiles_followed, profiles_written. reflexivity. }
  assert (Hs1 : is_Some (profiles s1 !! name)).
  { rewrite Hp1, lookup_insert_eq. eauto. }
  split; [apply delete_prompt_profile_present, Hs1 |].
  assert (Hp2 : delete name (profiles s1) = profiles s).
  { rewrite Hp1. apply delete_insert_id, Hnone. }
  split; [rewrite profiles_followed, profiles_written; exact Hp2 |].
  split.
  - rewrite names_followed, names_written, Hp2. reflexivity.
  - rewrite settings_file_followed, settings_file_written, Hp2.
    unfold s1. rewrite settings_file_followed, settings_file_written.
    reflexivity.
Qed.


(** X6: renaming a profile and renaming it back gives back the mapping and
    the list of names. *)
Theorem rename_and_back_restores (s : State) (a b p : str) :
  profiles s !! a = Some p -> a <> unsaved_prompt_profile_name ->
  ~ blank a -> ~ blank b -> b ∉ names s ->
  exists s1 s2,
    edit_prompt_profile b p a s = (inr (true, []), s1)
    /\ profiles s1 !! a = None /\ profiles s1 !! b = Some p
    /\ edit_prompt_profile a p b s1 = (inr (true, []), s2)
    /\ profiles s2 = profiles s
    /\ names s2 = names s.
Proof.
  intros Ha Hna Hba Hbb Hin.
  pose proof (not_in_names_None _ _ Hin) as Hb.
  assert (Hab : a <> b) by congruence.
  set (s1 := followed (reselect_saved b (Some a))
               (written (<[b := p]> (delete a (profiles s))) s)).
  exists s1. eexists.
  split; [apply edit_prompt_profile_ok; [exact Hbb | right; exact Hin] |].
  assert (Hp1 : profiles s1 = <[b := p]> (delete a (profiles s))).
  { unfold s1. rewrite profiles_followed, profiles_written. reflexivity. }
  split; [rewrite Hp1, lookup_insert_ne, lookup_delete_eq by congruence;
          reflexivity |].
  split; [rewrite Hp1; apply lookup_insert_eq |].
  assert (Hin1 : a ∉ names s1).
  { rewrite elem_of_names, Hp1. intros [H | [v H]]; [contradiction |].
    rewrite lookup_insert_ne, lookup_delete_eq in H by congruence.
    discriminate. }
  split; [apply edit_prompt_profile_ok; [exact Hba | right; exact Hin1] |].
  assert (Hp2 : <[a := p]> (delete b (profiles s1)) = profiles s).
  { rewrite Hp1, delete_insert_id
      by (rewrite lookup_delete_ne by congruence; exact Hb).
    rewrite insert_delete_eq. apply insert_id, Ha. }
  split; [rewrite profiles_followed, profiles_written; exact Hp2 |].
  rewrite names_followed, names_written, Hp2. reflexivity.
Qed.

(** X7: an edit whose original name is not the name of a saved profile
    removes nothing and raises nothing: it saves the new name as
    [add_prompt_profile] does. *)
Theorem edit_missing_original_adds (s : State) (name prompt original : str) :
  ~ blank name -> name ∉ names s -> profiles s !! original = None ->
  exists s',
    edit_prompt_profile name prompt original s = (inr (true, []), s')
    /\ profiles s' = (<[name := prompt]> (profiles s))
    /\ profiles s' = profiles (add_prompt_profile name prompt s).2
    /\ settings_file s' = settings_file (add_prompt_profile name prompt s).2.
Proof.
  intros Hb Hin Ho. eexists.
  split; [apply edit_prompt_profile_ok; [exact Hb | right; exact Hin] |].
  rewrite add_prompt_profile_fresh by assumption. simpl.
  rewrite !profiles_followed, !profiles_written,
    !settings_file_followed, !settings_file_written.
  rewrite (delete_id _ _ Ho). repeat split; reflexivity.
Qed.

(** X8: an edit that keeps the name of a saved profile replaces the prompt
    of that profile and nothing else: the other profiles and the list of
    names stay as they are. *)
Theorem edit_same_name_replaces_prompt (s : State) (name prompt : str) :
  is_Some (profiles s !! name) -> ~ blank name ->
  exists s',
    edit_prompt_profile name prompt name s = (inr (true, []), s')
    /\ profiles s' = (<[name := prompt]> (profiles s))
    /\ (forall other, other <> name ->
        profiles s' !! other = profiles s !! other)
    /\ names s' = names s.
Proof.
  intros Hs Hb. eexists.
  split; [apply edit_prompt_profile_ok; [exact Hb | left; reflexivity] |].
  rewrite profiles_followed, profiles_written, names_followed, names_written.
  rewrite insert_delete_eq.
  split; [reflexivity |]. split.
  - intros other Hne. apply lookup_insert_ne. congruence.
  - unfold names. f_equal. apply sorted_keys_ext. intros k.
    destruct (decide (k = name)) as [-> | Hne].
    + rewrite lookup_insert_eq. split; eauto.
    + rewrite lookup_insert_ne by congruence. reflexivity.
Qed.

(** X9: two profiles added in either order give the same mapping and the
    same list of names. *)
Theorem add_add_commute (s : State) (a pa b pb : str) :
  ~ blank a -> ~ blank b -> a <> b -> a ∉ names s -> b ∉ names s ->
  profiles (run [Add a pa; Add b pb] s)
  = (<[a := pa]> (<[b := pb]> (profiles s)))
  /\ profiles (run [Add b pb; Add a pa] s)
     = profiles (run [Add a pa; Add b pb] s)
  /\ names (run [Add b pb; Add a pa] s)
     = names (run [Add a pa; Add b pb] s).
Proof.
  intros Hba Hbb Hab Ha Hb.
  assert (H1 : forall x px y py,
             ~ blank x -> ~ blank y -> x <> y -> x ∉ names s -> y ∉ names s ->
             profiles (run [Add x px; Add y py] s)
             = <[y := py]> (<[x := px]> (profiles s))).
  { intros x px y py Hx Hy Hxy Hxs Hys. simpl.
    rewrite (add_prompt_profile_fresh x px s Hx Hxs). simpl.
    rewrite add_prompt_profile_fresh.
    - simpl. rewrite !profiles_followed, !profiles_written. reflexivity.
    - exact Hy.
    - rewrite elem_of_names, profiles_followed, profiles_written.
      rewrite elem_of_names in Hys.
      intros [H | [v H]]; [tauto |].
      rewrite lookup_insert_ne in H by congruence. eauto. }
  assert (E1 := H1 a pa b pb Hba Hbb Hab Ha Hb).
  assert (E2 := H1 b pb a pa Hbb Hba (not_eq_sym Hab) Hb Ha).
  assert (E : profiles (run [Add b pb; Add a pa] s)
              = profiles (run [Add a pa; Add b pb] s)).
  { rewrite E1, E2. apply insert_insert_ne. congruence. }
  split; [rewrite E1; apply insert_insert_ne; congruence |].
  split; [exact E |]. unfold names. rewrite E. reflexivity.
Qed.

(** What a call does to the settings file: nothing, the mapping staying
    as it is, or one save of the mapping as the call leaves it. *)
Lemma apply_writes o s :
  (profiles (apply s o) = profiles s
   /\ settings_file (apply s o) = settings_file s)
  \/ settings_file (apply s o) = profiles (apply s o) :: settings_file s.
Proof.
  destruct o as [n p | n p o | n]; simpl.
  - destruct (decide (blank n)) as [Hb | Hb].
    { rewrite add_prompt_profile_blank by exact Hb. left. split; reflexivity. }
    destruct (decide (n ∈ names s)) as [Hin | Hin].
    { rewrite add_prompt_profile_in_use by assumption. simpl.
      rewrite profiles_rebind. left. split; reflexivity. }
    rewrite add_prompt_profile_fresh by assumption. simpl. right.
    rewrite profiles_followed, profiles_written, settings_file_followed,
      settings_file_written. reflexivity.
  - destruct (decide (blank n)) as [Hb | Hb].
    { rewrite edit_prompt_profile_blank by exact Hb. left. split; reflexivity. }
    destruct (decide (n <> o /\ n ∈ names s)) as [[Hne Hin] | Hok].
    { rewrite edit_prompt_profile_in_use by assumption. simpl.
      rewrite profiles_rebind. left. split; reflexivity. }
    assert (Hok' : n = o \/ n ∉ names s).
    { destruct (decide (n = o)); [tauto |].
      destruct (decide (n ∈ names s)); tauto. }
    rewrite edit_prompt_profile_ok by assumption. simpl. right.
    rewrite profiles_followed, profiles_written, settings_file_followed,
      settings_file_written. reflexivity.
  - destruct (profiles s !! n) as [v|] eqn:Hp.
    + rewrite delete_prompt_profile_present by eauto. simpl. right.
      rewrite profiles_followed, profiles_written, settings_file_followed,
        settings_file_written. reflexivity.
    + rewrite delete_prompt_profile_absent by exact Hp. simpl.
      rewrite profiles_rebind. left. split; reflexivity.
Qed.

(** X10: over any sequence of adds, edits and deletes the settings file is
    saved at most once per call, and only grows; if it was saved at all, its
    newest content is the mapping as it now is, and if it was not, the
    mapping is as it was. *)
Theorem settings_file_follows_calls (ops : list Op) (s : State) :
  exists new,
    settings_file (run ops s) = new ++ settings_file s
    /\ (length new <= length ops)%nat
    /\ match new with
       | [] => profiles (run ops s) = profiles s
       | d :: _ => d = profiles (run ops s)
       end.
Proof.
  revert s. induction ops as [| o ops IH]; intros s.
  { exists []. repeat split; simpl; lia. }
  destruct (IH (apply s o)) as (new & Hf & Hl & Hh).
  change (run (o :: ops) s) with (run ops (apply s o)).
  destruct (apply_writes o s) as [[Hp Hs] | Hw].
  - exists new. rewrite Hf, Hs. split; [reflexivity |].
    split; [simpl; lia |]. destruct new; congruence.
  - exists (new ++ [profiles (apply s o)]).
    rewrite Hf, Hw, <- app_assoc. split; [reflexivity |].
    split; [rewrite length_app; simpl; lia |].
    destruct new; simpl; congruence.
Qed.


(** *** The dropdown *)

Lemma max_len_fold (xs : list str) (x : str) :
  let m := fold_left (fun best y =>
                        if (length best <? length y)%nat then y else best)
                     xs x in
  m ∈ x :: xs /\ forall y, y ∈ x :: xs -> (length y <= length m)%nat.
Proof.
  revert x. induction xs as [| z xs IH]; intros x; simpl.
  - split; [left |]. intros y Hy. apply list_elem_of_singleton in Hy.
    subst. lia.
  - destruct (Nat.ltb_spec (length x) (length z)) as [Hlt | Hge].
    + destruct (IH z) as [Hin Hmax]. split; [right; exact Hin |].
      intros y Hy. apply elem_of_cons in Hy as [-> | Hy].
      * specialize (Hmax z ltac:(left)). lia.
      * apply Hmax, Hy.
    + destruct (IH x) as [Hin Hmax]. split.
      * apply elem_of_cons in Hin as [-> | Hin]; [left | right; right; exact Hin].
      * intros y Hy. apply elem_of_cons in Hy as [-> | Hy]; [apply Hmax; left |].
        apply elem_of_cons in Hy as [-> | Hy].
        -- specialize (Hmax x ltac:(left)). lia.
        -- apply Hmax. right. exact Hy.
Qed.

Lemma width_fits (ns : list str) :
  (forall y, y ∈ ns -> (length y <= width ns)%nat)
  /\ (ns <> [] -> exists m, m ∈ ns /\ length m = width ns).
Proof.
  unfold width. destruct ns as [| x xs]; simpl.
  - split; [intros y Hy; inversion Hy | congruence].
  - destruct (max_len_fold xs x) as [Hin Hmax]. split; [exact Hmax |].
    intros _. eexists. split; [exact Hin | reflexivity].
Qed.

(** X11: [_update_prompt_profile_dropdown] never raises: without a bound
    dropdown it does nothing; with one, the dropdown gets the list of
    profile names and a width that is the length of a longest name, so that
    every option fits, the unsaved profile name among them. *)
Theorem dropdown_fits_all_options (new_selected_profile : option str)
    (s : State) :
  exists s',
    _update_prompt_profile_dropdown new_selected_profile s = (inr tt, s')
    /\ match dropdown s with
       | None => s' = s
       | Some c =>
           exists c',
             dropdown s' = Some c'
             /\ value c' = default (value c) new_selected_profile
             /\ values c' = names s
             /\ (forall option, option ∈ values c' ->
                 (length option <= size c')%nat)
             /\ (exists option, option ∈ values c'
                                /\ length option = size c')
             /\ (length unsaved_prompt_profile_name <= size c')%nat
       end.
Proof.
  destruct (dropdown s) as [c |] eqn:Hd.
  - unfold dropdown in Hd.
    destruct (_dropdown_window s) as [w |] eqn:Hw; [| discriminate].
    destruct (_dropdown_key s) as [k |] eqn:Hk; [| discriminate].
    eexists. split;
      [apply (_update_prompt_profile_dropdown_bound _ w k c); assumption |].
    exists (mkCombo (default (value c) new_selected_profile) (names s)
              (width (names s))).
    destruct (width_fits (names s)) as [Hfit Hmax].
    split.
    { unfold dropdown, synced.
      destruct new_selected_profile; simpl; rewrite Hw, Hk;
        apply lookup_insert_eq. }
    simpl. split; [reflexivity |]. split; [reflexivity |].
    split; [exact Hfit |]. split; [apply Hmax; discriminate |].
    apply (Hfit unsaved_prompt_profile_name). left.
  - exists s. split; [| reflexivity].
    apply _update_prompt_profile_dropdown_unbound, Hd.
Qed.

(** How a call leaves the state: as it was, but for the dict the manager
    holds, or with a new mapping written and the dropdown following. The
    name the dropdown then shows is a name of the new mapping. *)
Lemma apply_cases o s :
  (names (apply s o) = names s
   /\ _dropdown_window (apply s o) = _dropdown_window s
   /\ _dropdown_key (apply s o) = _dropdown_key s
   /\ elements (apply s o) = elements s
   /\ event_queue (apply s o) = event_queue s)
  \/ exists r d,
       apply s o = followed r (written d s)
       /\ forall sel,
           match r sel with
           | Some n => n ∈ names (written d s)
           | None => sel ∈ names s -> sel ∈ names (written d s)
           end.
Proof.
  assert (Hsame : forall s', (s' = s \/ s' = rebind s) ->
            names s' = names s
            /\ _dropdown_window s' = _dropdown_window s
            /\ _dropdown_key s' = _dropdown_key s
            /\ elements s' = elements s
            /\ event_queue s' = event_queue s).
  { intros s' [-> | ->]; [tauto |]. rewrite names_rebind. tauto. }
  assert (Hkeep : forall (d : dict) sel,
            sel ∈ names s ->
            (sel <> unsaved_prompt_profile_name ->
             is_Some (profiles s !! sel) -> is_Some (d !! sel)) ->
            sel ∈ names (written d s)).
  { intros d sel Hsel Hd. rewrite elem_of_names, profiles_written.
    apply elem_of_names in Hsel as [-> | Hsel]; [left; reflexivity |].
    destruct (decide (sel = unsaved_prompt_profile_name));
      [left; assumption | right; auto]. }
  destruct o as [n p | n p o | n]; simpl.
  - destruct (decide (blank n)) as [Hb | Hb].
    { rewrite add_prompt_profile_blank by exact Hb. left. apply Hsame. auto. }
    destruct (decide (n ∈ names s)) as [Hin | Hin].
    { rewrite add_prompt_profile_in_use by assumption. left.
      apply Hsame. auto. }
    rewrite add_prompt_profile_fresh by assumption. right.
    eexists. eexists. split; [reflexivity |].
    intros sel. unfold reselect_saved.
    rewrite bool_decide_eq_false_2 by discriminate. intros Hsel.
    apply Hkeep; [exact Hsel |]. intros _ [v Hv].
    destruct (decide (n = sel)) as [-> | Hne];
      [rewrite lookup_insert_eq | rewrite lookup_insert_ne by exact Hne]; eauto.
  - destruct (decide (blank n)) as [Hb | Hb].
    { rewrite edit_prompt_profile_blank by exact Hb. left. apply Hsame. auto. }
    destruct (decide (n <> o /\ n ∈ names s)) as [[Hne Hin] | Hok].
    { rewrite edit_prompt_profile_in_use by assumption. left.
      apply Hsame. auto. }
    assert (Hok' : n = o \/ n ∉ names s).
    { destruct (decide (n = o)); [tauto |].
      destruct (decide (n ∈ names s)); tauto. }
    rewrite edit_prompt_profile_ok by assumption. right.
    eexists. eexists. split; [reflexivity |].
    intros sel. unfold reselect_saved. case_bool_decide as Hsel'.
    + rewrite elem_of_names, profiles_written. right.
      rewrite lookup_insert_eq. eauto.
    + intros Hsel. apply Hkeep; [exact Hsel |]. intros _ [v Hv].
      destruct (decide (n = sel)) as [-> | Hne];
        [rewrite lookup_insert_eq; eauto |].
      rewrite lookup_insert_ne by exact Hne.
      rewrite lookup_delete_ne by congruence. eauto.
  - destruct (profiles s !! n) as [v|] eqn:Hp.
    + rewrite delete_prompt_profile_present by eauto. right.
      eexists. eexists. split; [reflexivity |].
      intros sel. unfold reselect_deleted.
      case_bool_decide as Hsel'.
      * rewrite elem_of_names. left. reflexivity.
      * intros Hsel. apply Hkeep; [exact Hsel |]. intros _ Hv.
        rewrite lookup_delete_ne by exact Hsel'. exact Hv.
    + rewrite delete_prompt_profile_absent by exact Hp. left.
      apply Hsame. auto.
Qed.

(** X12: a dropdown bound to the store that lists the profile names and
    shows one of them does so after any sequence of adds, edits and deletes:
    it never shows a profile that is gone, nor lists one. *)
Theorem dropdown_shows_a_listed_name (ops : list Op) (s : State)
    (w : window) (k : str) (c : Combo) :
  _dropdown_window s = Some w -> _dropdown_key s = Some k ->
  elements s !! (w, k) = Some c ->
  values c = names s -> value c ∈ values c ->
  exists c',
    _dropdown_window (run ops s) = Some w
    /\ _dropdown_key (run ops s) = Some k
    /\ elements (run ops s) !! (w, k) = Some c'
    /\ values c' = names (run ops s)
    /\ value c' ∈ values c'.
Proof.
  revert s c. induction ops as [| o ops IH]; intros s c Hw Hk He Hv Hsel.
  { exists c. auto. }
  change (run (o :: ops) s) with (run ops (apply s o)).
  destruct (apply_cases o s) as [(Hn & Hw' & Hk' & He' & _) | (r & d & -> & Hr)].
  - apply (IH _ c); congruence.
  - destruct (followed_bound r w k c (written d s) Hw Hk He)
      as (Hw' & Hk' & Hel & _).
    eapply IH; [exact Hw' | exact Hk' | | |].
    + rewrite Hel. apply lookup_insert_eq.
    + simpl. rewrite names_followed. reflexivity.
    + simpl. specialize (Hr (value c)).
      destruct (r (value c)); simpl; [exact Hr |].
      apply Hr. rewrite <- Hv. exact Hsel.
Qed.


(** *** The theorems above at concrete stores *)

#[local] Existing Instance blank_dec'.

Ltac not_blank x :=
  apply (bool_decide_eq_false_1 (blank x)); vm_compute; reflexivity.

Ltac not_listed x s :=
  apply (bool_decide_eq_false_1 (x ∈ names s)); vm_compute; reflexivity.

(** "A" is added to a store without profiles and deleted again. *)
Lemma add_then_delete_restores_witness :
  let A := of_string "A" in
  let p := of_string "p" in
  exists s1 s2,
    add_prompt_profile A p empty_store = (inr (true, []), s1)
    /\ delete_prompt_profile A s1 = (inr tt, s2)
    /\ profiles s2 = ∅
    /\ settings_file s2 = [∅; {[A := p]}].
Proof.
  intros A p.
  destruct (add_then_delete_restores empty_store A p)
    as (s1 & s2 & H1 & H2 & H3 & _ & H5).
  - not_blank A.
  - not_listed A empty_store.
  - exists s1, s2. split; [exact H1 |]. split; [exact H2 |].
    split; [rewrite H3; vm_compute; reflexivity |].
    rewrite H5. vm_compute. reflexivity.
Defined.

(** "A" of the store [bound_store] is renamed to "B" and back. *)
Lemma rename_and_back_restores_witness :
  let A := of_string "A" in
  let B := of_string "B" in
  let p := of_string "p1" in
  exists s1 s2,
    edit_prompt_profile B p A bound_store = (inr (true, []), s1)
    /\ profiles s1 !! A = None /\ profiles s1 !! B = Some p
    /\ edit_prompt_profile A p B s1 = (inr (true, []), s2)
    /\ profiles s2 = profiles bound_store.
Proof.
  intros A B p.
  destruct (rename_and_back_restores bound_store A B p)
    as (s1 & s2 & H1 & H2 & H3 & H4 & H5 & _).
  - vm_compute. reflexivity.
  - vm_compute. discriminate.
  - not_blank A.
  - not_blank B.
  - not_listed B bound_store.
  - exists s1, s2. auto.
Defined.

(** An edit of "B", which is not saved, into "A", on a store without
    profiles. *)
Lemma edit_missing_original_adds_witness :
  let A := of_string "A" in
  let B := of_string "B" in
  let p := of_string "p" in
  exists s',
    edit_prompt_profile A p B empty_store = (inr (true, []), s')
    /\ profiles s' = {[A := p]}.
Proof.
  intros A B p.
  destruct (edit_missing_original_adds empty_store A p B)
    as (s' & H1 & H2 & _).
  - not_blank A.
  - not_listed A empty_store.
  - vm_compute. reflexivity.
  - exists s'. split; [exact H1 |]. rewrite H2. vm_compute. reflexivity.
Defined.

(** The prompt of "A" of the store [bound_store] is replaced. *)
Lemma edit_same_name_replaces_prompt_witness :
  let A := of_string "A" in
  let p := of_string "p2" in
  exists s',
    edit_prompt_profile A p A bound_store = (inr (true, []), s')
    /\ profiles s' !! A = Some p
    /\ names s' = [unsaved_prompt_profile_name; A].
Proof.
  intros A p.
  destruct (edit_same_name_replaces_prompt bound_store A p)
    as (s' & H1 & H2 & _ & H4).
  - exists (of_string "p1"). vm_compute. reflexivity.
  - not_blank A.
  - exists s'. split; [exact H1 |].
    split; [rewrite H2; apply lookup_insert_eq |].
    rewrite H4. vm_compute. reflexivity.
Defined.

(** "A" and "B" added to a store without profiles, in the two orders. *)
Lemma add_add_commute_witness :
  let A := of_string "A" in
  let B := of_string "B" in
  let p := of_string "p" in
  names (run [Add B p; Add A p] empty_store)
  = names (run [Add A p; Add B p] empty_store).
Proof.
  intros A B p.
  destruct (add_add_commute empty_store A p B p) as (_ & _ & H).
  - not_blank A.
  - not_blank B.
  - vm_compute. discriminate.
  - not_listed A empty_store.
  - not_listed B empty_store.
  - exact H.
Defined.

(** The dropdown of [bound_store] shows "A"; after "A" is deleted and "B"
    added it shows the unsaved profile name among the names there are. *)
Lemma dropdown_shows_a_listed_name_witness :
  let A := of_string "A" in
  let B := of_string "B" in
  let key := of_string "-PROMPT-PROFILE-" in
  let s := run [Delete A; Add B A] bound_store in
  exists c,
    elements s !! (1%positive, key) = Some c
    /\ values c = names s
    /\ value c ∈ values c.
Proof.
  intros A B key s.
  destruct (dropdown_shows_a_listed_name [Delete A; Add B A] bound_store
              1%positive key
              (mkCombo A [unsaved_prompt_profile_name; A] 6))
    as (c & _ & _ & H3 & H4 & H5).
  - reflexivity.
  - reflexivity.
  - vm_compute. reflexivity.
  - vm_compute. reflexivity.
  - right. left.
  - exists c. auto.
Defined.

End StoreLaws.

(** ** The loop and the windows of the prompt profiles *)

Module LoopHandlers.

Import Py PyFacts PromptManager PromptManagerFacts PromptProfileStore App.
Import DeleteEvent ReservedName StoreLaws MainWindow.

(** What the end of an iteration leaves alone. *)
Lemma housekeeping_keeps ev env a :
  let a' := housekeeping ev env a in
  prompt_manager a' = prompt_manager a
  /\ Gui.open_windows (gui a') = Gui.open_windows (gui a)
  /\ Gui.next_window (gui a') = Gui.next_window (gui a)
  /\ window_tracker a' = window_tracker a
  /\ main_window a' = main_window a
  /\ prompt_manager_window a' = prompt_manager_window a
  /\ add_new_prompt_window a' = add_new_prompt_window a
  /\ selected_profile_setting a' = selected_profile_setting a
  /\ metadata a' = metadata a.
Proof.
  unfold housekeeping, App.update, ModalWindowManager.update, stop,
    App.track_modal_window.
  repeat case_match; simpl; repeat split; reflexivity.
Qed.

Lemma tail_names_saved chosen s :
  chosen ∈ tail (names s) <-> is_Some (profiles s !! chosen).
Proof.
  unfold names. simpl. rewrite elem_of_sorted, list_elem_of_fmap. split.
  - intros [[k v] [-> H]]. apply elem_of_map_to_list in H. eauto.
  - intros [v H]. exists (chosen, v). split; [reflexivity |].
    apply elem_of_map_to_list. exact H.
Qed.

(** The branch for [Keys.PROMPT_PROFILE_DROPDOWN], case by case. *)
Lemma dropdown_event_cases (chosen : str) (env : Env) (a : t) :
  let s := prompt_manager a in
  match profiles s !! chosen with
  | Some prompt =>
      new_initial_prompt_input chosen s = (inr prompt, rebind s)
      /\ exists a',
          loop_body (PROMPT_PROFILE_DROPDOWN chosen) env a = (Next, a')
          /\ selected_profile_setting a' = Some chosen
  | None =>
      if decide (chosen = unsaved_prompt_profile_name) then
        new_initial_prompt_input chosen s = (inr [], rebind s)
        /\ exists a',
            loop_body (PROMPT_PROFILE_DROPDOWN chosen) env a = (Next, a')
            /\ selected_profile_setting a' = Some chosen
      else
        new_initial_prompt_input chosen s
        = (inl (NonExistentPromptProfileName chosen), rebind s)
        /\ exists a',
            loop_body (PROMPT_PROFILE_DROPDOWN chosen) env a
            = (Raise (NonExistentPromptProfileName chosen), a')
            /\ selected_profile_setting a' = selected_profile_setting a
  end.
Proof.
  intros s. unfold loop_body, dispatch, new_initial_prompt_input.
  rewrite bind_run, saved_prompt_profile_names_run.
  rewrite (call_run _ _ _ _ (saved_prompt_profile_names_run _)).
  fold s.
  destruct (profiles s !! chosen) as [prompt |] eqn:Hp.
  - assert (Hin : chosen ∈ tail (names s)) by (apply tail_names_saved; eauto).
    rewrite !(bool_decide_eq_true_2 _ Hin).
    split.
    + rewrite bind_run, saved_prompt_profiles_run, bind_run.
      unfold gets. rewrite current_rebind.
      change (deref (current s) (rebind (rebind s))) with (profiles s).
      rewrite Hp, rebind_rebind. reflexivity.
    + rewrite (call_run saved_prompt_profiles _ _ _
                 (saved_prompt_profiles_run _)).
      eexists. split; [reflexivity |].
      destruct (housekeeping_keeps (PROMPT_PROFILE_DROPDOWN chosen) env
                  (set_selected_profile_setting (Some chosen)
                     (set_prompt_manager
                        (rebind (prompt_manager
                                   (set_prompt_manager (rebind s) a)))
                        (set_prompt_manager (rebind s) a))))
        as (_ & _ & _ & _ & _ & _ & _ & H & _).
      rewrite H. reflexivity.
  - assert (Hin : chosen ∉ tail (names s)).
    { rewrite tail_names_saved, Hp. intros [v Hv]. discriminate. }
    rewrite !(bool_decide_eq_false_2 _ Hin).
    destruct (decide (chosen = unsaved_prompt_profile_name)) as [He | He].
    + rewrite !(bool_decide_eq_true_2 _ He). split; [reflexivity |].
      eexists. split; [reflexivity |].
      destruct (housekeeping_keeps (PROMPT_PROFILE_DROPDOWN chosen) env
                  (set_selected_profile_setting (Some chosen)
                     (set_prompt_manager (rebind s) a)))
        as (_ & _ & _ & _ & _ & _ & _ & H & _).
      rewrite H. reflexivity.
    + rewrite !(bool_decide_eq_false_2 _ He). split; [reflexivity |].
      eexists. split; reflexivity.
Qed.


(** X13: choosing a profile in the dropdown of the main window: the initial
    prompt input gets the prompt of the chosen profile when it is a saved
    one, and the empty text when it is the unsaved profile name, and the
    choice is saved in the settings; for any other name the loop raises
    [NonExistentPromptProfileName] and the selection saved in the settings
    stays as it was. The look-up of the prompt raises no [KeyError]. *)
Theorem chosen_profile_fills_prompt (chosen : str) (env : Env) (a : t) :
  let s := prompt_manager a in
  let r := loop_body (PROMPT_PROFILE_DROPDOWN chosen) env a in
  (forall prompt,
      profiles s !! chosen = Some prompt ->
      (new_initial_prompt_input chosen s).1 = inr prompt)
  /\ (profiles s !! chosen = None ->
      chosen = unsaved_prompt_profile_name ->
      (new_initial_prompt_input chosen s).1 = inr [])
  /\ (chosen ∈ names s ->
      r.1 = Next /\ selected_profile_setting r.2 = Some chosen)
  /\ (chosen ∉ names s ->
      (new_initial_prompt_input chosen s).1
      = inl (NonExistentPromptProfileName chosen)
      /\ r.1 = Raise (NonExistentPromptProfileName chosen)
      /\ selected_profile_setting r.2 = selected_profile_setting a).
Proof.
  intros s r. subst r.
  pose proof (dropdown_event_cases chosen env a) as H. fold s in H.
  simpl in H. rewrite (elem_of_names chosen s).
  destruct (profiles s !! chosen) as [prompt |] eqn:Hp.
  - destruct H as (Hi & a' & -> & Hs).
    split; [intros p [= <-]; rewrite Hi; reflexivity |].
    split; [discriminate |].
    split; [auto |]. intros Hn. exfalso. apply Hn. right. eauto.
  - split; [discriminate |].
    destruct (decide (chosen = unsaved_prompt_profile_name)) as [He | He].
    + destruct H as (Hi & a' & -> & Hs).
      split; [intros _ _; rewrite Hi; reflexivity |].
      split; [auto |]. intros Hn. exfalso. apply Hn. left. exact He.
    + destruct H as (Hi & a' & -> & Hs).
      split; [contradiction |].
      split; [intros [? | [v Hv]]; [contradiction | discriminate] |].
      intros _. rewrite Hi. auto.
Qed.

(** X14: a call of the store writes at most one event, to the window of the
    bound dropdown; the event carries the name the dropdown now shows, which
    is in the list of profile names as the call leaves it. So the loop's
    branch for the event, run on that state, ends normally and gives the
    initial prompt input the prompt saved under that name, or the empty
    text. *)
Theorem written_event_names_a_listed_profile (o : Op) (env : Env) (a : t)
    (w : window) (k : str) (c : Combo) :
  let s := prompt_manager a in
  _dropdown_window s = Some w -> _dropdown_key s = Some k ->
  elements s !! (w, k) = Some c ->
  event_queue (apply s o) = event_queue s
  \/ exists v c',
       event_queue (apply s o) = (w, k, v) :: event_queue s
       /\ elements (apply s o) !! (w, k) = Some c' /\ value c' = v
       /\ v ∈ names (apply s o)
       /\ (new_initial_prompt_input v (apply s o)).1
          = inr (default [] (profiles (apply s o) !! v))
       /\ (loop_body (PROMPT_PROFILE_DROPDOWN v) env
             (set_prompt_manager (apply s o) a)).1 = Next.
Proof.
  intros s Hw Hk He.
  destruct (apply_cases o s) as [(_ & _ & _ & _ & Hq) | (r & d & Ha & Hr)];
    [left; exact Hq |].
  destruct (followed_bound r w k c (written d s) Hw Hk He)
    as (_ & _ & Hel & Hq).
  specialize (Hr (value c)). rewrite Ha.
  destruct (r (value c)) as [v |] eqn:Hrv; [right | left; exact Hq].
  exists v. eexists. split; [exact Hq |].
  split; [rewrite Hel; apply lookup_insert_eq |].
  simpl. split; [reflexivity |].
  assert (Hv : v ∈ names (followed r (written d s)))
    by (rewrite names_followed; exact Hr).
  split; [exact Hv |].
  pose proof (dropdown_event_cases v env
                (set_prompt_manager (followed r (written d s)) a)) as H.
  simpl in H.
  apply elem_of_names in Hv.
  destruct (profiles (followed r (written d s)) !! v) as [p |] eqn:Hp.
  - destruct H as (-> & a' & -> & _). split; reflexivity.
  - destruct (decide (v = unsaved_prompt_profile_name)) as [Hu | Hu].
    + destruct H as (-> & a' & -> & _). split; reflexivity.
    + exfalso. destruct Hv as [? | [? ?]]; [contradiction | discriminate].
Qed.


(** *** The prompt manager window *)

Lemma table_row_name (table : list (str * str)) (i : nat) s :
  saved_prompt_profiles_list s = (inr table, rebind s) ->
  tail (names s) !! i = fst <$> table !! i.
Proof.
  intros H. rewrite <- (saved_prompt_profiles_list_names s table H).
  apply list_lookup_fmap.
Qed.

Lemma table_row_saved (table : list (str * str)) (i : nat) n p s :
  saved_prompt_profiles_list s = (inr table, rebind s) ->
  table !! i = Some (n, p) -> profiles s !! n = Some p.
Proof.
  intros [= <-] Hi. apply list_elem_of_lookup_2 in Hi.
  rewrite merge_sort_Permutation in Hi.
  apply elem_of_map_to_list in Hi. exact Hi.
Qed.

(** What reloading the prompt manager window leaves alone. *)
Lemma reload_keeps loc a r a' :
  reload_prompt_manager_window loc a = (r, a') ->
  profiles (prompt_manager a') = profiles (prompt_manager a)
  /\ names (prompt_manager a') = names (prompt_manager a)
  /\ metadata a' = metadata a
  /\ main_window a' = main_window a
  /\ _dropdown_window (prompt_manager a') = _dropdown_window (prompt_manager a)
  /\ _dropdown_key (prompt_manager a') = _dropdown_key (prompt_manager a)
  /\ elements (prompt_manager a') = elements (prompt_manager a).
Proof.
  unfold reload_prompt_manager_window, popup_prompt_manager.
  destruct (prompt_manager_window a) as [old |];
    [| intros [= <- <-]; repeat split].
  destruct loc; [| intros [= <- <-]; repeat split].
  destruct (saved_prompt_profiles_list_run (prompt_manager a))
    as (l & Hl & _).
  rewrite (call_run _ _ _ _ Hl).
  unfold App.update, ModalWindowManager.update. simpl.
  intros [= <- <-]. simpl.
  rewrite profiles_rebind, names_rebind. repeat split.
Qed.

(** X15: the row selected in the table of the prompt manager window is the
    profile the delete button deletes: the iteration ends normally with that
    profile, and no other, removed from the mapping. With a row beyond the
    table it raises [IndexError] and the mapping stays. *)
Theorem delete_event_deletes_selected_row (i : nat) (rows : list nat)
    (env : Env) (a : t) :
  let s := prompt_manager a in
  exists table,
    saved_prompt_profiles_list s = (inr table, rebind s)
    /\ match table !! i with
       | Some (n, p) =>
           profiles s !! n = Some p
           /\ exists a',
               loop_body (DELETE_PROMPT (i :: rows)) env a = (Next, a')
               /\ profiles (prompt_manager a') = delete n (profiles s)
       | None =>
           exists a',
             loop_body (DELETE_PROMPT (i :: rows)) env a
             = (Raise IndexError, a')
             /\ profiles (prompt_manager a') = profiles s
       end.
Proof.
  intros s. eexists. split; [reflexivity |].
  set (table := merge_sort _ _).
  assert (Ht : saved_prompt_profiles_list s = (inr table, rebind s))
    by reflexivity.
  pose proof (table_row_name table i s Ht) as Hrow.
  unfold loop_body, dispatch.
  rewrite (call_run _ _ _ _ (saved_prompt_profile_names_run _)).
  fold s. rewrite Hrow.
  destruct (table !! i) as [[n p] |] eqn:Hi; simpl.
  - pose proof (table_row_saved table i n p s Ht Hi) as Hp.
    split; [exact Hp |].
    assert (Hn : is_Some (profiles (rebind s) !! n))
      by (rewrite profiles_rebind; eauto).
    rewrite (call_run (delete_prompt_profile n)
               (set_prompt_manager (rebind s) a) _ _
               (delete_prompt_profile_present n _ Hn)).
    destruct (reload_prompt_manager_window _ _) as [pmw a1] eqn:E.
    eexists. split; [reflexivity |].
    destruct (housekeeping_keeps (DELETE_PROMPT (i :: rows)) env
                (set_prompt_manager_window pmw a1)) as (-> & _).
    change (prompt_manager (set_prompt_manager_window pmw a1))
      with (prompt_manager a1).
    destruct (reload_keeps _ _ _ _ E) as (-> & _). simpl.
    rewrite profiles_followed, profiles_written, profiles_rebind.
    reflexivity.
  - eexists. split; [reflexivity |]. simpl. apply profiles_rebind.
Qed.

(** Reloading the prompt manager window opens no window but a new one. *)
Lemma reload_opens loc a r a' :
  reload_prompt_manager_window loc a = (r, a') ->
  Gui.open_windows (gui a')
  ⊆ {[Gui.next_window (gui a)]} ∪ Gui.open_windows (gui a).
Proof.
  unfold reload_prompt_manager_window, popup_prompt_manager.
  destruct (prompt_manager_window a) as [old |];
    [| intros [= <- <-]; set_solver].
  destruct loc; [| intros [= <- <-]; set_solver].
  destruct (saved_prompt_profiles_list_run (prompt_manager a))
    as (l & Hl & _).
  rewrite (call_run _ _ _ _ Hl).
  unfold App.update, ModalWindowManager.update. simpl.
  intros [= <- <-]. simpl. set_solver.
Qed.

Lemma edit_never_raises name prompt original s :
  exists ok msg s',
    edit_prompt_profile name prompt original s = (inr (ok, msg), s')
    /\ (ok = true <-> ~ blank name /\ (name = original \/ name ∉ names s))
    /\ profiles s'
       = if ok then <[name := prompt]> (delete original (profiles s))
         else profiles s.
Proof.
  destruct (decide (blank name)) as [Hb | Hb].
  { rewrite edit_prompt_profile_blank by exact Hb.
    eexists false, _, _. split; [reflexivity |].
    split; [| reflexivity]. split; [discriminate | tauto]. }
  destruct (decide (name <> original /\ name ∈ names s)) as [[Hne Hin] | Hok].
  { rewrite edit_prompt_profile_in_use by assumption.
    eexists false, _, _. split; [reflexivity |].
    split; [| apply profiles_rebind]. split; [discriminate | tauto]. }
  assert (Hok' : name = original \/ name ∉ names s).
  { destruct (decide (name = original)); [tauto |].
    destruct (decide (name ∈ names s)); tauto. }
  rewrite edit_prompt_profile_ok by assumption.
  eexists true, _, _. split; [reflexivity |].
  split; [tauto |]. rewrite profiles_followed, profiles_written. reflexivity.
Qed.

(** A save from an edit window made for the profile [n]. *)
Lemma edit_event_run w name prompt n env a :
  metadata a !! w = Some n ->
  exists ok msg s' a',
    edit_prompt_profile name prompt n (prompt_manager a)
    = (inr (ok, msg), s')
    /\ loop_body (EDIT_PROMPT_PROFILE w name prompt) env a = (Next, a')
    /\ profiles (prompt_manager a') = profiles s'
    /\ if ok
       then Gui.open_windows (gui a')
            ⊆ {[Gui.next_window (gui a)]} ∪ (Gui.open_windows (gui a) ∖ {[w]})
       else Gui.open_windows (gui a) ⊆ Gui.open_windows (gui a').
Proof.
  intros Hm.
  destruct (edit_never_raises name prompt n (prompt_manager a))
    as (ok & msg & s' & Hrun & _).
  exists ok, msg, s'.
  unfold loop_body, dispatch. rewrite Hm, (call_run _ _ _ _ Hrun).
  unfold after_add_edit. destruct ok.
  - destruct (reload_prompt_manager_window _ _) as [pmw a1] eqn:E.
    eexists. split; [exact Hrun |]. split; [reflexivity |].
    destruct (housekeeping_keeps (EDIT_PROMPT_PROFILE w name prompt) env
                (set_prompt_manager_window pmw a1)) as (-> & -> & _).
    change (prompt_manager (set_prompt_manager_window pmw a1))
      with (prompt_manager a1).
    destruct (reload_keeps _ _ _ _ E) as (-> & _).
    split; [reflexivity |].
    apply reload_opens in E. simpl in E. exact E.
  - eexists. split; [exact Hrun |]. split; [reflexivity |].
    destruct (housekeeping_keeps (EDIT_PROMPT_PROFILE w name prompt) env
                (popup_tracked_modal (set_prompt_manager s' a)))
      as (-> & -> & _).
    split; [reflexivity |]. simpl. set_solver.
Qed.

(** X16: the row selected in the table is the profile the edit window edits:
    the window opened for row [i] keeps the name of that row, and a save
    from it is an edit of that profile. With a name that is not blank and is
    the old one or a new one, the profile is replaced under the name given
    and the window is closed; otherwise the mapping stays and the window
    stays open. *)
Theorem edit_window_edits_selected_row (i : nat) (rows : list nat)
    (env env' : Env) (a : t) (name prompt : str) :
  let s := prompt_manager a in
  let w := Gui.next_window (gui a) in
  exists table,
    saved_prompt_profiles_list s = (inr table, rebind s)
    /\ match table !! i with
       | Some (n, p) =>
           exists a1,
             loop_body (OPEN_EDIT_PROMPT_WINDOW (i :: rows)) env a
             = (Next, a1)
             /\ w ∈ Gui.open_windows (gui a1)
             /\ metadata a1 !! w = Some n
             /\ profiles (prompt_manager a1) = profiles s
             /\ exists a2,
                 loop_body (EDIT_PROMPT_PROFILE w name prompt) env' a1
                 = (Next, a2)
                 /\ (~ blank name -> name = n \/ name ∉ names s ->
                     profiles (prompt_manager a2)
                     = (<[name := prompt]> (delete n (profiles s)))
                     /\ w ∉ Gui.open_windows (gui a2))
                 /\ (blank name \/ (name <> n /\ name ∈ names s) ->
                     profiles (prompt_manager a2) = profiles s
                     /\ w ∈ Gui.open_windows (gui a2))
       | None =>
           exists a1,
             loop_body (OPEN_EDIT_PROMPT_WINDOW (i :: rows)) env a
             = (Raise IndexError, a1)
       end.
Proof.
  intros s w. eexists. split; [reflexivity |].
  set (table := merge_sort _ _).
  assert (Ht : saved_prompt_profiles_list s = (inr table, rebind s))
    by reflexivity.
  destruct (table !! i) as [[n p] |] eqn:Hi.
  2:{ unfold loop_body, dispatch. rewrite (call_run _ _ _ _ Ht), Hi.
      eexists. reflexivity. }
  assert (Hopen : exists a1,
             loop_body (OPEN_EDIT_PROMPT_WINDOW (i :: rows)) env a = (Next, a1)
             /\ w ∈ Gui.open_windows (gui a1)
             /\ metadata a1 !! w = Some n
             /\ prompt_manager a1 = rebind s
             /\ Gui.next_window (gui a1) = Pos.succ w).
  { unfold loop_body, dispatch. rewrite (call_run _ _ _ _ Ht), Hi.
    unfold popup_edit_prompt_profile, popup_add_edit_prompt_profile,
      new_window.
    simpl Gui.new_window. cbn beta iota.
    eexists. split; [reflexivity |].
    match goal with
    | |- context [housekeeping ?ev ?env ?a0] =>
        destruct (housekeeping_keeps ev env a0)
          as (-> & -> & -> & _ & _ & _ & _ & _ & ->)
    end.
    simpl. split; [set_solver |]. split; [apply lookup_insert_eq |].
    split; reflexivity. }
  destruct Hopen as (a1 & Hrun1 & Hw1 & Hm1 & Hs1 & Hn1).
  exists a1. split; [exact Hrun1 |]. split; [exact Hw1 |].
  split; [exact Hm1 |].
  split; [rewrite Hs1; apply profiles_rebind |].
  destruct (edit_event_run w name prompt n env' a1 Hm1)
    as (ok & msg & s' & a2 & Hedit & Hrun2 & Hp2 & Hopen2).
  destruct (edit_never_raises name prompt n (prompt_manager a1))
    as (ok' & msg' & s'' & Hedit' & Hok & Hp').
  rewrite Hedit in Hedit'. injection Hedit' as <- <- <-.
  rewrite Hs1, names_rebind, profiles_rebind in *.
  exists a2. split; [exact Hrun2 |]. rewrite Hp2, Hp'.
  destruct ok.
  - split.
    + intros _ _. split; [reflexivity |].
      intros Hin. apply Hopen2 in Hin. rewrite Hn1 in Hin.
      apply elem_of_union in Hin as [Hin | Hin].
      * apply elem_of_singleton in Hin. lia.
      * set_solver.
    + intros H. exfalso.
      destruct (proj1 Hok eq_refl) as [Hb Hc]. tauto.
  - split.
    + intros Hb Hc. exfalso.
      assert (false = true) by (apply Hok; tauto). discriminate.
    + intros _. split; [reflexivity |]. apply Hopen2, Hw1.
Qed.


Lemma add_never_raises name prompt s :
  exists ok msg s',
    add_prompt_profile name prompt s = (inr (ok, msg), s')
    /\ (ok = true <-> ~ blank name /\ name ∉ names s)
    /\ profiles s' = if ok then <[name := prompt]> (profiles s)
                     else profiles s.
Proof.
  destruct (decide (blank name)) as [Hb | Hb].
  { rewrite add_prompt_profile_blank by exact Hb.
    eexists false, _, _. split; [reflexivity |].
    split; [| reflexivity]. split; [discriminate | tauto]. }
  destruct (decide (name ∈ names s)) as [Hin | Hin].
  { rewrite add_prompt_profile_in_use by assumption.
    eexists false, _, _. split; [reflexivity |].
    split; [| apply profiles_rebind]. split; [discriminate | tauto]. }
  rewrite add_prompt_profile_fresh by assumption.
  eexists true, _, _. split; [reflexivity |].
  split; [tauto |]. rewrite profiles_followed, profiles_written. reflexivity.
Qed.

(** X17: the window the add button opens adds a profile: a save from it with
    a name that is not blank and not in the list of profile names saves the
    profile, closes the window and forgets it; with any other name the
    mapping stays, and so does the window, under a popup with the message.
    *)
Theorem add_window_adds_profile (env env' : Env) (a : t)
    (name prompt : str) :
  let s := prompt_manager a in
  let w := Gui.next_window (gui a) in
  exists a1,
    loop_body OPEN_ADD_PROMPT_WINDOW env a = (Next, a1)
    /\ w ∈ Gui.open_windows (gui a1)
    /\ add_new_prompt_window a1 = Some w
    /\ profiles (prompt_manager a1) = profiles s
    /\ exists a2,
        loop_body (ADD_PROMPT_PROFILE w name prompt) env' a1 = (Next, a2)
        /\ (~ blank name -> name ∉ names s ->
            profiles (prompt_manager a2)
            = (<[name := prompt]> (profiles s))
            /\ (w ∉ Gui.open_windows (gui a2))
            /\ add_new_prompt_window a2 = None)
        /\ (blank name \/ name ∈ names s ->
            profiles (prompt_manager a2) = profiles s
            /\ w ∈ Gui.open_windows (gui a2)
            /\ Gui.next_window (gui a1) ∈ Gui.open_windows (gui a2)).
Proof.
  intros s w.
  assert (Hopen : exists a1,
             loop_body OPEN_ADD_PROMPT_WINDOW env a = (Next, a1)
             /\ w ∈ Gui.open_windows (gui a1)
             /\ add_new_prompt_window a1 = Some w
             /\ metadata a1 !! w = Some []
             /\ prompt_manager a1 = s
             /\ Gui.next_window (gui a1) = Pos.succ w).
  { unfold loop_body, dispatch, popup_add_prompt_profile,
      popup_add_edit_prompt_profile, new_window.
    simpl Gui.new_window. cbn beta iota.
    eexists. split; [reflexivity |].
    match goal with
    | |- context [housekeeping ?ev ?env ?a0] =>
        destruct (housekeeping_keeps ev env a0)
          as (-> & -> & -> & _ & _ & _ & -> & _ & ->)
    end.
    simpl. split; [set_solver |]. split; [reflexivity |].
    split; [apply lookup_insert_eq |]. split; reflexivity. }
  destruct Hopen as (a1 & Hrun1 & Hw1 & Ha1 & Hm1 & Hs1 & Hn1).
  exists a1. split; [exact Hrun1 |]. split; [exact Hw1 |].
  split; [exact Ha1 |]. split; [rewrite Hs1; reflexivity |].
  destruct (add_never_raises name prompt (prompt_manager a1))
    as (ok & msg & s' & Hadd & Hok & Hp).
  rewrite Hs1 in Hok, Hp.
  unfold loop_body, dispatch. rewrite Hm1, (call_run _ _ _ _ Hadd).
  unfold after_add_edit. destruct ok.
  - destruct (reload_prompt_manager_window _ _) as [pmw a3] eqn:E.
    eexists. split; [reflexivity |].
    destruct (housekeeping_keeps (ADD_PROMPT_PROFILE w name prompt) env'
                (set_prompt_manager_window pmw a3))
      as (-> & -> & _ & _ & _ & _ & -> & _).
    change (prompt_manager (set_prompt_manager_window pmw a3))
      with (prompt_manager a3).
    change (gui (set_prompt_manager_window pmw a3)) with (gui a3).
    change (add_new_prompt_window (set_prompt_manager_window pmw a3))
      with (add_new_prompt_window a3).
    destruct (reload_keeps _ _ _ _ E) as (-> & _).
    split.
    + intros _ _. split; [exact Hp |]. split.
      * intros Hin. apply (reload_opens _ _ _ _ E) in Hin. simpl in Hin.
        rewrite Hn1 in Hin.
        apply elem_of_union in Hin as [Hin | Hin].
        -- apply elem_of_singleton in Hin. lia.
        -- set_solver.
      * revert E. unfold reload_prompt_manager_window, popup_prompt_manager.
        simpl. repeat case_match; intros [= <- <-]; reflexivity.
    + intros H. exfalso. destruct (proj1 Hok eq_refl). tauto.
  - eexists. split; [reflexivity |].
    destruct (housekeeping_keeps (ADD_PROMPT_PROFILE w name prompt) env'
                (popup_tracked_modal (set_prompt_manager s' a1)))
      as (-> & -> & _).
    split.
    + intros Hb Hin. exfalso.
      assert (false = true) by (apply Hok; tauto). discriminate.
    + intros _. split; [exact Hp |]. simpl. split; set_solver.
Qed.

(** The windows after a reload of the prompt manager window [old]. *)
Lemma reload_windows loc a old :
  prompt_manager_window a = Some old ->
  let new := Gui.next_window (gui a) in
  let r := reload_prompt_manager_window loc a in
  match loc with
  | Some _ =>
      r.1 = Some new
      /\ Gui.open_windows (gui r.2)
         = ({[new]} ∪ Gui.open_windows (gui a)) ∖ {[old]}
      /\ window_tracker r.2 = window_tracker a ++ [new]
  | None =>
      r.1 = None
      /\ Gui.open_windows (gui r.2)
         = ({[new]} ∪ Gui.open_windows (gui a)) ∖ {[new]}
      /\ window_tracker r.2 = window_tracker a
  end.
Proof.
  intros Hold new r. subst new r.
  unfold reload_prompt_manager_window, popup_prompt_manager, PopupError.
  rewrite Hold. destruct loc; [| repeat split].
  destruct (saved_prompt_profiles_list_run (prompt_manager a))
    as (l & Hl & _).
  rewrite (call_run _ _ _ _ Hl).
  unfold App.update, ModalWindowManager.update. simpl. repeat split.
Qed.

(** X18: the delete event, with a listed row selected while the prompt
    manager window is open, reloads that window. When the location of the
    window is known, the iteration ends normally with
    [prompt_manager_window] a new window, which is open and tracked by the
    window tracker, the old window closed and every other window as it was.
    When the location is not known, the iteration ends normally too, once
    the error popup has been closed; [prompt_manager_window] is then [None]
    although the old window is still open, and the windows that are open
    and the windows the tracker holds are as before. *)
Theorem delete_event_reloads_window (i : nat) (rows : list nat) (env : Env)
    (a : t) (n : str) (old : window) :
  tail (names (prompt_manager a)) !! i = Some n ->
  prompt_manager_window a = Some old ->
  old ∈ Gui.open_windows (gui a) ->
  Gui.next_window (gui a) ∉ Gui.open_windows (gui a) ->
  let r := loop_body (DELETE_PROMPT (i :: rows)) env a in
  let new := Gui.next_window (gui a) in
  r.1 = Next
  /\ match location env with
     | Some _ =>
         prompt_manager_window r.2 = Some new
         /\ new ∈ Gui.open_windows (gui r.2)
         /\ (old ∉ Gui.open_windows (gui r.2))
         /\ (forall w, w <> old -> w <> new ->
             w ∈ Gui.open_windows (gui r.2) <-> w ∈ Gui.open_windows (gui a))
         /\ window_tracker r.2 = window_tracker a ++ [new]
     | None =>
         prompt_manager_window r.2 = None
         /\ old ∈ Gui.open_windows (gui r.2)
         /\ Gui.open_windows (gui r.2) = Gui.open_windows (gui a)
         /\ window_tracker r.2 = window_tracker a
     end.
Proof.
  intros Hi Hold Hopen Hnew r new. subst r new.
  unfold loop_body, dispatch.
  rewrite (call_run _ _ _ _ (saved_prompt_profile_names_run _)), Hi.
  assert (Hn : is_Some (profiles (rebind (prompt_manager a)) !! n)).
  { rewrite profiles_rebind. apply tail_names_saved.
    eapply list_elem_of_lookup_2, Hi. }
  rewrite (call_run (delete_prompt_profile n)
             (set_prompt_manager (rebind (prompt_manager a)) a) _ _
             (delete_prompt_profile_present n _ Hn)).
  match goal with
  | |- context [reload_prompt_manager_window ?l ?x] =>
      pose proof (reload_windows l x old Hold) as Hr;
      destruct (reload_prompt_manager_window l x) as [pmw a1]
  end.
  cbn [fst snd] in *. split; [reflexivity |].
  destruct (housekeeping_keeps (DELETE_PROMPT (i :: rows)) env
              (set_prompt_manager_window pmw a1))
    as (_ & -> & _ & -> & _ & -> & _).
  cbn [gui window_tracker prompt_manager_window set_prompt_manager_window
       set_prompt_manager] in *.
  destruct (location env); destruct Hr as (-> & -> & ->).
  - repeat split; set_solver.
  - assert (He : ({[Gui.next_window (gui a)]} ∪ Gui.open_windows (gui a))
                 ∖ {[Gui.next_window (gui a)]}
                 = Gui.open_windows (gui a)) by set_solver.
    rewrite He. repeat split. exact Hopen.
Qed.

(** With "A" saved and the prompt manager window, window 3, open: the
    delete of row 0 makes window 4 the prompt manager window and closes
    window 3 when the location is known, and leaves window 3 open, under
    no name, when it is not. *)
Lemma delete_event_reloads_window_witness :
  let A := of_string "A" in
  let env := mkEnv 0 true None (Some (0, 0)%Z) in
  let env' := mkEnv 0 true None None in
  let a :=
    (loop [ (OPEN_ADD_PROMPT_WINDOW, env);
            (ADD_PROMPT_PROFILE 2%positive A A, env);
            (START_PROMPT_MANAGER, env) ] (setup ∅ None [] None)).2 in
  (prompt_manager_window (loop_body (DELETE_PROMPT [0%nat]) env a).2
   = Some 4%positive
   /\ 3%positive
      ∉ Gui.open_windows (gui (loop_body (DELETE_PROMPT [0%nat]) env a).2))
  /\ (prompt_manager_window (loop_body (DELETE_PROMPT [0%nat]) env' a).2
      = None
      /\ 3%positive
         ∈ Gui.open_windows
             (gui (loop_body (DELETE_PROMPT [0%nat]) env' a).2)).
Proof.
  intros A env env' a.
  assert (Hi : tail (names (prompt_manager a)) !! 0%nat = Some A)
    by (vm_compute; reflexivity).
  assert (Hold : prompt_manager_window a = Some 3%positive)
    by (vm_compute; reflexivity).
  assert (Hopen : 3%positive ∈ Gui.open_windows (gui a)).
  { apply (bool_decide_eq_true_1 (_ ∈ _)). vm_compute. reflexivity. }
  assert (Hnew : Gui.next_window (gui a) ∉ Gui.open_windows (gui a)).
  { apply (bool_decide_eq_false_1 (_ ∈ _)). vm_compute. reflexivity. }
  split.
  - destruct (delete_event_reloads_window 0 [] env a A 3%positive
                Hi Hold Hopen Hnew) as (_ & H1 & _ & H3 & _).
    split; [exact H1 | exact H3].
  - destruct (delete_event_reloads_window 0 [] env' a A 3%positive
                Hi Hold Hopen Hnew) as (_ & H1 & H2 & _).
    split; [exact H1 | exact H2].
Defined.

(** *** A new scaling *)

Lemma fold_close_run ws a :
  let a' := fold_left (fun a win => close win a) ws a in
  Gui.open_windows (gui a') = Gui.open_windows (gui a) ∖ list_to_set ws
  /\ Gui.next_window (gui a') = Gui.next_window (gui a)
  /\ prompt_manager a' = prompt_manager a
  /\ selected_profile_setting a' = selected_profile_setting a.
Proof.
  revert a. induction ws as [| w ws IH]; intros a; simpl.
  - repeat split. set_solver.
  - destruct (IH (close w a)) as (-> & -> & -> & ->). simpl.
    repeat split. set_solver.
Qed.

Lemma make_tracked_run a :
  let new := Gui.next_window (gui a) in
  exists a',
    make_tracked_main_window_with_synced_profiles a = (new, a')
    /\ Gui.open_windows (gui a') = {[new]} ∪ Gui.open_windows (gui a)
    /\ window_tracker a' = window_tracker a ++ [new]
    /\ _dropdown_window (prompt_manager a') = Some new
    /\ _dropdown_key (prompt_manager a') = Some Keys.PROMPT_PROFILE_DROPDOWN
    /\ elements (prompt_manager a')
       = <[(new, Keys.PROMPT_PROFILE_DROPDOWN) :=
             mkCombo (default unsaved_prompt_profile_name
                        (selected_profile_setting a))
               (names (prompt_manager a)) 0]>
           (elements (prompt_manager a))
    /\ profiles (prompt_manager a') = profiles (prompt_manager a).
Proof.
  intros new.
  unfold make_tracked_main_window_with_synced_profiles, make_main_window.
  rewrite (call_run _ _ _ _ (prompt_profile_names_run _)).
  rewrite (call_run saved_prompt_profiles _ _ _
             (saved_prompt_profiles_run _)).
  cbn beta iota. unfold new_window. simpl Gui.new_window. cbn beta iota.
  unfold call, set_prompt_profile_dropdown, modify. cbn beta iota.
  eexists. split; [reflexivity |].
  repeat split.
  change (profiles (rebind (rebind (prompt_manager a)))
          = profiles (prompt_manager a)).
  rewrite !profiles_rebind. reflexivity.
Qed.

(** X19: the scaling of the settings tab is applied when the input is a
    number from 0.5 to 3: every window the tracker holds is closed, a new
    main window is made and is the only window tracked, and the prompt
    manager is bound to the dropdown of the new window, which lists the
    profile names and shows the profile saved as the selection, the unsaved
    profile by default. When the input is no decimal, is infinite or is out
    of the range, a popup is tracked as a modal window and the iteration
    takes [continue]: nothing is closed. When it is a NaN, the comparison
    raises [InvalidOperation]. *)
Theorem scaling_event_cases (scaling_input : option Decimal) (env : Env)
    (a : t) :
  let r := loop_body (APPLY_GLOBAL_SCALING scaling_input) env a in
  let remade :=
    let new := Gui.next_window (gui a) in
    r.1 = Next
    /\ main_window r.2 = new
    /\ window_tracker r.2 = [new]
    /\ Gui.open_windows (gui r.2)
       = {[new]} ∪ (Gui.open_windows (gui a) ∖ list_to_set (window_tracker a))
    /\ _dropdown_window (prompt_manager r.2) = Some new
    /\ _dropdown_key (prompt_manager r.2) = Some Keys.PROMPT_PROFILE_DROPDOWN
    /\ (exists c,
          elements (prompt_manager r.2) !! (new, Keys.PROMPT_PROFILE_DROPDOWN)
          = Some c
          /\ values c = names (prompt_manager a)
          /\ value c = default unsaved_prompt_profile_name
                         (selected_profile_setting a))
    /\ profiles (prompt_manager r.2) = profiles (prompt_manager a) in
  let refused := r = (Continue, popup_tracked_modal a) in
  match scaling_input with
  | None => refused
  | Some NaN => r = (Raise InvalidOperation, a)
  | Some (Infinity _) => refused
  | Some (Finite q) =>
      ((1 # 2 <= q)%Q /\ (q <= 3 # 1)%Q -> remade)
      /\ (~ ((1 # 2 <= q)%Q /\ (q <= 3 # 1)%Q) -> refused)
  end.
Proof.
  intros r remade refused. subst r remade refused.
  destruct scaling_input as [[q | neg |] |]; try reflexivity.
  assert (Hq : scaling_in_range (Finite q) = Some true
               <-> (1 # 2 <= q)%Q /\ (q <= 3 # 1)%Q).
  { simpl. rewrite <- !Qle_bool_iff.
    destruct (Qle_bool (1 # 2) q), (Qle_bool q (3 # 1)); simpl;
      split; try tauto; try discriminate; intros [? ?]; discriminate. }
  split.
  - intros H. apply Hq in H.
    unfold loop_body, dispatch. rewrite H.
    destruct (fold_close_run (window_tracker a) a) as (Ho & Hn & Hp & Hs).
    set (a1 := fold_left _ _ a) in *.
    destruct (make_tracked_run (set_window_tracker [] a1))
      as (a2 & Hrun & Ho2 & Ht2 & Hw2 & Hk2 & He2 & Hp2).
    simpl in Hrun, Ho2, Ht2, Hw2, He2, Hp2.
    rewrite Hrun. cbn [fst snd].
    match goal with
    | |- context [housekeeping ?ev ?env ?a0] =>
        destruct (housekeeping_keeps ev env a0)
          as (-> & -> & _ & -> & -> & _)
    end.
    simpl. rewrite Hn in *. rewrite Ho2, Ht2, Hw2, Hk2, He2, Hp2, Ho, Hp, Hs.
    repeat split.
    eexists. split; [apply lookup_insert_eq |]. split; reflexivity.
  - intros H. unfold loop_body, dispatch.
    destruct (scaling_in_range (Finite q)) as [[] |] eqn:E;
      [exfalso; apply H, Hq; reflexivity | reflexivity | discriminate].
Qed.


(** *** The dropdown the prompt manager is bound to *)

Lemma bound_same a a' :
  _dropdown_window (prompt_manager a') = _dropdown_window (prompt_manager a) ->
  _dropdown_key (prompt_manager a') = _dropdown_key (prompt_manager a) ->
  (forall k, is_Some (elements (prompt_manager a) !! k) ->
             is_Some (elements (prompt_manager a') !! k)) ->
  main_window a' = main_window a ->
  dropdown_bound_to_main_window a -> dropdown_bound_to_main_window a'.
Proof.
  unfold dropdown_bound_to_main_window.
  intros -> -> He -> (Hw & Hk & Hel). auto.
Qed.

Lemma followed_keeps r s :
  _dropdown_window (followed r s) = _dropdown_window s
  /\ _dropdown_key (followed r s) = _dropdown_key s
  /\ forall k, is_Some (elements s !! k) ->
               is_Some (elements (followed r s) !! k).
Proof.
  unfold followed.
  destruct (_dropdown_window s) as [w |] eqn:Hw; [| auto].
  destruct (_dropdown_key s) as [k |] eqn:Hk; [| auto].
  destruct (elements s !! (w, k)) as [c |] eqn:He; [| auto].
  unfold synced.
  destruct (r (value c)); simpl; rewrite Hw, Hk; repeat split;
    intros k' Hk'; (destruct (decide ((w, k) = k')) as [<- | Hne];
      [rewrite lookup_insert_eq; eauto
      | rewrite lookup_insert_ne by exact Hne; exact Hk']).
Qed.

Lemma apply_binding o s :
  _dropdown_window (apply s o) = _dropdown_window s
  /\ _dropdown_key (apply s o) = _dropdown_key s
  /\ forall k, is_Some (elements s !! k) ->
               is_Some (elements (apply s o) !! k).
Proof.
  destruct (apply_cases o s) as [(_ & -> & -> & -> & _) | (r & d & -> & _)];
    [auto |].
  apply (followed_keeps r (written d s)).
Qed.

Lemma bound_call {A} (m : M A) a r a' :
  call m a = (r, a') ->
  (m (prompt_manager a)).2 = rebind (prompt_manager a)
  \/ (exists o, (m (prompt_manager a)).2 = apply (prompt_manager a) o) ->
  dropdown_bound_to_main_window a -> dropdown_bound_to_main_window a'.
Proof.
  unfold call. destruct (m _) as [r' p]. intros [= <- <-] Hp. simpl in Hp.
  destruct Hp as [-> | [o ->]].
  - apply bound_same; auto.
  - destruct (apply_binding o (prompt_manager a)) as (Hw & Hk & He).
    apply bound_same; auto.
Qed.

Lemma bound_reload loc a r a' :
  reload_prompt_manager_window loc a = (r, a') ->
  dropdown_bound_to_main_window a -> dropdown_bound_to_main_window a'.
Proof.
  intros E. destruct (reload_keeps _ _ _ _ E) as (_ & _ & _ & Hm & Hw & Hk & He).
  apply bound_same; auto. rewrite He. auto.
Qed.

Lemma bound_after_add_edit w env r a :
  dropdown_bound_to_main_window a ->
  dropdown_bound_to_main_window (after_add_edit w env (r, a)).2.
Proof.
  intros H. unfold after_add_edit.
  destruct r as [e | [[] msg]]; simpl.
  - exact H.
  - destruct (reload_prompt_manager_window _ _) as [pmw a1] eqn:E. simpl.
    eapply (bound_same a1); auto.
    eapply bound_reload; [exact E |].
    revert H. apply bound_same; auto.
  - revert H. apply bound_same; auto.
Qed.

Lemma bound_dispatch ev env a :
  dropdown_bound_to_main_window a ->
  dropdown_bound_to_main_window (dispatch ev env a).2.
Proof.
  intros H. unfold dispatch. destruct ev; try exact H.
  - (* Closing *)
    repeat case_match; simpl; try exact H;
      revert H; apply bound_same; auto.
  - (* OPEN_EDIT_PROMPT_WINDOW *)
    destruct selected_table_row_indices as [| i rows];
      [revert H; apply bound_same; auto |].
    destruct (call saved_prompt_profiles_list a) as [l a1] eqn:E.
    assert (H1 : dropdown_bound_to_main_window a1)
      by (eapply bound_call; [exact E | left; reflexivity | exact H]).
    destruct l as [e | l]; [exact H1 |].
    destruct (l !! i) as [[n p] |]; [| exact H1].
    revert H1. apply bound_same; auto.
  - (* ADD_PROMPT_PROFILE *)
    destruct (metadata a !! w) as [o |]; [| exact H].
    destruct (call _ a) as [r a1] eqn:E.
    apply bound_after_add_edit.
    eapply bound_call; [exact E | right | exact H].
    exists (Add new_profile_name new_profile_prompt). reflexivity.
  - (* EDIT_PROMPT_PROFILE *)
    destruct (metadata a !! w) as [o |]; [| exact H].
    destruct (call _ a) as [r a1] eqn:E.
    apply bound_after_add_edit.
    eapply bound_call; [exact E | right | exact H].
    exists (Edit new_profile_name new_profile_prompt o). reflexivity.
  - (* DELETE_PROMPT *)
    destruct selected_table_row_indices as [| i rows];
      [revert H; apply bound_same; auto |].
    destruct (call saved_prompt_profile_names a) as [l a1] eqn:E1.
    assert (H1 : dropdown_bound_to_main_window a1)
      by (eapply bound_call; [exact E1 | left; reflexivity | exact H]).
    destruct l as [e | l]; [exact H1 |].
    destruct (l !! i) as [n |]; [| exact H1].
    destruct (call (delete_prompt_profile n) a1) as [r a2] eqn:E2.
    assert (H2 : dropdown_bound_to_main_window a2).
    { eapply bound_call; [exact E2 | right | exact H1].
      exists (Delete n). reflexivity. }
    destruct r as [e | []]; [exact H2 |].
    destruct (reload_prompt_manager_window _ _) as [pmw a3] eqn:E3. simpl.
    eapply (bound_same a3); auto.
    eapply bound_reload; eassumption.
  - (* INITIAL_PROMPT_INPUT *)
    revert H. apply bound_same; auto. simpl.
    intros k Hk. rewrite lookup_alter. case_decide; [| exact Hk].
    subst. destruct Hk as [c ->]. eauto.
  - (* PROMPT_PROFILE_DROPDOWN *)
    destruct (call saved_prompt_profile_names a) as [l a1] eqn:E1.
    assert (H1 : dropdown_bound_to_main_window a1)
      by (eapply bound_call; [exact E1 | left; reflexivity | exact H]).
    destruct l as [e | l]; [exact H1 |].
    case_bool_decide.
    + destruct (call saved_prompt_profiles a1) as [r a2] eqn:E2. simpl.
      eapply (bound_same a2); auto.
      eapply bound_call; [exact E2 | left; reflexivity | exact H1].
    + case_bool_decide; [| exact H1].
      revert H1. apply bound_same; auto.
  - (* APPLY_GLOBAL_SCALING *)
    destruct scaling_input as [d |]; [| revert H; apply bound_same; auto].
    destruct (scaling_in_range d) as [[] |];
      [| revert H; apply bound_same; auto | exact H].
    match goal with
    | |- context [make_tracked_main_window_with_synced_profiles ?x] =>
        destruct (make_tracked_run x)
          as (a1 & -> & _ & _ & Hw & Hk & He & _)
    end.
    unfold dropdown_bound_to_main_window.
    cbn [fst snd prompt_manager main_window set_main_window].
    rewrite Hw, Hk, He, lookup_insert_eq. eauto.
  - (* START *)
    case_match; revert H; apply bound_same; auto.
  - (* TRANSCRIBE_SUCCESS *)
    destruct (Transcriber.done _ _ _) as [[time |] tr]; simpl;
      revert H; apply bound_same; auto.
Qed.

Lemma bound_loop evs a :
  dropdown_bound_to_main_window a ->
  dropdown_bound_to_main_window (loop evs a).2.
Proof.
  revert a. induction evs as [| [ev env] evs IH]; intros a H; simpl;
    [exact H |].
  pose proof (bound_dispatch ev env a H) as Hd.
  unfold loop_body.
  destruct (dispatch ev env a) as [o a1]. simpl in Hd.
  assert (Hh : dropdown_bound_to_main_window (housekeeping ev env a1)).
  { destruct (housekeeping_keeps ev env a1)
      as (Hp & _ & _ & _ & Hm & _).
    revert Hd. apply bound_same; rewrite ?Hp; auto. }
  destruct o; simpl; auto.
Qed.

(** X20: along every run of [start_GUI] the prompt manager is bound to the
    dropdown of the main window there is at the time: also after a new
    scaling has closed the old main window and made a new one, the changes
    of the profiles reach the dropdown of the window on screen. *)
Theorem dropdown_stays_bound_to_main_window (h : gmap ref dict)
    (u : option ref) (f : list dict) (selected : option str)
    (evs : list (Event * Env)) :
  dropdown_bound_to_main_window (start_GUI h u f selected evs).2.
Proof.
  apply bound_loop. unfold setup.
  match goal with
  | |- context [make_tracked_main_window_with_synced_profiles ?x] =>
      destruct (make_tracked_run x) as (a1 & -> & _ & _ & Hw & Hk & He & _)
  end.
  unfold dropdown_bound_to_main_window.
  cbn [fst snd prompt_manager main_window set_main_window].
  rewrite Hw, Hk, He, lookup_insert_eq. eauto.
Qed.


(** The dropdown of the main window shows "A" and "A" is deleted: the
    event written carries the unsaved profile name, and the loop's
    branch for it ends normally. *)
Lemma written_event_names_a_listed_profile_witness :
  let A := of_string "A" in
  let env := mkEnv 0 true None None in
  let a := set_prompt_manager bound_store (setup ∅ None [] None) in
  let s' := apply bound_store (Delete A) in
  event_queue s'
  = [(1%positive, Keys.PROMPT_PROFILE_DROPDOWN, unsaved_prompt_profile_name)]
  /\ (loop_body (PROMPT_PROFILE_DROPDOWN unsaved_prompt_profile_name) env
        (set_prompt_manager s' a)).1 = Next.
Proof.
  intros A env a s'.
  destruct (written_event_names_a_listed_profile (Delete A) env a
              1%positive Keys.PROMPT_PROFILE_DROPDOWN
              (mkCombo A [unsaved_prompt_profile_name; A] 6))
    as [Hq | (v & c' & Hq & _ & _ & _ & _ & Hrun)].
  - reflexivity.
  - reflexivity.
  - vm_compute. reflexivity.
  - exfalso. vm_compute in Hq. discriminate Hq.
  - assert (Hv : v = unsaved_prompt_profile_name).
    { vm_compute in Hq. injection Hq as <-. reflexivity. }
    subst v. split; [vm_compute; reflexivity | exact Hrun].
Defined.

End LoopHandlers.
